(** * E-commerce analytics: data preparation and business metrics

    A shallow embedding of [data_loader.py] and [business_metrics.py].

    Tables are pandas DataFrames.  A frame is modelled as its list of column
    names together with its labelled rows; the rows of each table are records
    whose fields are the columns the code reads.  Cells that pandas can leave
    empty (timestamps, the fields derived from them, a product category) are
    options, [None] standing for NaN / NaT.  Key columns ([order_id],
    [product_id], [customer_id]) and [price] are taken to be always filled in.

    Numbers: prices are exact rationals; a NumPy float is a rational or one
    of the three special values.  Rounding error, overflow and signed zeros
    of binary floating point are outside the model.

    Timestamps are read to the second, from the two layouts the data set
    uses.  The sort behind [sort_values] is known by its contract only.
    Python exceptions are results; frames that a function copies and then
    writes to are values, and [filter_by_date_range], whose effect on its
    argument is at stake, runs over a store of frame objects. *)

From Stdlib Require Import ZArith QArith Qround Lia Lqa List Permutation Sorted.
From Stdlib Require Import String Ascii.
From stdpp Require Import gmap strings list sorting.

Open Scope Z_scope.

(** ** Python exceptions *)

Module Py.

Inductive exn :=
| ValueError | KeyError | TypeError | AttributeError
| ParserError | ZeroDivisionError.

Inductive result (A : Type) :=
| Ok (a : A)
| Raise (e : exn).
Arguments Ok {A} a.
Arguments Raise {A} e.

Definition bind {A B} (m : result A) (k : A -> result B) : result B :=
  match m with
  | Ok a => k a
  | Raise e => Raise e
  end.

(** [for x in l: ...] where the body may raise. *)
Fixpoint traverse {A B} (f : A -> result B) (l : list A) : result (list B) :=
  match l with
  | [] => Ok []
  | x :: l' =>
      bind (f x) (fun y => bind (traverse f l') (fun ys => Ok (y :: ys)))
  end.

(** Truth value of an [Optional[int]] argument: [None] and [0] are falsy. *)
Definition truthy (o : option Z) : bool :=
  match o with
  | Some z => negb (z =? 0)
  | None => false
  end.

End Py.

Notation "'let!' x ':=' m 'in' k" := (Py.bind m (fun x => k))
  (at level 10, x name, m at level 100, k at level 200).

(** ** NumPy float64 scalars *)

Module Np.

Inductive float64 :=
| Finite (q : Q)
| PosInf
| NegInf
| NaN.

Definition isnan (x : float64) : bool :=
  match x with NaN => true | _ => false end.

Definition isinf (x : float64) : bool :=
  match x with PosInf | NegInf => true | _ => false end.

Definition sgn (q : Q) : comparison := (q ?= 0)%Q.

Definition neg (x : float64) : float64 :=
  match x with
  | Finite q => Finite (- q)
  | PosInf => NegInf
  | NegInf => PosInf
  | NaN => NaN
  end.

Definition sub (x y : float64) : float64 :=
  match x, y with
  | NaN, _ | _, NaN => NaN
  | Finite a, Finite b => Finite (a - b)
  | PosInf, PosInf | NegInf, NegInf => NaN
  | PosInf, _ => PosInf
  | NegInf, _ => NegInf
  | Finite _, PosInf => NegInf
  | Finite _, NegInf => PosInf
  end.

Definition mul (x y : float64) : float64 :=
  match x, y with
  | NaN, _ | _, NaN => NaN
  | Finite a, Finite b => Finite (a * b)
  | Finite a, PosInf | PosInf, Finite a =>
      match sgn a with Gt => PosInf | Lt => NegInf | Eq => NaN end
  | Finite a, NegInf | NegInf, Finite a =>
      match sgn a with Gt => NegInf | Lt => PosInf | Eq => NaN end
  | PosInf, PosInf | NegInf, NegInf => PosInf
  | PosInf, NegInf | NegInf, PosInf => NaN
  end.

(** NumPy true division: a zero divisor gives an infinity or NaN together
    with a RuntimeWarning; no exception is raised. *)
Definition div (x y : float64) : float64 :=
  match x, y with
  | NaN, _ | _, NaN => NaN
  | Finite a, Finite b =>
      match sgn b with
      | Eq => match sgn a with Gt => PosInf | Lt => NegInf | Eq => NaN end
      | _ => Finite (a / b)
      end
  | Finite _, (PosInf | NegInf) => Finite 0
  | PosInf, Finite b =>
      match sgn b with Lt => NegInf | _ => PosInf end
  | NegInf, Finite b =>
      match sgn b with Lt => PosInf | _ => NegInf end
  | (PosInf | NegInf), (PosInf | NegInf) => NaN
  end.

Definition of_Z (z : Z) : float64 := Finite (inject_Z z).

(** [Series.sum()] of a numeric column; the empty sum is 0. *)
Definition sum (l : list Q) : Q := fold_right Qplus 0%Q l.

(** [Series.mean()]; the mean of no values is NaN. *)
Definition mean (l : list Q) : float64 :=
  match l with
  | [] => NaN
  | _ => Finite (sum l / inject_Z (Z.of_nat (length l)))
  end.

(** [round(x, 2)]: nearest multiple of 1/100, halves to the even one. *)
Definition rint (q : Q) : Z :=
  let f := Qfloor q in
  match ((q - inject_Z f) ?= 1 # 2)%Q with
  | Lt => f
  | Gt => f + 1
  | Eq => if Z.even f then f else f + 1
  end.

Definition round2 (q : Q) : Q := Qred (inject_Z (rint (q * 100)) / 100)%Q.

(** [round(x, 1)] *)
Definition round1 (q : Q) : Q := Qred (inject_Z (rint (q * 10)) / 10)%Q.

End Np.

(** ** Timestamps *)

Module Timestamp.

(** A [pandas.Timestamp], to the second. *)
Record t := mk {
  year : Z; month : Z; day : Z;
  hour : Z; minute : Z; second : Z
}.

Definition quarter (ts : t) : Z := (month ts - 1) / 3 + 1.

(** Days from 1970-01-01 to the given civil date (proleptic Gregorian). *)
Definition days_from_civil (y m d : Z) : Z :=
  let y' := if m <=? 2 then y - 1 else y in
  let era := y' / 400 in
  let yoe := y' - era * 400 in
  let mp := if 2 <? m then m - 3 else m + 9 in
  let doy := (153 * mp + 2) / 5 + d - 1 in
  let doe := yoe * 365 + yoe / 4 - yoe / 100 + doy in
  era * 146097 + doe - 719468.

Definition to_seconds (ts : t) : Z :=
  days_from_civil (year ts) (month ts) (day ts) * 86400
  + hour ts * 3600 + minute ts * 60 + second ts.

(** [(a - b).days]: a [Timedelta]'s [days] is the floor of the difference
    in days, also for negative differences. *)
Definition sub_days (a b : t) : Z := (to_seconds a - to_seconds b) / 86400.

Definition is_leap (y : Z) : bool :=
  ((y mod 4 =? 0) && negb (y mod 100 =? 0)) || (y mod 400 =? 0).

Definition days_in_month (y m : Z) : Z :=
  if m =? 2 then (if is_leap y then 29 else 28)
  else if (m =? 4) || (m =? 6) || (m =? 9) || (m =? 11) then 30
  else 31.

Definition valid (ts : t) : bool :=
  (1 <=? month ts) && (month ts <=? 12)
  && (1 <=? day ts) && (day ts <=? days_in_month (year ts) (month ts))
  && (0 <=? hour ts) && (hour ts <? 24)
  && (0 <=? minute ts) && (minute ts <? 60)
  && (0 <=? second ts) && (second ts <? 60).

(** *** Reading a timestamp from CSV text

    The data set writes timestamps as [YYYY-MM-DD] or
    [YYYY-MM-DD HH:MM:SS]; these are the two layouts the model of
    [pd.to_datetime] reads.  Any other text is a parse failure. *)

Definition digit (c : ascii) : option Z :=
  let n := Z.of_N (N_of_ascii c) in
  if (48 <=? n) && (n <=? 57) then Some (n - 48) else None.

Fixpoint number (acc : Z) (cs : list ascii) : option Z :=
  match cs with
  | [] => Some acc
  | c :: cs' =>
      match digit c with
      | Some d => number (acc * 10 + d) cs'
      | None => None
      end
  end.

Definition is_char (n : Z) (c : ascii) : bool := Z.of_N (N_of_ascii c) =? n.

Definition parse_date (cs : list ascii) : option (Z * Z * Z) :=
  match cs with
  | [y1; y2; y3; y4; s1; m1; m2; s2; d1; d2] =>
      if is_char 45 s1 && is_char 45 s2 then
        match number 0 [y1; y2; y3; y4], number 0 [m1; m2], number 0 [d1; d2] with
        | Some y, Some m, Some d => Some (y, m, d)
        | _, _, _ => None
        end
      else None
  | _ => None
  end.

Definition parse_time (cs : list ascii) : option (Z * Z * Z) :=
  match cs with
  | [h1; h2; s1; m1; m2; s2; c1; c2] =>
      if is_char 58 s1 && is_char 58 s2 then
        match number 0 [h1; h2], number 0 [m1; m2], number 0 [c1; c2] with
        | Some h, Some m, Some s => Some (h, m, s)
        | _, _, _ => None
        end
      else None
  | _ => None
  end.

Definition check (ts : t) : option t := if valid ts then Some ts else None.

Definition parse (s : string) : option t :=
  let cs := list_ascii_of_string s in
  match parse_date (firstn 10 cs), skipn 10 cs with
  | Some (y, m, d), [] => check (mk y m d 0 0 0)
  | Some (y, m, d), sep :: rest =>
      if is_char 32 sep || is_char 84 sep then
        match parse_time rest with
        | Some (h, mi, se) => check (mk y m d h mi se)
        | None => None
        end
      else None
  | None, _ => None
  end.

End Timestamp.

(** ** The pandas operations the code calls *)

Module Pandas.
Import Py.

(** A cell of a date column: missing ([NaT]), a converted timestamp, or
    text as read from the CSV file and not converted yet. *)
Inductive date_cell :=
| NaT
| Stamp (ts : Timestamp.t)
| Text (s : string).

(** [pd.to_datetime] on one cell.  Text is read in the two layouts of the
    data set (see [Timestamp.parse]); pandas reads further layouts and
    bounds the year, so which texts are accepted is relied on only through
    calls that are known to have returned. *)
Definition to_datetime (c : date_cell) : result date_cell :=
  match c with
  | NaT => Ok NaT
  | Stamp ts => Ok (Stamp ts)
  | Text s =>
      match Timestamp.parse s with
      | Some ts => Ok (Stamp ts)
      | None => Raise ParserError
      end
  end.

(** The [.dt] accessor exists on datetime columns only. *)
Definition dt {A} (f : Timestamp.t -> A) (c : date_cell) : result (option A) :=
  match c with
  | NaT => Ok None
  | Stamp ts => Ok (Some (f ts))
  | Text _ => Raise AttributeError
  end.

(** [(a - b).dt.days] on one pair of cells; text cannot be subtracted. *)
Definition sub_days (a b : date_cell) : result (option Z) :=
  match a, b with
  | Text _, _ | _, Text _ => Raise TypeError
  | Stamp x, Stamp y => Ok (Some (Timestamp.sub_days x y))
  | _, _ => Ok None
  end.

(** A frame: its column names and its rows, each with its index label. *)
Record DataFrame (R : Type) := mkDataFrame {
  columns : list string;
  rows : list (Z * R)
}.
Arguments mkDataFrame {R} columns rows.
Arguments columns {R} d.
Arguments rows {R} d.

Definition values {R} (df : DataFrame R) : list R := map snd (rows df).

Definition len {R} (df : DataFrame R) : Z := Z.of_nat (length (rows df)).

Definition has_column {R} (df : DataFrame R) (c : string) : bool :=
  bool_decide (c ∈ columns df).

(** A fresh [RangeIndex]. *)
Definition range_index {R} (l : list R) : list (Z * R) :=
  imap (fun i r => (Z.of_nat i, r)) l.

(** [df[col]]: the column's cells, or KeyError. *)
Definition getitem {R A} (df : DataFrame R) (col : string) (field : R -> A)
  : result (list A) :=
  if has_column df col then Ok (map field (values df)) else Raise KeyError.

(** [df[[c1, c2, ...]]]. *)
Definition select {R} (df : DataFrame R) (cols : list string)
  : result (DataFrame R) :=
  if forallb (has_column df) cols
  then Ok (mkDataFrame cols (rows df))
  else Raise KeyError.

(** [df[mask]] for a row-wise boolean mask: labels are kept. *)
Definition getitem_mask {R} (df : DataFrame R) (mask : R -> bool)
  : DataFrame R :=
  mkDataFrame (columns df) (List.filter (fun lr => mask (snd lr)) (rows df)).

(** Update every row of a frame; the update may raise. *)
Definition assign {R} (df : DataFrame R) (new_cols : list string)
    (f : R -> result R) : result (DataFrame R) :=
  let! rs := traverse (fun lr => let! r := f (snd lr) in Ok (fst lr, r))
               (rows df) in
  Ok (mkDataFrame
        (columns df ++ List.filter (fun c => negb (has_column df c)) new_cols)
        rs).

(** *** Joins.  Rows come in the order pandas documents: that of the left
    rows, each left row paired with the right rows of equal key in the
    order of the right table. *)
Section Merge.
Context {L R' K O : Type} `{EqDecision K}.
Variables (kl : L -> K) (kr : R' -> K).

Definition matches (l : L) (right : list R') : list R' :=
  List.filter (fun r => bool_decide (kl l = kr r)) right.

Definition merge_inner (join : L -> R' -> O)
    (left : list L) (right : list R') : list O :=
  flat_map (fun l => map (join l) (matches l right)) left.

Definition merge_left (join : L -> option R' -> O)
    (left : list L) (right : list R') : list O :=
  flat_map (fun l =>
              match matches l right with
              | [] => [join l None]
              | ms => map (fun r => join l (Some r)) ms
              end) left.
End Merge.

(** *** Grouping.  [groupby] lists the groups by ascending key; rows whose
    key is missing belong to no group (pandas' default [dropna=True]). *)
Class Ord (K : Type) := leb : K -> K -> bool.

#[global] Instance Z_ord : Ord Z := Z.leb.
#[global] Instance string_ord : Ord string := String.leb.
#[global] Instance pair_ord {A B} `{EqDecision A} `{Ord A} `{Ord B}
  : Ord (A * B) :=
  fun x y =>
    if bool_decide (fst x = fst y) then leb (snd x) (snd y)
    else leb (fst x) (fst y).

Section Group.
Context {K R : Type} `{EqDecision K} `{Ord K}.

Fixpoint insert_key (k : K) (l : list K) : list K :=
  match l with
  | [] => [k]
  | x :: l' => if leb k x then k :: l else x :: insert_key k l'
  end.

Definition sort_keys (l : list K) : list K := fold_right insert_key [] l.

(** The distinct keys present, ascending. *)
Definition unique_sorted (col : list (option K)) : list K :=
  sort_keys (remove_dups (omap id col)).

Definition group_of (key : R -> option K) (k : K) (l : list R) : list R :=
  List.filter (fun r => bool_decide (key r = Some k)) l.

Definition groupby (key : R -> option K) (l : list R) : list (K * list R) :=
  map (fun k => (k, group_of key k l)) (unique_sorted (map key l)).

(** [Series.nunique()]: distinct values, missing ones not counted. *)
Definition nunique (col : list (option K)) : Z :=
  Z.of_nat (length (remove_dups (omap id col))).
End Group.

(** [groupby(...)[col].agg(f)]: one value per group. *)
Definition agg {K R A} (f : list R -> A) (g : list (K * list R))
  : list (K * A) :=
  map (fun kg => (fst kg, f (snd kg))) g.

(** *** Sorting.  [sort_values] uses NumPy's argsort with the default kind
    (quicksort), of which only the contract is known: the result is the
    input rearranged into ascending order of the key.  Which of two rows
    of equal key comes first is left to the implementation. *)
Class Sorter := {
  sort_asc : forall {A}, (A -> Q) -> list A -> list A
}.

(** [sort_values(col, ascending=False)]: pandas reverses the rows, sorts
    them ascending and reverses the result. *)
Definition sort_values_desc `{Sorter} {A} (key : A -> Q) (l : list A)
  : list A :=
  rev (sort_asc key (rev l)).

(** A stable sort: insertion after the elements of equal key. *)
Fixpoint insert_by {A} (key : A -> Q) (x : A) (l : list A) : list A :=
  match l with
  | [] => [x]
  | y :: l' =>
      if Qle_bool (key y) (key x) then y :: insert_by key x l'
      else x :: l
  end.

Definition stable_sort {A} (key : A -> Q) (l : list A) : list A :=
  fold_left (fun acc x => insert_by key x acc) l [].

Definition stable_sorter : Sorter := {| sort_asc := @stable_sort |}.

(** Another sort meeting the same contract, with ties the other way. *)
Definition reversing_sorter : Sorter :=
  {| sort_asc := fun A key l => stable_sort key (rev l) |}.

(** [head(n)]: the first [n] rows; for negative [n], all but the last
    [-n] rows. *)
Definition head {A} (n : Z) (l : list A) : list A :=
  if 0 <=? n then firstn (Z.to_nat n) l
  else firstn (length l - Z.to_nat (- n))%nat l.

(** [Series.pct_change()]: each value divided by the one before it, minus
    one; the first entry has no predecessor and is NaN. *)
Fixpoint pct_change_from (prev : Np.float64) (l : list Np.float64)
  : list Np.float64 :=
  match l with
  | [] => []
  | x :: l' =>
      Np.sub (Np.div x prev) (Np.Finite 1) :: pct_change_from x l'
  end.

Definition pct_change (l : list Np.float64) : list Np.float64 :=
  pct_change_from Np.NaN l.

(** [drop_duplicates(subset=[key])]: the first row of each key is kept. *)
Fixpoint drop_duplicates {A K} `{EqDecision K} (key : A -> K) (l : list A)
  : list A :=
  match l with
  | [] => []
  | x :: l' =>
      x :: List.filter (fun y => negb (bool_decide (key y = key x)))
             (drop_duplicates key l')
  end.

(** The distinct values of a column, in order of first appearance. *)
Definition unique {A} `{EqDecision A} (l : list A) : list A :=
  drop_duplicates id l.

Definition count_of {A} `{EqDecision A} (x : A) (l : list A) : Z :=
  Z.of_nat (length (List.filter (fun y => bool_decide (y = x)) l)).

(** [Series.value_counts()]: each distinct value with the number of its
    occurrences, sorted by that number, largest first. *)
Definition value_counts `{Sorter} {A} `{EqDecision A} (l : list A)
  : list (A * Z) :=
  sort_values_desc (fun e => inject_Z (snd e))
    (map (fun x => (x, count_of x l)) (unique l)).

(** [Series.value_counts(normalize=True)]: the counts divided by their
    sum. *)
Definition value_counts_normalize `{Sorter} {A} `{EqDecision A} (l : list A)
  : list (A * Np.float64) :=
  let counts := value_counts l in
  let total := fold_right Z.add 0 (map snd counts) in
  map (fun e => (fst e, Np.div (Np.of_Z (snd e)) (Np.of_Z total))) counts.

(** [Series.get(key, default)] on a series with the given index. *)
Definition series_get {A V} `{EqDecision A} (s : list (A * V)) (k : A)
  : option V :=
  match List.find (fun e => bool_decide (fst e = k)) s with
  | Some e => Some (snd e)
  | None => None
  end.

(** [Series.sort_index()] *)
Definition sort_index `{Sorter} {V} (s : list (Z * V)) : list (Z * V) :=
  sort_asc (fun e => inject_Z (fst e)) s.

End Pandas.

(** ** The tables of the data set *)

Module OrderItem.
Record t := mk {
  order_id : string;
  order_item_id : Z;
  product_id : string;
  price : Q;
  freight_value : Q
}.
End OrderItem.

Module Order.
Record t := mk {
  order_id : string;
  customer_id : string;
  order_status : string;
  order_purchase_timestamp : Pandas.date_cell;
  order_delivered_customer_date : Pandas.date_cell
}.
End Order.

Module Product.
Record t := mk {
  product_id : string;
  product_category_name : option string
}.
End Product.

Module Customer.
Record t := mk {
  customer_id : string;
  customer_state : option string;
  customer_city : option string
}.
End Customer.

Module Review.
Record t := mk {
  order_id : string;
  review_score : Z
}.
End Review.

(** A row of the sales table.  [time_features] holds the integer columns
    that [add_time_features] derives, under their column names. *)
Module Sales.
Record t := mk {
  order_id : string;
  order_item_id : Z;
  product_id : string;
  price : Q;
  freight_value : Q;
  customer_id : string;
  order_status : string;
  order_purchase_timestamp : Pandas.date_cell;
  order_delivered_customer_date : Pandas.date_cell;
  time_features : gmap string (option Z);
  delivery_speed_days : option Z;
  delivery_category : option string
}.

(** The cell of a derived integer column; NaN when it holds no value. *)
Definition int_cell (col : string) (r : t) : option Z :=
  match time_features r !! col with
  | Some v => v
  | None => None
  end.

Definition year (r : t) : option Z := int_cell "order_purchase_timestamp_year" r.
Definition month (r : t) : option Z := int_cell "order_purchase_timestamp_month" r.

Definition date_cell_of (col : string) (r : t) : option Pandas.date_cell :=
  if bool_decide (col = "order_purchase_timestamp")
  then Some (order_purchase_timestamp r)
  else if bool_decide (col = "order_delivered_customer_date")
  then Some (order_delivered_customer_date r)
  else None.

Definition set_date_cell (col : string) (c : Pandas.date_cell) (r : t) : t :=
  if bool_decide (col = "order_purchase_timestamp")
  then mk (order_id r) (order_item_id r) (product_id r) (price r)
          (freight_value r) (customer_id r) (order_status r)
          c (order_delivered_customer_date r)
          (time_features r) (delivery_speed_days r) (delivery_category r)
  else if bool_decide (col = "order_delivered_customer_date")
  then mk (order_id r) (order_item_id r) (product_id r) (price r)
          (freight_value r) (customer_id r) (order_status r)
          (order_purchase_timestamp r) c
          (time_features r) (delivery_speed_days r) (delivery_category r)
  else r.

Definition set_time_feature (col : string) (v : option Z) (r : t) : t :=
  mk (order_id r) (order_item_id r) (product_id r) (price r)
     (freight_value r) (customer_id r) (order_status r)
     (order_purchase_timestamp r) (order_delivered_customer_date r)
     (<[col := v]> (time_features r))
     (delivery_speed_days r) (delivery_category r).

Definition set_delivery_speed_days (v : option Z) (r : t) : t :=
  mk (order_id r) (order_item_id r) (product_id r) (price r)
     (freight_value r) (customer_id r) (order_status r)
     (order_purchase_timestamp r) (order_delivered_customer_date r)
     (time_features r) v (delivery_category r).

Definition set_delivery_category (v : option string) (r : t) : t :=
  mk (order_id r) (order_item_id r) (product_id r) (price r)
     (freight_value r) (customer_id r) (order_status r)
     (order_purchase_timestamp r) (order_delivered_customer_date r)
     (time_features r) (delivery_speed_days r) v.

(** The row [pd.merge] builds from an order item and its order. *)
Definition join (i : OrderItem.t) (o : Order.t) : t :=
  mk (OrderItem.order_id i) (OrderItem.order_item_id i)
     (OrderItem.product_id i) (OrderItem.price i)
     (OrderItem.freight_value i)
     (Order.customer_id o) (Order.order_status o)
     (Order.order_purchase_timestamp o)
     (Order.order_delivered_customer_date o)
     ∅ None None.
End Sales.

(** ** data_loader.py *)

Module EcommerceDataLoader.
Import Py Pandas.

(** [self.datasets]: the tables that were found on disk. *)
Record datasets := mkDatasets {
  orders : option (DataFrame Order.t);
  order_items : option (DataFrame OrderItem.t);
  products : option (DataFrame Product.t)
}.

(** The functions below start with [df.copy()] and write to the copy
    only, so each is modelled by the frame it returns. *)

(** [df_copy[col] = pd.to_datetime(df_copy[col])] for one column.  The two
    date columns of the sales table are modelled; results on
    [preprocess_dates] are stated for these and for names that are no
    column of the frame. *)
Definition convert_column (df : DataFrame Sales.t) (col : string)
  : result (DataFrame Sales.t) :=
  if has_column df col then
    assign df [col]
      (fun r =>
         match Sales.date_cell_of col r with
         | Some c => let! c' := to_datetime c in Ok (Sales.set_date_cell col c' r)
         | None => Ok r
         end)
  else Ok df.

Fixpoint preprocess_dates (df : DataFrame Sales.t) (date_columns : list string)
  : result (DataFrame Sales.t) :=
  match date_columns with
  | [] => Ok df
  | col :: cols =>
      let! df' := convert_column df col in
      preprocess_dates df' cols
  end.

(** [df_copy[name] = df_copy[date_column].dt.<field>] for one field. *)
Definition add_feature (date_column suffix : string) (f : Timestamp.t -> Z)
    (df : DataFrame Sales.t) : result (DataFrame Sales.t) :=
  let name := (date_column ++ suffix)%string in
  assign df [name]
    (fun r =>
       match Sales.date_cell_of date_column r with
       | Some c => let! v := dt f c in Ok (Sales.set_time_feature name v r)
       | None => Raise AttributeError
       end).

Definition add_time_features (df : DataFrame Sales.t) (date_column : string)
  : result (DataFrame Sales.t) :=
  if has_column df date_column then
    let! df1 := add_feature date_column "_year" Timestamp.year df in
    let! df2 := add_feature date_column "_month" Timestamp.month df1 in
    let! df3 := add_feature date_column "_quarter" Timestamp.quarter df2 in
    add_feature date_column "_day" Timestamp.day df3
  else Ok df.

Definition order_items_columns : list string :=
  ["order_id"; "order_item_id"; "product_id"; "price"; "freight_value"]%string.

Definition orders_columns : list string :=
  ["order_id"; "customer_id"; "order_status";
   "order_purchase_timestamp"; "order_delivered_customer_date"]%string.

(** [pd.merge(left, right, on='order_id', how='inner')]. *)
Definition merge_on_order_id (left : DataFrame OrderItem.t)
    (right : DataFrame Order.t) : DataFrame Sales.t :=
  mkDataFrame
    (columns left
     ++ List.filter (fun c => negb (bool_decide (c = "order_id"%string)))
          (columns right))
    (range_index
       (merge_inner OrderItem.order_id Order.order_id Sales.join
          (values left) (values right))).

Definition create_sales_dataset (ds : datasets) : result (DataFrame Sales.t) :=
  match order_items ds, orders ds with
  | Some oi, Some o =>
      let! left := select oi order_items_columns in
      let! right := select o orders_columns in
      let sales_data := merge_on_order_id left right in
      let date_columns :=
        ["order_purchase_timestamp"; "order_delivered_customer_date"]%string in
      let! sales_data := preprocess_dates sales_data date_columns in
      add_time_features sales_data "order_purchase_timestamp"
  | _, _ => Raise ValueError
  end.

Definition filter_delivered_orders (sales_data : DataFrame Sales.t)
  : result (DataFrame Sales.t) :=
  if has_column sales_data "order_status" then
    Ok (getitem_mask sales_data
          (fun r => bool_decide (Sales.order_status r = "delivered"%string)))
  else Raise KeyError.

Definition _categorize_delivery_speed (days : option Z) : string :=
  match days with
  | None => "Unknown"
  | Some d =>
      if d <=? 3 then "1-3 days"
      else if d <=? 7 then "4-7 days"
      else "8+ days"
  end.

Definition add_delivery_metrics (sales_data : DataFrame Sales.t)
  : result (DataFrame Sales.t) :=
  if has_column sales_data "order_delivered_customer_date"
     && has_column sales_data "order_purchase_timestamp"
  then
    let! df1 :=
      assign sales_data ["delivery_speed_days"%string]
        (fun r =>
           let! d := sub_days (Sales.order_delivered_customer_date r)
                       (Sales.order_purchase_timestamp r) in
           Ok (Sales.set_delivery_speed_days d r)) in
    assign df1 ["delivery_category"%string]
      (fun r =>
         Ok (Sales.set_delivery_category
               (Some (_categorize_delivery_speed (Sales.delivery_speed_days r)))
               r))
  else Ok sales_data.

(** *** Filtering by date range.

    Frames are objects: [df.copy()] and [df[mask]] each build a new one,
    and the local name [df_filtered] is rebound to it.  The store lists
    the frames that exist; a reference is a position in it. *)
Section Filter.
Context {R : Type}.
Variable cell : string -> R -> option Z.

Definition store := list (DataFrame R).
Definition ref := nat.
Definition St (A : Type) : Type := store -> option (A * store).

Definition ret {A} (a : A) : St A := fun h => Some (a, h).

Definition bindS {A B} (m : St A) (k : A -> St B) : St B :=
  fun h =>
    match m h with
    | Some (a, h') => k a h'
    | None => None
    end.

Definition read (r : ref) : St (DataFrame R) :=
  fun h => match h !! r with Some d => Some (d, h) | None => None end.

Definition alloc (d : DataFrame R) : St ref :=
  fun h => Some (length h, h ++ [d]).

Definition copy (r : ref) : St ref := bindS (read r) alloc.

Definition mask_frame (r : ref) (mask : R -> bool) : St ref :=
  bindS (read r) (fun d => alloc (getitem_mask d mask)).

Definition in_columns (r : ref) (c : string) : St bool :=
  bindS (read r) (fun d => ret (has_column d c)).

(** [df[col] >= bound] and [df[col] <= bound]; NaN compares false. *)
Definition ge_bound (col : string) (bound : option Z) (r : R) : bool :=
  match cell col r, bound with
  | Some v, Some b => b <=? v
  | _, _ => false
  end.

Definition le_bound (col : string) (bound : option Z) (r : R) : bool :=
  match cell col r, bound with
  | Some v, Some b => v <=? b
  | _, _ => false
  end.

(** [if bound and col in df_filtered.columns: df_filtered = df_filtered[mask]] *)
Definition narrow (bound : option Z) (col : string) (mask : R -> bool)
    (df_filtered : ref) : St ref :=
  if truthy bound then
    bindS (in_columns df_filtered col) (fun present =>
      if present then mask_frame df_filtered mask else ret df_filtered)
  else ret df_filtered.

Definition filter_by_date_range (df : ref) (date_column : string)
    (start_year end_year start_month end_month : option Z) : St ref :=
  bindS (copy df) (fun df_filtered =>
  let year_col := (date_column ++ "_year")%string in
  let month_col := (date_column ++ "_month")%string in
  bindS (narrow start_year year_col (ge_bound year_col start_year) df_filtered)
    (fun df_filtered =>
  bindS (narrow end_year year_col (le_bound year_col end_year) df_filtered)
    (fun df_filtered =>
  bindS (narrow start_month month_col (ge_bound month_col start_month) df_filtered)
    (fun df_filtered =>
  bindS (narrow end_month month_col (le_bound month_col end_month) df_filtered)
    (fun df_filtered =>
  ret df_filtered))))).

(** The frame the call returns, as a function of the frame it is given. *)
Definition narrowed (bound : option Z) (col : string) (mask : R -> bool)
    (d : DataFrame R) : DataFrame R :=
  if truthy bound && has_column d col then getitem_mask d mask else d.

Definition filtered_frame (d : DataFrame R) (date_column : string)
    (start_year end_year start_month end_month : option Z) : DataFrame R :=
  let year_col := (date_column ++ "_year")%string in
  let month_col := (date_column ++ "_month")%string in
  narrowed end_month month_col (le_bound month_col end_month)
    (narrowed start_month month_col (ge_bound month_col start_month)
       (narrowed end_year year_col (le_bound year_col end_year)
          (narrowed start_year year_col (ge_bound year_col start_year) d))).
End Filter.

(** [load_and_prepare_data], without its printed summary: the sales table of
    the delivered orders, with delivery metrics. *)
Definition load_and_prepare_data (ds : datasets) : result (DataFrame Sales.t) :=
  let! sales_data := create_sales_dataset ds in
  let! sales_delivered := filter_delivered_orders sales_data in
  add_delivery_metrics sales_delivered.

End EcommerceDataLoader.

(** ** business_metrics.py *)

Module EcommerceMetrics.
Import Py Pandas.

(** The values of a metrics dictionary: Python ints ([len], [nunique]) and
    floats (NumPy scalars from [sum] and [mean], and Python floats). *)
Inductive value :=
| PyInt (z : Z)
| PyFloat (x : Np.float64).

Definition to_float (v : value) : Np.float64 :=
  match v with
  | PyInt z => Np.of_Z z
  | PyFloat x => x
  end.

Definition py_sub (a b : value) : value :=
  match a, b with
  | PyInt x, PyInt y => PyInt (x - y)
  | _, _ => PyFloat (Np.sub (to_float a) (to_float b))
  end.

Definition py_mul (a b : value) : value :=
  match a, b with
  | PyInt x, PyInt y => PyInt (x * y)
  | _, _ => PyFloat (Np.mul (to_float a) (to_float b))
  end.

(** [a / b]: between two Python ints a zero divisor raises; as soon as a
    NumPy scalar takes part the division is NumPy's and does not.  Ints
    beyond the range of a float, whose division raises OverflowError, are
    not modelled. *)
Definition py_truediv (a b : value) : result value :=
  match a, b with
  | PyInt x, PyInt y =>
      if y =? 0 then Raise ZeroDivisionError
      else Ok (PyFloat (Np.Finite (inject_Z x / inject_Z y)))
  | _, _ => Ok (PyFloat (Np.div (to_float a) (to_float b)))
  end.

(** [((current - previous) / previous) * 100] *)
Definition growth_rate (current previous : value) : result value :=
  let! ratio := py_truediv (py_sub current previous) previous in
  Ok (py_mul ratio (PyInt 100)).

(** A dict display, and [dict.update]: later entries win. *)
Definition update (m : gmap string value) (entries : list (string * value))
  : gmap string value :=
  fold_left (fun acc kv => <[fst kv := snd kv]> acc) entries m.

Definition lookup_key (m : gmap string value) (k : string) : result value :=
  match m !! k with
  | Some v => Ok v
  | None => Raise KeyError
  end.

Definition order_key (r : Sales.t) : option string := Some (Sales.order_id r).

(** [df['price'].sum()] *)
Definition price_sum (df : DataFrame Sales.t) : result Q :=
  let! price := getitem df "price" Sales.price in
  Ok (Np.sum price).

(** [df.groupby('order_id')['price'].sum()] *)
Definition order_totals (l : list Sales.t) : list (string * Q) :=
  agg (fun g => Np.sum (map Sales.price g)) (groupby order_key l).

(** [df.groupby('order_id')['price'].sum().mean()] *)
Definition order_value_mean (df : DataFrame Sales.t) : result Np.float64 :=
  if has_column df "order_id" && has_column df "price"
  then Ok (Np.mean (map snd (order_totals (values df))))
  else Raise KeyError.

(** [df['order_id'].nunique()] *)
Definition order_count (df : DataFrame Sales.t) : result Z :=
  let! order_id := getitem df "order_id" order_key in
  Ok (nunique order_id).

Definition calculate_revenue_metrics
    (current_data : DataFrame Sales.t)
    (comparison_data : option (DataFrame Sales.t))
    (current_period comparison_period : string)
  : result (gmap string value) :=
  let! total_revenue := price_sum current_data in
  let! avg_order_value := order_value_mean current_data in
  let! total_orders := order_count current_data in
  let metrics :=
    update ∅
      [ ((current_period ++ "_total_revenue")%string,
         PyFloat (Np.Finite total_revenue));
        ((current_period ++ "_avg_order_value")%string,
         PyFloat avg_order_value);
        ((current_period ++ "_total_orders")%string, PyInt total_orders);
        ((current_period ++ "_total_items")%string,
         PyInt (len current_data)) ] in
  match comparison_data with
  | None => Ok metrics
  | Some comparison_data =>
      let! comp_revenue := price_sum comparison_data in
      let! comp_aov := order_value_mean comparison_data in
      let! comp_orders := order_count comparison_data in
      let comp_revenue := PyFloat (Np.Finite comp_revenue) in
      let comp_aov := PyFloat comp_aov in
      let comp_orders := PyInt comp_orders in
      let! cur_revenue :=
        lookup_key metrics (current_period ++ "_total_revenue")%string in
      let! revenue_growth_rate := growth_rate cur_revenue comp_revenue in
      let! cur_aov :=
        lookup_key metrics (current_period ++ "_avg_order_value")%string in
      let! aov_growth_rate := growth_rate cur_aov comp_aov in
      let! cur_orders :=
        lookup_key metrics (current_period ++ "_total_orders")%string in
      let! order_growth_rate := growth_rate cur_orders comp_orders in
      Ok (update metrics
            [ ((comparison_period ++ "_total_revenue")%string, comp_revenue);
              ((comparison_period ++ "_avg_order_value")%string, comp_aov);
              ((comparison_period ++ "_total_orders")%string, comp_orders);
              ((comparison_period ++ "_total_items")%string,
               PyInt (len comparison_data));
              ("revenue_growth_rate"%string, revenue_growth_rate);
              ("aov_growth_rate"%string, aov_growth_rate);
              ("order_growth_rate"%string, order_growth_rate) ])
  end.

(** *** Monthly trends *)

Record TrendRow := mkTrend {
  month : Z;
  revenue : Q;
  orders : Z;
  avg_order_value : Np.float64;
  revenue_growth : Np.float64;
  order_growth : Np.float64;
  aov_growth : Np.float64
}.

Definition trend_columns : list string :=
  ["month"; "revenue"; "orders"; "avg_order_value";
   "revenue_growth"; "order_growth"; "aov_growth"]%string.

Definition month_order_key (r : Sales.t) : option (Z * string) :=
  match Sales.month r with
  | Some m => Some (m, Sales.order_id r)
  | None => None
  end.

(** [data.groupby(month)['price'].sum()] *)
Definition monthly_revenue (l : list Sales.t) : list (Z * Q) :=
  agg (fun g => Np.sum (map Sales.price g)) (groupby Sales.month l).

(** [data.groupby(month)['order_id'].nunique()] *)
Definition monthly_orders (l : list Sales.t) : list (Z * Z) :=
  agg (fun g => nunique (map order_key g)) (groupby Sales.month l).

(** [data.groupby([month, 'order_id'])['price'].sum()
        .groupby(month).mean()] *)
Definition monthly_aov (l : list Sales.t) : list (Z * Np.float64) :=
  let per_order :=
    agg (fun g => Np.sum (map Sales.price g)) (groupby month_order_key l) in
  agg (fun g => Np.mean (map snd g))
    (groupby (fun e : (Z * string) * Q => Some (fst (fst e))) per_order).

(** [series.pct_change() * 100] *)
Definition growth (col : list Np.float64) : list Np.float64 :=
  map (fun x => Np.mul x (Np.Finite 100)) (pct_change col).

Definition calculate_monthly_trends (data : DataFrame Sales.t)
    (year : option Z) : result (DataFrame TrendRow) :=
  let! data :=
    (if truthy year then
       if has_column data "order_purchase_timestamp_year"
       then Ok (getitem_mask data
                  (fun r => bool_decide (Sales.year r = year)))
       else Raise KeyError
     else Ok data) in
  if has_column data "order_purchase_timestamp_month"
     && has_column data "price" && has_column data "order_id"
  then
    let rev := monthly_revenue (values data) in
    let ord := monthly_orders (values data) in
    let aov := monthly_aov (values data) in
    if bool_decide (length (map snd ord) = length (map fst rev)
                    /\ length (map snd aov) = length (map fst rev))
    then
      let revenue_growth := growth (map (fun e => Np.Finite (snd e)) rev) in
      let order_growth := growth (map (fun e => Np.of_Z (snd e)) ord) in
      let aov_growth := growth (map snd aov) in
      Ok (mkDataFrame trend_columns
            (range_index
               (map (fun '(m, r, o, a, rg, og, ag) => mkTrend m r o a rg og ag)
                  (combine (combine (combine (combine (combine (combine
                     (map fst rev) (map snd rev)) (map snd ord))
                     (map snd aov)) revenue_growth) order_growth)
                     aov_growth))))
    else Raise ValueError
  else Raise KeyError.

(** *** Product performance *)

Record SalesProduct := mkSalesProduct {
  sp_product_id : string;
  sp_price : Q;
  sp_order_id : string;
  sp_product_category_name : option string
}.

Definition sales_product (s : Sales.t) (p : option Product.t) : SalesProduct :=
  mkSalesProduct (Sales.product_id s) (Sales.price s) (Sales.order_id s)
    (match p with
     | Some p => Product.product_category_name p
     | None => None
     end).

Record CategoryRow := mkCategoryRow {
  product_category_name : option string;
  total_revenue : Q;
  avg_price : Np.float64;
  items_sold : Z;
  unique_orders : Z
}.

Record ProductRow := mkProductRow {
  product_id : string;
  p_total_revenue : Q;
  p_items_sold : Z;
  p_unique_orders : Z
}.

Record product_analysis := mkAnalysis {
  category_performance : DataFrame CategoryRow;
  product_performance : DataFrame ProductRow
}.

Definition round2_float (x : Np.float64) : Np.float64 :=
  match x with
  | Np.Finite q => Np.Finite (Np.round2 q)
  | _ => x
  end.

(** [agg({'price': ['sum', 'mean', 'count'], 'order_id': 'nunique'}).round(2)]
    for one group. *)
Definition category_row (kg : option string * list SalesProduct) : CategoryRow :=
  let g := snd kg in
  mkCategoryRow (fst kg)
    (Np.round2 (Np.sum (map sp_price g)))
    (round2_float (Np.mean (map sp_price g)))
    (Z.of_nat (length g))
    (nunique (map (fun r => Some (sp_order_id r)) g)).

Definition product_row (kg : string * list SalesProduct) : ProductRow :=
  let g := snd kg in
  mkProductRow (fst kg)
    (Np.round2 (Np.sum (map sp_price g)))
    (Z.of_nat (length g))
    (nunique (map (fun r => Some (sp_order_id r)) g)).

(** [pd.merge(sales[...], products[...], on='product_id', how='left')] *)
Definition merge_products (sales : list Sales.t) (products : list Product.t)
  : list SalesProduct :=
  merge_left Sales.product_id Product.product_id sales_product sales products.

Definition category_groups (sp : list SalesProduct)
  : list (option string * list SalesProduct) :=
  map (fun kg => (Some (fst kg), snd kg))
    (groupby sp_product_category_name sp).

Definition product_groups (sp : list SalesProduct)
  : list (string * list SalesProduct) :=
  groupby (fun r => Some (sp_product_id r)) sp.

Definition analyze_product_performance `{Sorter}
    (sales_data : DataFrame Sales.t) (products_data : DataFrame Product.t)
    (top_n : Z) : result product_analysis :=
  let! left := select sales_data ["product_id"; "price"; "order_id"]%string in
  let! right :=
    select products_data ["product_id"; "product_category_name"]%string in
  let sales_products := merge_products (values left) (values right) in
  let category_metrics :=
    head top_n
      (sort_values_desc total_revenue
         (map category_row (category_groups sales_products))) in
  let product_metrics :=
    head top_n
      (sort_values_desc p_total_revenue
         (map product_row (product_groups sales_products))) in
  Ok (mkAnalysis
        (mkDataFrame
           ["product_category_name"; "total_revenue"; "avg_price";
            "items_sold"; "unique_orders"]%string
           (range_index category_metrics))
        (mkDataFrame
           ["product_id"; "total_revenue"; "items_sold"; "unique_orders"]%string
           (range_index product_metrics))).

(** *** Geographic performance *)

(** A sales row with the customer of its order, and with the customer's
    state and city; what a left join does not find is missing. *)
Record SalesCustomer := mkSalesCustomer {
  sc_order_id : string;
  sc_price : Q;
  sc_customer_id : option string
}.

Record GeoSale := mkGeoSale {
  g_order_id : string;
  g_price : Q;
  g_customer_id : option string;
  g_customer_state : option string;
  g_customer_city : option string
}.

Definition sales_customer (s : Sales.t) (o : option Order.t) : SalesCustomer :=
  mkSalesCustomer (Sales.order_id s) (Sales.price s)
    (match o with
     | Some o => Some (Order.customer_id o)
     | None => None
     end).

Definition geo_sale (sc : SalesCustomer) (c : option Customer.t) : GeoSale :=
  mkGeoSale (sc_order_id sc) (sc_price sc) (sc_customer_id sc)
    (match c with
     | Some c => Customer.customer_state c
     | None => None
     end)
    (match c with
     | Some c => Customer.customer_city c
     | None => None
     end).

Record StateRow := mkStateRow {
  customer_state : string;
  st_total_revenue : Q;
  st_avg_order_value : Np.float64;
  st_total_orders : Z;
  st_unique_customers : Z
}.

(** [agg({'price': ['sum', 'mean', 'count'], 'customer_id': 'nunique'})
    .round(2)] for one state. *)
Definition state_row (kg : string * list GeoSale) : StateRow :=
  let g := snd kg in
  mkStateRow (fst kg)
    (Np.round2 (Np.sum (map g_price g)))
    (round2_float (Np.mean (map g_price g)))
    (Z.of_nat (length g))
    (nunique (map g_customer_id g)).

Definition merge_customers (sales : list Sales.t) (orders : list Order.t)
    (customers : list Customer.t) : list GeoSale :=
  let sales_customers :=
    merge_left Sales.order_id Order.order_id sales_customer sales orders in
  merge_left sc_customer_id (fun c => Some (Customer.customer_id c)) geo_sale
    sales_customers customers.

Definition state_columns : list string :=
  ["customer_state"; "total_revenue"; "avg_order_value"; "total_orders";
   "unique_customers"]%string.

Definition analyze_geographic_performance `{Sorter}
    (sales_data : DataFrame Sales.t) (orders_data : DataFrame Order.t)
    (customers_data : DataFrame Customer.t) : result (DataFrame StateRow) :=
  let! sales := select sales_data ["order_id"; "price"]%string in
  let! orders := select orders_data ["order_id"; "customer_id"]%string in
  let! customers :=
    select customers_data
      ["customer_id"; "customer_state"; "customer_city"]%string in
  let geo_sales :=
    merge_customers (values sales) (values orders) (values customers) in
  let state_metrics := map state_row (groupby g_customer_state geo_sales) in
  let state_metrics := sort_values_desc st_total_revenue state_metrics in
  Ok (mkDataFrame state_columns (range_index state_metrics)).

(** *** Customer satisfaction *)

Record SalesReview := mkSalesReview {
  sr_order_id : string;
  sr_delivery_speed_days : option Z;
  sr_delivery_category : option string;
  sr_review_score : Z
}.

Definition sales_review (s : Sales.t) (r : Review.t) : SalesReview :=
  mkSalesReview (Sales.order_id s) (Sales.delivery_speed_days s)
    (Sales.delivery_category s) (Review.review_score r).

Record DeliveryRow := mkDeliveryRow {
  delivery_category : string;
  avg_review_score : Np.float64;
  review_count : Z
}.

Record ScoreRow := mkScoreRow {
  review_score : Z;
  percentage : Np.float64
}.

Record satisfaction := mkSatisfaction {
  overall_metrics : DataFrame (string * Np.float64);
  delivery_satisfaction : DataFrame DeliveryRow;
  score_distribution : DataFrame ScoreRow
}.

(** [pd.merge(..., on='order_id', how='inner')
        .drop_duplicates(subset=['order_id'])]; the rows keep the labels
    the join gave them. *)
Definition merge_reviews (sales : list Sales.t) (reviews : list Review.t)
  : list (Z * SalesReview) :=
  drop_duplicates (fun lr => sr_order_id (snd lr))
    (range_index
       (merge_inner Sales.order_id Review.order_id sales_review sales reviews)).

Definition round1_float (x : Np.float64) : Np.float64 :=
  match x with
  | Np.Finite q => Np.Finite (Np.round1 q)
  | _ => x
  end.

(** [agg({'review_score': ['mean', 'count']}).round(2)] for one group. *)
Definition satisfaction_row (kg : string * list SalesReview) : DeliveryRow :=
  let scores := map (fun r => inject_Z (sr_review_score r)) (snd kg) in
  mkDeliveryRow (fst kg) (round2_float (Np.mean scores))
    (Z.of_nat (length scores)).

Definition analyze_customer_satisfaction `{Sorter}
    (sales_data : DataFrame Sales.t) (reviews_data : DataFrame Review.t)
  : result satisfaction :=
  let! sales :=
    select sales_data
      ["order_id"; "delivery_speed_days"; "delivery_category"]%string in
  let! reviews := select reviews_data ["order_id"; "review_score"]%string in
  let sales_reviews := merge_reviews (values sales) (values reviews) in
  let rows := map snd sales_reviews in
  let overall :=
    [ ("Average Review Score"%string,
       Np.mean (map (fun r => inject_Z (sr_review_score r)) rows));
      ("Total Reviews"%string, Np.of_Z (Z.of_nat (length sales_reviews)));
      ("Average Delivery Days"%string,
       Np.mean (map inject_Z (omap sr_delivery_speed_days rows))) ] in
  let delivery :=
    map satisfaction_row (groupby sr_delivery_category rows) in
  let score_dist :=
    sort_index (value_counts_normalize (map sr_review_score rows)) in
  Ok (mkSatisfaction
        (mkDataFrame ["metric"; "value"]%string (range_index overall))
        (mkDataFrame
           ["delivery_category"; "avg_review_score"; "review_count"]%string
           (range_index delivery))
        (mkDataFrame ["review_score"; "percentage"]%string
           (range_index
              (map (fun e =>
                      mkScoreRow (fst e)
                        (round1_float (Np.mul (snd e) (Np.Finite 100))))
                 score_dist)))).

(** *** Operational metrics *)

(** [pd.to_datetime(orders_data['order_purchase_timestamp']).dt.year
        == target_year] for one row; a missing timestamp compares false. *)
Definition purchase_year_is (target_year : option Z) (r : Order.t)
  : result bool :=
  let! c := to_datetime (Order.order_purchase_timestamp r) in
  let! year := dt Timestamp.year c in
  Ok (bool_decide (year = target_year)).

(** [if target_year: orders_data = orders_data[mask]] *)
Definition select_year (orders_data : DataFrame Order.t)
    (target_year : option Z) : result (DataFrame Order.t) :=
  if truthy target_year then
    if has_column orders_data "order_purchase_timestamp" then
      let! mask :=
        traverse (fun lr => purchase_year_is target_year (snd lr))
          (rows orders_data) in
      Ok (mkDataFrame (columns orders_data)
            (map fst (List.filter snd (combine (rows orders_data) mask))))
    else Raise KeyError
  else Ok orders_data.

(** [orders_data['order_status'].value_counts(normalize=True) * 100] *)
Definition status_distribution `{Sorter} (orders_data : DataFrame Order.t)
  : result (list (string * Np.float64)) :=
  let! status := getitem orders_data "order_status" Order.order_status in
  Ok (map (fun e => (fst e, Np.mul (snd e) (Np.Finite 100)))
        (value_counts_normalize status)).

(** [status_dist.get(key, 0)] *)
Definition rate (status_dist : list (string * Np.float64)) (key : string)
  : value :=
  match series_get status_dist key with
  | Some pct => PyFloat pct
  | None => PyInt 0
  end.

(** The average delivery time of the delivered orders, or the int 0 when
    there is none. *)
Definition avg_delivery_time (orders_data : DataFrame Order.t) : result value :=
  let delivered_orders :=
    getitem_mask orders_data
      (fun r => bool_decide (Order.order_status r = "delivered"%string)) in
  match rows delivered_orders with
  | [] => Ok (PyInt 0)
  | _ :: _ =>
      let! purchase :=
        getitem delivered_orders "order_purchase_timestamp"
          Order.order_purchase_timestamp in
      let! purchase := traverse to_datetime purchase in
      let! delivered :=
        getitem delivered_orders "order_delivered_customer_date"
          Order.order_delivered_customer_date in
      let! delivered := traverse to_datetime delivered in
      let! delivery_days :=
        traverse (fun dp => sub_days (fst dp) (snd dp))
          (combine delivered purchase) in
      Ok (PyFloat (Np.mean (map inject_Z (omap id delivery_days))))
  end.

Definition calculate_operational_metrics `{Sorter}
    (orders_data : DataFrame Order.t) (target_year : option Z)
  : result (gmap string value) :=
  let! orders_data := select_year orders_data target_year in
  let! status_dist := status_distribution orders_data in
  let! avg_delivery_time := avg_delivery_time orders_data in
  let metrics :=
    update ∅
      [ ("total_orders"%string, PyInt (len orders_data));
        ("delivery_rate_pct"%string, rate status_dist "delivered");
        ("cancellation_rate_pct"%string, rate status_dist "canceled");
        ("return_rate_pct"%string, rate status_dist "returned");
        ("avg_delivery_days"%string, avg_delivery_time) ] in
  Ok (update metrics
        (map (fun e => ((fst e ++ "_pct")%string, PyFloat (snd e)))
           status_dist)).

End EcommerceMetrics.

(** ** dashboard.py: the trend indicator *)

Module Dashboard.
Import Py EcommerceMetrics.

(** The pair of text and style the function returns: no indicator
    ([("", "neutral")]), an arrow up or down with the change in percent, or
    the flat arrow. *)
Inductive indicator :=
| NoTrend
| Rising (change_pct : value)
| Falling (change_pct : value)
| Unchanged.

(** [pd.isna] *)
Definition isna (v : value) : bool :=
  match v with
  | PyFloat x => Np.isnan x
  | PyInt _ => false
  end.

(** [v == 0] *)
Definition is_zero (v : value) : bool :=
  match v with
  | PyInt z => z =? 0
  | PyFloat (Np.Finite q) => Qeq_bool q 0
  | PyFloat _ => false
  end.

(** [v > 0] and [v < 0]; NaN compares false. *)
Definition positive (v : value) : bool :=
  match to_float v with
  | Np.Finite q => negb (Qle_bool q 0)
  | Np.PosInf => true
  | _ => false
  end.

Definition negative (v : value) : bool :=
  match to_float v with
  | Np.Finite q => negb (Qle_bool 0 q)
  | Np.NegInf => true
  | _ => false
  end.

Definition get_trend_indicator (current previous : value) : result indicator :=
  if isna current || isna previous || is_zero previous then Ok NoTrend
  else
    let! change_pct := growth_rate current previous in
    if positive change_pct then Ok (Rising change_pct)
    else if negative change_pct then Ok (Falling change_pct)
    else Ok Unchanged.

End Dashboard.

(** ** Specification vocabulary *)

Module Spec.
Import Py Pandas EcommerceDataLoader EcommerceMetrics.

(** [z] is the number of whole days from [p] to [d]. *)
Definition whole_days (d p : Timestamp.t) (z : Z) : Prop :=
  86400 * z <= Timestamp.to_seconds d - Timestamp.to_seconds p
    < 86400 * (z + 1).

(** The delivery buckets, 3 and 7 being inclusive upper bounds. *)
Definition bucket (days : option Z) (c : string) : Prop :=
  match days with
  | None => c = "Unknown"%string
  | Some d =>
      (d <= 3 /\ c = "1-3 days"%string)
      \/ (3 < d <= 7 /\ c = "4-7 days"%string)
      \/ (7 < d /\ c = "8+ days"%string)
  end.

Definition converted (c : date_cell) : Prop :=
  match c with Text _ => False | _ => True end.

(** A cell [pd.to_datetime] accepts. *)
Definition parses (c : date_cell) : Prop :=
  match c with
  | Text s => Timestamp.parse s <> None
  | _ => True
  end.

(** A delivered order bought at [purchase] and delivered at [delivered]. *)
Definition delivery (purchase delivered : date_cell) : Sales.t :=
  Sales.mk "o1" 1 "P1" 100 0 "c1" "delivered" purchase delivered ∅ None None.

Definition sales_columns : list string :=
  ["order_id"; "order_item_id"; "product_id"; "price"; "freight_value";
   "customer_id"; "order_status"; "order_purchase_timestamp";
   "order_delivered_customer_date"]%string.

Definition day (y m d : Z) : date_cell := Stamp (Timestamp.mk y m d 0 0 0).

Definition delivered_on (d : date_cell) : DataFrame Sales.t :=
  mkDataFrame sales_columns [(0, delivery (day 2024 1 1) d)].

(** What [add_delivery_metrics] wrote into the rows of a frame. *)
Definition delivery_cells (res : Py.result (DataFrame Sales.t))
  : list (option Z * option string) :=
  match res with
  | Py.Ok df =>
      map (fun r => (Sales.delivery_speed_days r, Sales.delivery_category r))
        (values df)
  | Py.Raise _ => []
  end.

(** *** Revenue metrics, in the words of the specification *)

(** The distinct [order_id] values of a table. *)
Definition order_ids (l : list Sales.t) : gset string :=
  list_to_set (map Sales.order_id l).

(** The summed price of one order. *)
Definition order_total (l : list Sales.t) (o : string) : Q :=
  Np.sum (map Sales.price
            (List.filter (fun r => bool_decide (Sales.order_id r = o)) l)).

(** Group by order, sum the price, then average across the orders. *)
Definition mean_order_total (l : list Sales.t) : Q :=
  (Np.sum (map (order_total l) (elements (order_ids l)))
   / inject_Z (Z.of_nat (size (order_ids l))))%Q.

(** The mean price of a line item, which the average order value is not. *)
Definition mean_item_price (l : list Sales.t) : Q :=
  (Np.sum (map Sales.price l) / inject_Z (Z.of_nat (length l)))%Q.

(** A sales row of the given order, product and price, bought in the given
    year and month. *)
Definition line (order product : string) (price : Q) (y m : Z) : Sales.t :=
  Sales.mk order 1 product price 0 "c1" "delivered" NaT NaT
    (<["order_purchase_timestamp_month"%string := Some m]>
       (<["order_purchase_timestamp_year"%string := Some y]> ∅))
    None None.

Definition line_columns : list string :=
  sales_columns
  ++ ["order_purchase_timestamp_year"; "order_purchase_timestamp_month"]%string.

Definition table (l : list Sales.t) : DataFrame Sales.t :=
  mkDataFrame line_columns (range_index l).

(** *** Monthly trends, in the words of the specification *)

(** The rows of a month. *)
Definition month_rows (m : Z) (l : list Sales.t) : list Sales.t :=
  List.filter (fun r => bool_decide (Sales.month r = Some m)) l.

(** The distinct months present. *)
Definition months (l : list Sales.t) : gset Z :=
  list_to_set (omap Sales.month l).

(** The rows the trends are computed from: those of the year, when a year
    is given (a year of 0 counts as not given). *)
Definition year_rows (data : DataFrame Sales.t) (year : option Z)
  : list Sales.t :=
  if Py.truthy year
  then List.filter (fun r => bool_decide (Sales.year r = year)) (values data)
  else values data.

(** *** Product performance, in the words of the specification *)

(** Rows are in descending order of the key. *)
Definition descending {A} (key : A -> Q) (l : list A) : Prop :=
  StronglySorted (fun x y => (key y <= key x)%Q) l.

(** The rows of equal key [q], in the order they have in [l]. *)
Definition ties {A} (key : A -> Q) (q : Q) (l : list A) : list A :=
  List.filter (fun x => Qeq_bool (key x) q) l.

(** A sort is stable when rows of equal key keep their order. *)
Definition stable (S : Sorter) : Prop :=
  forall A (key : A -> Q) (l : list A) (q : Q),
    ties key q (sort_asc key l) = ties key q l.

(** The distinct categories (not counting the missing one) and the distinct
    products of a joined table. *)
Definition categories (sp : list EcommerceMetrics.SalesProduct) : gset string :=
  list_to_set (omap EcommerceMetrics.sp_product_category_name sp).

Definition product_ids (sp : list EcommerceMetrics.SalesProduct) : gset string :=
  list_to_set (map EcommerceMetrics.sp_product_id sp).

(** The joined rows of a category, and those of a product. *)
Definition category_rows (c : string) (sp : list EcommerceMetrics.SalesProduct)
  : list EcommerceMetrics.SalesProduct :=
  List.filter
    (fun r => bool_decide (EcommerceMetrics.sp_product_category_name r = Some c))
    sp.

Definition product_rows (p : string) (sp : list EcommerceMetrics.SalesProduct)
  : list EcommerceMetrics.SalesProduct :=
  List.filter (fun r => bool_decide (EcommerceMetrics.sp_product_id r = p)) sp.

(** The number of rows [head(n)] keeps out of [len]. *)
Definition kept (n : Z) (len : nat) : nat :=
  if 0 <=? n then Nat.min (Z.to_nat n) len else (len - Z.to_nat (- n))%nat.

(** The summed price and the distinct orders of joined rows. *)
Definition revenue (g : list EcommerceMetrics.SalesProduct) : Q :=
  Np.sum (map EcommerceMetrics.sp_price g).

Definition orders_of (g : list EcommerceMetrics.SalesProduct) : gset string :=
  list_to_set (map EcommerceMetrics.sp_order_id g).

(** A row of the category table holds the figures of the joined rows of
    its category: the summed price and the mean price, rounded to two
    decimals, the number of rows and the number of distinct orders. *)
Definition category_row_of (sp : list EcommerceMetrics.SalesProduct)
    (row : EcommerceMetrics.CategoryRow) : Prop :=
  exists c,
    EcommerceMetrics.product_category_name row = Some c
    /\ c ∈ categories sp
    /\ let g := category_rows c sp in
       EcommerceMetrics.total_revenue row = Np.round2 (revenue g)
       /\ EcommerceMetrics.avg_price row
          = EcommerceMetrics.round2_float
              (Np.mean (map EcommerceMetrics.sp_price g))
       /\ EcommerceMetrics.items_sold row = Z.of_nat (length g)
       /\ EcommerceMetrics.unique_orders row = Z.of_nat (size (orders_of g)).

(** A row of the product table holds the figures of the joined rows of its
    product. *)
Definition product_row_of (sp : list EcommerceMetrics.SalesProduct)
    (row : EcommerceMetrics.ProductRow) : Prop :=
  let p := EcommerceMetrics.product_id row in
  p ∈ product_ids sp
  /\ let g := product_rows p sp in
     EcommerceMetrics.p_total_revenue row = Np.round2 (revenue g)
     /\ EcommerceMetrics.p_items_sold row = Z.of_nat (length g)
     /\ EcommerceMetrics.p_unique_orders row = Z.of_nat (size (orders_of g)).

(** The two tables of a returned analysis; empty when the call raised. *)
Definition category_table (res : Py.result EcommerceMetrics.product_analysis)
  : list EcommerceMetrics.CategoryRow :=
  match res with
  | Py.Ok a => values (EcommerceMetrics.category_performance a)
  | Py.Raise _ => []
  end.

Definition product_table (res : Py.result EcommerceMetrics.product_analysis)
  : list EcommerceMetrics.ProductRow :=
  match res with
  | Py.Ok a => values (EcommerceMetrics.product_performance a)
  | Py.Raise _ => []
  end.

(** The entry of a returned dictionary; nothing when the call raised. *)
Definition metric {V} (res : Py.result (gmap string V)) (k : string)
  : option V :=
  match res with
  | Py.Ok m => m !! k
  | Py.Raise _ => None
  end.

(** Equality of floats up to the representation of the rational. *)
Definition same_float (x y : Np.float64) : bool :=
  match x, y with
  | Np.Finite a, Np.Finite b => Qeq_bool a b
  | Np.PosInf, Np.PosInf | Np.NegInf, Np.NegInf | Np.NaN, Np.NaN => true
  | _, _ => false
  end.

Definition is_float (v : option EcommerceMetrics.value) (x : Np.float64)
  : bool :=
  match v with
  | Some (EcommerceMetrics.PyFloat y) => same_float y x
  | _ => false
  end.

Definition raised {A} (res : Py.result A) : option Py.exn :=
  match res with
  | Py.Ok _ => None
  | Py.Raise e => Some e
  end.
(** *** Delivery metrics *)

(** One row of [add_delivery_metrics]: both assignments. *)
Definition delivery_row (r : Sales.t) (days : option Z) : Sales.t :=
  Sales.set_delivery_category (Some (_categorize_delivery_speed days))
    (Sales.set_delivery_speed_days days r).

(** An order delivered three days before it was bought. *)
Definition early_delivery : DataFrame Sales.t :=
  mkDataFrame sales_columns
    [(0, delivery (day 2024 1 5) (day 2024 1 2))].

(** *** Date filters *)

Section FilterSpec.
Context {R : Type}.
Variable cell : string -> R -> option Z.

(** The mask a bound contributes: its comparison when the bound is truthy
    and the column exists, no constraint otherwise. *)
Definition active (bound : option Z) (col : string) (mask : R -> bool)
    (cols : list string) : R -> bool :=
  if truthy bound && bool_decide (col ∈ cols) then mask else fun _ => true.

(** The rows a call keeps: those that pass every bound in force. *)
Definition date_mask (cols : list string) (date_column : string)
    (start_year end_year start_month end_month : option Z) (r : R) : bool :=
  let year_col := (date_column ++ "_year")%string in
  let month_col := (date_column ++ "_month")%string in
  active start_year year_col (ge_bound cell year_col start_year) cols r
  && (active end_year year_col (le_bound cell year_col end_year) cols r
      && (active start_month month_col
            (ge_bound cell month_col start_month) cols r
          && active end_month month_col
               (le_bound cell month_col end_month) cols r)).

(** A computation that only adds frames to the store and ends on [d']. *)
Definition ends_on (m : St ref) (h : @store R) (d' : DataFrame R) : Prop :=
  exists r' ext, m h = Some (r', h ++ ext) /\ (h ++ ext) !! r' = Some d'.
End FilterSpec.

(** A sales row with its year and month columns filled in. *)
Definition with_features (y m : option Z) (r : Sales.t) : Sales.t :=
  Sales.set_time_feature "order_purchase_timestamp_month" m
    (Sales.set_time_feature "order_purchase_timestamp_year" y r).

(** A frame of three sales rows, bought in May 2023, in January 2024, and
    with no purchase timestamp. *)
Definition sample_frame : Pandas.DataFrame Sales.t :=
  Pandas.mkDataFrame
    (sales_columns
     ++ ["order_purchase_timestamp_year"; "order_purchase_timestamp_month"]%string)
    [ (0, with_features (Some 2023) (Some 5)
            (delivery (day 2023 5 2) (day 2023 5 9)));
      (1, with_features (Some 2024) (Some 1)
            (delivery (day 2024 1 1) (day 2024 1 3)));
      (2, with_features None None (delivery Pandas.NaT Pandas.NaT)) ].

(** *** Tables for the examples *)

(** One order and its two items. *)
Definition one_order : Pandas.DataFrame Order.t :=
  Pandas.mkDataFrame EcommerceDataLoader.orders_columns
    [(0, Order.mk "o1" "c1" "delivered"
           (Pandas.Text "2023-06-01 10:15:00") (Pandas.Text "2023-06-04"))].

Definition two_items : Pandas.DataFrame OrderItem.t :=
  Pandas.mkDataFrame EcommerceDataLoader.order_items_columns
    [(0, OrderItem.mk "o1" 1 "P1" 100 10);
     (1, OrderItem.mk "o1" 2 "P2" 50 5)].

Definition two_items_one_order : EcommerceDataLoader.datasets :=
  EcommerceDataLoader.mkDatasets (Some one_order) (Some two_items) None.

(** The end-to-end scenario of the specification: one delivered order with
    one item of price 100. *)
Definition scenario : EcommerceDataLoader.datasets :=
  EcommerceDataLoader.mkDatasets
    (Some (mkDataFrame EcommerceDataLoader.orders_columns
             [(0, Order.mk "1" "c1" "delivered"
                    (Text "2023-06-01") (Text "2023-06-04"))]))
    (Some (mkDataFrame EcommerceDataLoader.order_items_columns
             [(0, OrderItem.mk "1" 1 "P1" 100 0)]))
    None.

(** Sales in January and March 2024 and in February 2023. *)
Definition two_months : DataFrame Sales.t :=
  table [line "o1" "P1" 10 2024 1;
              line "o1" "P2" 5 2024 1;
              line "o2" "P1" 10 2024 3;
              line "o3" "P1" 7 2023 2].

(** Sales of six products; the product table has five of them, each in a
    category of its own. *)
Definition five_categories : DataFrame Sales.t :=
  table [line "o1" "P1" 10 2024 1;
              line "o1" "P2" 30 2024 1;
              line "o2" "P3" 20 2024 2;
              line "o3" "P4" 50 2024 2;
              line "o4" "P5" 40 2024 3;
              line "o5" "P6" 99 2024 3].

Definition five_products : DataFrame Product.t :=
  mkDataFrame ["product_id"; "product_category_name"]%string
    (range_index
       [Product.mk "P1" (Some "toys"%string);
        Product.mk "P2" (Some "books"%string);
        Product.mk "P3" (Some "garden"%string);
        Product.mk "P4" (Some "music"%string);
        Product.mk "P5" (Some "sports"%string)]).

(** *** Ordered keys and sorts *)

(** The laws of a key order. *)
Class OrdLaws (K : Type) `{Pandas.Ord K} := {
  ord_total : forall x y : K, Pandas.leb x y = true \/ Pandas.leb y x = true;
  ord_trans : forall x y z : K,
    Pandas.leb x y = true -> Pandas.leb y z = true -> Pandas.leb x z = true;
  ord_antisym : forall x y : K,
    Pandas.leb x y = true -> Pandas.leb y x = true -> x = y
}.

Definition le_key {K : Type} `{Pandas.Ord K} (x y : K) : Prop :=
  leb x y = true.

(** The contract of a sort: a rearrangement into ascending order. *)
Class SorterLaws (S : Pandas.Sorter) := {
  sort_asc_Permutation :
    forall A (key : A -> Q) (l : list A),
      Permutation (Pandas.sort_asc key l) l;
  sort_asc_sorted :
    forall A (key : A -> Q) (l : list A),
      StronglySorted (fun x y => (key x <= key y)%Q) (Pandas.sort_asc key l)
}.

Definition ascending {A} (key : A -> Q) : list A -> Prop :=
  StronglySorted (fun x y => (key x <= key y)%Q).

(** *** Monthly groups *)

(** [data.groupby([month, 'order_id'])['price'].sum()] *)
Definition per_order (l : list Sales.t) : list ((Z * string) * Q) :=
  agg (fun g => Np.sum (map Sales.price g)) (groupby month_order_key l).

(** The months present, ascending. *)
Definition month_keys (l : list Sales.t) : list Z :=
  unique_sorted (map Sales.month l).

(** The orders of a month, as the second grouping sees them. *)
Definition month_orders (l : list Sales.t) (m : Z) : list string :=
  map snd (List.filter (fun mk : Z * string => bool_decide (fst mk = m))
             (unique_sorted (map month_order_key l))).
(** *** Outcomes of the data preparation *)

(** Whether [pd.to_datetime] accepts a cell. *)
Definition parsesb (c : date_cell) : bool :=
  match c with
  | Text s => match Timestamp.parse s with Some _ => true | None => false end
  | _ => true
  end.

(** The rows [pd.merge] builds from the two tables. *)
Definition joined (oi : DataFrame OrderItem.t) (o : DataFrame Order.t)
  : list Sales.t :=
  merge_inner OrderItem.order_id Order.order_id Sales.join
    (values oi) (values o).

Definition dates_parse (r : Sales.t) : bool :=
  parsesb (Sales.order_purchase_timestamp r)
  && parsesb (Sales.order_delivered_customer_date r).

(** A cell as a CSV file gives it, or a timestamp of a real calendar day. *)
Definition well_formed (c : date_cell) : Prop :=
  match c with
  | Stamp ts => Timestamp.valid ts = true
  | _ => True
  end.

(** The value [.dt.<field>] gives for a cell. *)
Definition derived (field : Timestamp.t -> Z) (c : date_cell) : option Z :=
  match c with
  | Stamp ts => Some (field ts)
  | _ => None
  end.

(** The four derived columns of a row hold the fields of its purchase
    timestamp. *)
Definition features_hold (r : Sales.t) : Prop :=
  let c := Sales.order_purchase_timestamp r in
  let feature suffix :=
    Sales.int_cell ("order_purchase_timestamp" ++ suffix)%string r in
  converted c
  /\ feature "_year"%string = derived Timestamp.year c
  /\ feature "_month"%string = derived Timestamp.month c
  /\ feature "_quarter"%string = derived Timestamp.quarter c
  /\ feature "_day"%string = derived Timestamp.day c.

(** Month, quarter and day of a cell are those of a calendar. *)
Definition in_calendar (c : date_cell) : Prop :=
  match c with
  | Stamp ts =>
      1 <= Timestamp.month ts <= 12
      /\ 1 <= Timestamp.quarter ts <= 4
      /\ 1 <= Timestamp.day ts <= 31
  | _ => True
  end.

(** The steps of [create_sales_dataset] after the join. *)
Definition prepared (merged : DataFrame Sales.t) : result (DataFrame Sales.t) :=
  let! sales_data :=
    preprocess_dates merged
      ["order_purchase_timestamp"; "order_delivered_customer_date"]%string in
  add_time_features sales_data "order_purchase_timestamp".

(** The frame [pd.merge] builds from the two tables. *)
Definition merged (oi : DataFrame OrderItem.t) (o : DataFrame Order.t)
  : DataFrame Sales.t :=
  mkDataFrame sales_columns (range_index (joined oi o)).

(** The columns [add_time_features] adds for the purchase timestamp. *)
Definition feature_columns : list string :=
  ["order_purchase_timestamp_year"; "order_purchase_timestamp_month";
   "order_purchase_timestamp_quarter"; "order_purchase_timestamp_day"]%string.

Definition is_delivered (r : Sales.t) : bool :=
  bool_decide (Sales.order_status r = "delivered"%string).

(** The cells of a date column of a row are converted. *)
Definition column_converted (col : string) (r : Sales.t) : Prop :=
  match Sales.date_cell_of col r with
  | Some c => converted c
  | None => True
  end.

(** The names [preprocess_dates] is given for a sales table: its two date
    columns, and names that are no column of the frame. *)
Definition date_columns : list string :=
  ["order_purchase_timestamp"; "order_delivered_customer_date"]%string.

Definition date_column_or_absent (df : DataFrame Sales.t) (col : string)
  : bool :=
  bool_decide (col ∈ date_columns) || negb (has_column df col).

(** The cells of a sales row that come from the order item and from the
    order, the two dates apart. *)
Definition item_cells (r : Sales.t)
  : string * Z * string * Q * Q * string * string :=
  (Sales.order_id r, Sales.order_item_id r, Sales.product_id r,
   Sales.price r, Sales.freight_value r, Sales.customer_id r,
   Sales.order_status r).


(** A frame seen through [g]: its labels, each with what [g] shows of the
    row. *)
Definition labelled {R B} (g : R -> B) (df : DataFrame R) : list (Z * B) :=
  map (fun lr => (fst lr, g (snd lr))) (rows df).

(** The row was bought in year [y]. *)
Definition purchased_in (y : Z) (r : Sales.t) : bool :=
  match Sales.order_purchase_timestamp r with
  | Stamp ts => Timestamp.year ts =? y
  | _ => false
  end.

(** *** Growth between two periods *)

(** The summed price of a table. *)
Definition total_price (l : list Sales.t) : Q := Np.sum (map Sales.price l).

(** The number of distinct orders of a table. *)
Definition order_number (l : list Sales.t) : Z :=
  Z.of_nat (size (order_ids l)).

(** The change from [b] to [a], in percent of [b]. *)
Definition change_pct (a b : Q) : Q := ((a - b) / b * 100)%Q.

(** A float, or an int of the 64-bit range: the numbers the metrics hold.
    Python raises OverflowError when an int beyond the range of a float is
    divided or mixed with a float. *)
Definition machine_number (v : EcommerceMetrics.value) : Prop :=
  match v with
  | EcommerceMetrics.PyInt z => - 2 ^ 63 <= z < 2 ^ 63
  | EcommerceMetrics.PyFloat _ => True
  end.

(** *** Monthly growth *)

(** The rows that have a month. *)
Definition dated (l : list Sales.t) : list Sales.t :=
  List.filter (fun r => match Sales.month r with
                        | Some _ => true
                        | None => false
                        end) l.

(** One entry of [pct_change() * 100]: the value [x] after the value
    [prev]. *)
Definition growth_of (x prev : Np.float64) : Np.float64 :=
  Np.mul (Np.sub (Np.div x prev) (Np.Finite 1)) (Np.Finite 100).

(** *** Counting items *)

(** [Series.sum()] of an integer column. *)
Definition total (l : list Z) : Z := fold_right Z.add 0 l.

(** The joined rows that have a category. *)
Definition categorized (sp : list EcommerceMetrics.SalesProduct)
  : list EcommerceMetrics.SalesProduct :=
  List.filter (fun r => match EcommerceMetrics.sp_product_category_name r with
                        | Some _ => true
                        | None => false
                        end) sp.

(** *** Operational metrics *)

(** The part of [l] that is [x]. *)
Definition share {A} `{EqDecision A} (x : A) (l : list A) : Q :=
  (inject_Z (count_of x l) / inject_Z (Z.of_nat (length l)))%Q.

(** The finite float of a dictionary entry; 0 for anything else. *)
Definition float_of (v : option EcommerceMetrics.value) : Q :=
  match v with
  | Some (EcommerceMetrics.PyFloat (Np.Finite q)) => q
  | _ => 0%Q
  end.

(** The year an order was bought in and the whole days its delivery took,
    as [pd.to_datetime] reads its cells. *)
Definition order_year (r : Order.t) : option Z :=
  match to_datetime (Order.order_purchase_timestamp r) with
  | Ok (Stamp ts) => Some (Timestamp.year ts)
  | _ => None
  end.

Definition order_days (r : Order.t) : option Z :=
  match to_datetime (Order.order_purchase_timestamp r),
        to_datetime (Order.order_delivered_customer_date r) with
  | Ok (Stamp p), Ok (Stamp d) => Some (Timestamp.sub_days d p)
  | _, _ => None
  end.

Definition delivered_orders (l : list Order.t) : list Order.t :=
  List.filter (fun r => bool_decide (Order.order_status r = "delivered"%string))
    l.

(** Two delivered orders, one of them without a delivery date, a canceled
    one, and a shipped one of the year before. *)
Definition four_orders : DataFrame Order.t :=
  mkDataFrame EcommerceDataLoader.orders_columns
    (range_index
       [Order.mk "o1" "c1" "delivered"
          (Text "2023-06-01 10:15:00") (Text "2023-06-04 09:00:00");
        Order.mk "o2" "c2" "delivered" (Text "2023-07-01") NaT;
        Order.mk "o3" "c1" "canceled" (Text "2023-07-02") NaT;
        Order.mk "o4" "c3" "shipped" (Text "2022-01-05") NaT]).

(** One canceled order whose dates are not dates. *)
Definition one_canceled_order : DataFrame Order.t :=
  mkDataFrame EcommerceDataLoader.orders_columns
    (range_index
       [Order.mk "o1" "c1" "canceled" (Text "yesterday") (Text "never")]).

(** That order, and no order item. *)
Definition orders_without_items : EcommerceDataLoader.datasets :=
  EcommerceDataLoader.mkDatasets (Some one_canceled_order)
    (Some (mkDataFrame EcommerceDataLoader.order_items_columns []))
    None.

(** *** Customer satisfaction *)

(** The row of an order: its first sales row with its first review. *)
Definition first_review (o : string) (sales : list Sales.t)
    (reviews : list Review.t) : option SalesReview :=
  match List.filter (fun s => bool_decide (Sales.order_id s = o)) sales,
        List.filter (fun r => bool_decide (Review.order_id r = o)) reviews with
  | s :: _, r :: _ => Some (sales_review s r)
  | _, _ => None
  end.

(** The distinct orders that have a sale and a review. *)
Definition reviewed_orders (sales : list Sales.t) (reviews : list Review.t)
  : list string :=
  List.filter (fun o => bool_decide (o ∈ map Review.order_id reviews))
    (unique (map Sales.order_id sales)).

(** The rows of a delivery category. *)
Definition delivery_rows (c : string) (rows : list SalesReview)
  : list SalesReview :=
  List.filter (fun r => bool_decide (sr_delivery_category r = Some c)) rows.

(** Two items of one order that has two reviews, and an order without a
    review. *)
Definition three_sales : DataFrame Sales.t :=
  mkDataFrame
    (sales_columns ++ ["delivery_speed_days"; "delivery_category"]%string)
    (range_index
       [Sales.mk "o1" 1 "P1" 10 0 "c1" "delivered" NaT NaT ∅
          (Some 2) (Some "1-3 days"%string);
        Sales.mk "o1" 2 "P2" 5 0 "c1" "delivered" NaT NaT ∅
          (Some 2) (Some "1-3 days"%string);
        Sales.mk "o2" 1 "P1" 10 0 "c2" "delivered" NaT NaT ∅
          (Some 9) (Some "8+ days"%string)]).

Definition two_reviews : DataFrame Review.t :=
  mkDataFrame ["order_id"; "review_score"]%string
    (range_index [Review.mk "o1" 5; Review.mk "o1" 1; Review.mk "o3" 4]).

(** *** Geographic performance *)



(** Three sales: two items of an order from SP, one item of an order from
    RJ, and one item of an order that is not in the orders table. *)
Definition geo_sales : DataFrame Sales.t :=
  table [line "o1" "P1" 10 2024 1; line "o1" "P2" 5 2024 1;
         line "o2" "P1" 30 2024 2; line "o9" "P1" 99 2024 3].

Definition geo_orders : DataFrame Order.t :=
  mkDataFrame EcommerceDataLoader.orders_columns
    (range_index [Order.mk "o1" "c1" "delivered" NaT NaT;
                  Order.mk "o2" "c2" "delivered" NaT NaT]).

Definition geo_customers : DataFrame Customer.t :=
  mkDataFrame ["customer_id"; "customer_state"; "customer_city"]%string
    (range_index
       [Customer.mk "c1" (Some "SP"%string) (Some "sao paulo"%string);
        Customer.mk "c2" (Some "RJ"%string) (Some "niteroi"%string)]).

(** The four labels of a delivery category. *)
Definition delivery_labels : list string :=
  ["1-3 days"; "4-7 days"; "8+ days"; "Unknown"]%string.
End Spec.

Import Spec.

(** ** Results on data_loader.py *)

Section Traverse.
Import Py.
Context {A B : Type}.

Lemma traverse_Forall2 (f : A -> result B) l l' :
  traverse f l = Ok l' -> Forall2 (fun x y => f x = Ok y) l l'.
Proof.
  revert l'; induction l as [|x l IH]; simpl; intros l' H.
  - inversion H; constructor.
  - destruct (f x) as [y|] eqn:Hx; simpl in H; [|discriminate].
    destruct (traverse f l) as [ys|]; simpl in H; [|discriminate].
    inversion H; subst. constructor; auto.
Qed.

Lemma traverse_total (f : A -> result B) l :
  Forall (fun x => exists y, f x = Ok y) l -> exists l', traverse f l = Ok l'.
Proof.
  induction 1 as [|x l [y Hy] _ [ys IH]]; simpl.
  - eexists; reflexivity.
  - rewrite Hy, IH; simpl. eexists; reflexivity.
Qed.

Lemma traverse_pure (g : A -> B) l :
  traverse (fun x => Ok (g x)) l = Ok (map g l).
Proof. induction l as [|x l IH]; simpl; [|rewrite IH]; reflexivity. Qed.
End Traverse.

Section Delivery.
Import Py Pandas EcommerceDataLoader.

Lemma categorize_bucket days :
  Spec.bucket days (_categorize_delivery_speed days).
Proof.
  destruct days as [d|]; simpl; [|reflexivity].
  destruct (Z.leb_spec d 3); [left; split; [lia|reflexivity]|].
  destruct (Z.leb_spec d 7); [right; left|right; right];
    (split; [lia|reflexivity]).
Qed.

Lemma sub_days_whole d p :
  Spec.whole_days d p (Timestamp.sub_days d p).
Proof.
  unfold Spec.whole_days, Timestamp.sub_days.
  set (x := Timestamp.to_seconds d - Timestamp.to_seconds p).
  pose proof (Z.div_mod x 86400 ltac:(lia)).
  pose proof (Z.mod_pos_bound x 86400 ltac:(lia)). lia.
Qed.

Lemma whole_days_unique d p z z' :
  Spec.whole_days d p z -> Spec.whole_days d p z' -> z = z'.
Proof. unfold Spec.whole_days; lia. Qed.

Lemma assign_rows {R} (df df' : DataFrame R) cols f :
  assign df cols f = Ok df' ->
  Forall2 (fun lr lr' => exists r', f (snd lr) = Ok r' /\ lr' = (fst lr, r'))
    (rows df) (rows df').
Proof.
  unfold assign. intros H.
  match type of H with
  | (let! _ := ?t in _) = _ => destruct t as [rs|] eqn:Ht
  end; simpl in H; [|discriminate].
  inversion H; subst; clear H; simpl.
  apply traverse_Forall2 in Ht.
  induction Ht as [|lr lr' l l' Hx _ IH]; constructor; auto.
  destruct (f (snd lr)) as [r'|]; simpl in Hx; [|discriminate].
  inversion Hx; subst. exists r'; split; reflexivity.
Qed.

Lemma assign_total {R} (df : DataFrame R) cols f :
  Forall (fun lr => exists r', f (snd lr) = Ok r') (rows df) ->
  exists df', assign df cols f = Ok df'.
Proof.
  intros Hf. unfold assign.
  destruct (traverse_total
              (fun lr : Z * R => let! r := f (snd lr) in Ok (fst lr, r))
              (rows df)) as [rs Hrs].
  - eapply Forall_impl; [exact Hf|]. intros lr [r' Hr'].
    rewrite Hr'; simpl. eexists; reflexivity.
  - rewrite Hrs; simpl. eexists; reflexivity.
Qed.

Lemma add_delivery_metrics_rows df df' :
  has_column df "order_delivered_customer_date" = true ->
  has_column df "order_purchase_timestamp" = true ->
  add_delivery_metrics df = Ok df' ->
  Forall2
    (fun lr lr' =>
       exists days,
         sub_days (Sales.order_delivered_customer_date (snd lr))
           (Sales.order_purchase_timestamp (snd lr)) = Ok days
         /\ lr' = (fst lr, delivery_row (snd lr) days))
    (rows df) (rows df').
Proof.
  intros Hd Hp. unfold add_delivery_metrics. rewrite Hd, Hp; simpl.
  match goal with
  | |- (let! _ := ?t in _) = _ -> _ => destruct t as [df1|] eqn:H1
  end; simpl; [|discriminate].
  intros H2. apply assign_rows in H1. apply assign_rows in H2.
  revert H2. generalize (rows df'). 
  induction H1 as [|lr lr1 l l1 (r1 & Hr1 & ->) _ IH]; intros l2 H2;
    inversion H2 as [|? lr2 ? l2' (r2 & Hr2 & ->) H2']; subst;
    constructor; auto.
  destruct (sub_days _ _) as [days|]; simpl in Hr1; [|discriminate].
  inversion Hr1; subst. simpl in Hr2. inversion Hr2; subst.
  exists days; split; reflexivity.
Qed.

Lemma add_delivery_metrics_total df :
  Forall (fun lr =>
            Spec.converted (Sales.order_purchase_timestamp (snd lr))
            /\ Spec.converted (Sales.order_delivered_customer_date (snd lr)))
    (rows df) ->
  exists df', add_delivery_metrics df = Ok df'.
Proof.
  intros Hc. unfold add_delivery_metrics.
  destruct (_ && _); [|eexists; reflexivity].
  match goal with
  | |- exists _, (let! _ := ?t in _) = _ =>
      destruct t as [df1|] eqn:H1
  end; simpl.
  - apply assign_total. apply Forall_forall. intros; eexists; reflexivity.
  - exfalso.
    match type of H1 with
    | assign ?d ?c ?f = _ => destruct (assign_total d c f) as [df1 H]
    end; [|congruence].
    eapply Forall_impl; [exact Hc|]. intros [i r] [Hp Hd]; simpl in *.
    destruct (Sales.order_delivered_customer_date r),
      (Sales.order_purchase_timestamp r); simpl in *;
      try contradiction; eexists; reflexivity.
Qed.

(** C3.  [add_delivery_metrics] writes, in every row, the whole-day
    difference between delivery date and purchase timestamp (nothing when
    one of them is missing) and the bucket of that number: at most 3 is
    "1-3 days", above 3 and at most 7 is "4-7 days", above 7 is "8+ days",
    no number is "Unknown".  A purchase on 2024-01-01 delivered on
    2024-01-03, 2024-01-08, 2024-01-09 gives 2, 7, 8 days with the buckets
    "1-3 days", "4-7 days", "8+ days"; no delivery date gives "Unknown". *)
Theorem add_delivery_metrics_spec :
  (forall df : DataFrame Sales.t,
     has_column df "order_delivered_customer_date" = true ->
     has_column df "order_purchase_timestamp" = true ->
     Forall (fun lr =>
               Spec.converted (Sales.order_purchase_timestamp (snd lr))
               /\ Spec.converted (Sales.order_delivered_customer_date (snd lr)))
       (rows df) ->
     exists df',
       add_delivery_metrics df = Ok df'
       /\ map fst (rows df') = map fst (rows df)
       /\ Forall2
            (fun r r' =>
               match Sales.order_delivered_customer_date r,
                     Sales.order_purchase_timestamp r with
               | Stamp d, Stamp p =>
                   exists z, Sales.delivery_speed_days r' = Some z
                             /\ Spec.whole_days d p z
               | _, _ => Sales.delivery_speed_days r' = None
               end
               /\ (exists c, Sales.delivery_category r' = Some c
                             /\ Spec.bucket (Sales.delivery_speed_days r') c)
               /\ (Sales.order_delivered_customer_date r = NaT ->
                   Sales.delivery_category r' = Some "Unknown"%string))
            (values df) (values df'))
  /\ Spec.delivery_cells (add_delivery_metrics (Spec.delivered_on (Spec.day 2024 1 3)))
     = [(Some 2, Some "1-3 days"%string)]
  /\ Spec.delivery_cells (add_delivery_metrics (Spec.delivered_on (Spec.day 2024 1 8)))
     = [(Some 7, Some "4-7 days"%string)]
  /\ Spec.delivery_cells (add_delivery_metrics (Spec.delivered_on (Spec.day 2024 1 9)))
     = [(Some 8, Some "8+ days"%string)]
  /\ Spec.delivery_cells (add_delivery_metrics (Spec.delivered_on NaT))
     = [(None, Some "Unknown"%string)].
Proof.
  split; [|repeat split; vm_compute; reflexivity].
  intros df Hd Hp Hc.
  destruct (add_delivery_metrics_total df Hc) as [df' Hrun].
  exists df'. split; [exact Hrun|].
  pose proof (add_delivery_metrics_rows df df' Hd Hp Hrun) as Hrows.
  unfold values. clear Hc Hrun. split.
  - induction Hrows as [|lr lr' l l' (days & _ & ->) _ IH]; simpl;
      [reflexivity|f_equal; exact IH].
  - apply Forall2_fmap.
    eapply Forall2_impl; [exact Hrows|].
    intros [i r] lr' (days & Hs & ->); simpl in *.
    repeat split.
    + destruct (Sales.order_delivered_customer_date r) as [|d|],
        (Sales.order_purchase_timestamp r) as [|p0|];
        simpl in Hs; inversion Hs; subst; try reflexivity.
      eexists; split; [reflexivity|apply sub_days_whole].
    + eexists; split; [reflexivity|apply categorize_bucket].
    + intros Hnat. rewrite Hnat in Hs.
      destruct (Sales.order_purchase_timestamp r); simpl in Hs;
        inversion Hs; reflexivity.
Qed.

Lemma add_delivery_metrics_spec_witness :
  let df := Spec.delivered_on (Spec.day 2024 1 8) in
  exists df',
    add_delivery_metrics df = Ok df'
    /\ map fst (rows df') = map fst (rows df)
    /\ Forall2
         (fun r r' =>
            match Sales.order_delivered_customer_date r,
                  Sales.order_purchase_timestamp r with
            | Stamp d, Stamp p =>
                exists z, Sales.delivery_speed_days r' = Some z
                          /\ Spec.whole_days d p z
            | _, _ => Sales.delivery_speed_days r' = None
            end
            /\ (exists c, Sales.delivery_category r' = Some c
                          /\ Spec.bucket (Sales.delivery_speed_days r') c)
            /\ (Sales.order_delivered_customer_date r = NaT ->
                Sales.delivery_category r' = Some "Unknown"%string))
         (values df) (values df').
Proof.
  apply (proj1 add_delivery_metrics_spec
           (Spec.delivered_on (Spec.day 2024 1 8))).
  - reflexivity.
  - reflexivity.
  - repeat constructor.
Defined.

(** From the CSV text to the bucket: an order bought on 2023-06-01 and
    delivered on 2023-06-04 took three days, "1-3 days". *)
Example delivery_of_the_scenario :
  Spec.delivery_cells (load_and_prepare_data Spec.scenario)
  = [(Some 3, Some "1-3 days"%string)].
Proof. vm_compute. reflexivity. Qed.

(** C10.  A row delivered before it was bought has a negative number of
    days, and a negative number of days falls in the bucket "1-3 days": it
    is neither refused nor labelled "Unknown". *)
Theorem negative_days_are_1_3_days (df df' : DataFrame Sales.t) :
  has_column df "order_delivered_customer_date" = true ->
  has_column df "order_purchase_timestamp" = true ->
  add_delivery_metrics df = Ok df' ->
  (forall d : Z, d < 0 ->
     _categorize_delivery_speed (Some d) = "1-3 days"%string)
  /\ Forall2
       (fun r r' =>
          (forall z, Sales.delivery_speed_days r' = Some z -> z < 0 ->
             Sales.delivery_category r' = Some "1-3 days"%string)
          /\ (forall d p,
                Sales.order_delivered_customer_date r = Stamp d ->
                Sales.order_purchase_timestamp r = Stamp p ->
                Timestamp.to_seconds d < Timestamp.to_seconds p ->
                (exists z, Sales.delivery_speed_days r' = Some z /\ z < 0)
                /\ Sales.delivery_category r' = Some "1-3 days"%string))
       (values df) (values df').
Proof.
  intros Hd Hp Hrun.
  assert (Hneg : forall d : Z, d < 0 ->
            _categorize_delivery_speed (Some d) = "1-3 days"%string).
  { intros d Hlt; simpl. destruct (Z.leb_spec d 3); [reflexivity|lia]. }
  split; [exact Hneg|].
  pose proof (add_delivery_metrics_rows df df' Hd Hp Hrun) as Hrows.
  unfold values. apply Forall2_fmap.
  eapply Forall2_impl; [exact Hrows|].
  intros [i r] lr' (days & Hs & ->).
  cbn [fst snd] in *. unfold delivery_row.
  cbn [Sales.set_delivery_category Sales.set_delivery_speed_days
       Sales.delivery_category Sales.delivery_speed_days]. split.
  - intros z Hz Hlt. subst days. rewrite (Hneg z Hlt). reflexivity.
  - intros d p Hdd Hpp Hlt. rewrite Hdd, Hpp in Hs; simpl in Hs.
    inversion Hs; subst; clear Hs.
    assert (Timestamp.sub_days d p < 0).
    { pose proof (sub_days_whole d p) as Hw. unfold Spec.whole_days in Hw. lia. }
    split; [eexists; split; [reflexivity|assumption]|].
    rewrite Hneg by assumption. reflexivity.
Qed.

Lemma negative_days_are_1_3_days_witness :
  (forall d : Z, d < 0 ->
     _categorize_delivery_speed (Some d) = "1-3 days"%string)
  /\ Forall2
       (fun r r' =>
          (forall z, Sales.delivery_speed_days r' = Some z -> z < 0 ->
             Sales.delivery_category r' = Some "1-3 days"%string)
          /\ (forall d p,
                Sales.order_delivered_customer_date r = Stamp d ->
                Sales.order_purchase_timestamp r = Stamp p ->
                Timestamp.to_seconds d < Timestamp.to_seconds p ->
                (exists z, Sales.delivery_speed_days r' = Some z /\ z < 0)
                /\ Sales.delivery_category r' = Some "1-3 days"%string))
       (values early_delivery)
       [delivery_row (Spec.delivery (Spec.day 2024 1 5) (Spec.day 2024 1 2))
          (Some (-3))].
Proof.
  apply (negative_days_are_1_3_days early_delivery
           (mkDataFrame (Spec.sales_columns
                         ++ ["delivery_speed_days"; "delivery_category"]%string)
              [(0, delivery_row
                     (Spec.delivery (Spec.day 2024 1 5) (Spec.day 2024 1 2))
                     (Some (-3)))])).
  - reflexivity.
  - reflexivity.
  - reflexivity.
Defined.

End Delivery.


Section FilterFacts.
Import Py Pandas EcommerceDataLoader.
Context {R : Type}.
Variable cell : string -> R -> option Z.

Lemma filter_true {A} (l : list A) : List.filter (fun _ => true) l = l.
Proof. induction l; simpl; congruence. Qed.

Lemma filter_filter {A} (p q : A -> bool) l :
  List.filter q (List.filter p l) = List.filter (fun x => p x && q x) l.
Proof.
  induction l as [|x l IH]; simpl; [reflexivity|].
  destruct (p x); simpl; [destruct (q x)|]; rewrite IH; reflexivity.
Qed.

Lemma filter_sublist {A} (p : A -> bool) l : sublist (List.filter p l) l.
Proof.
  induction l as [|x l IH]; simpl; [constructor|].
  destruct (p x); [apply sublist_skip|apply sublist_cons]; exact IH.
Qed.

Lemma getitem_mask_twice (d : DataFrame R) p q :
  getitem_mask (getitem_mask d p) q = getitem_mask d (fun r => p r && q r).
Proof. unfold getitem_mask; simpl. rewrite filter_filter. reflexivity. Qed.

Lemma narrowed_mask bound col mask (d : DataFrame R) :
  narrowed bound col mask d = getitem_mask d (active bound col mask (columns d)).
Proof.
  unfold narrowed, active, has_column.
  destruct (truthy bound && _); [reflexivity|].
  unfold getitem_mask. rewrite filter_true. destruct d; reflexivity.
Qed.

Lemma filtered_frame_mask (d : DataFrame R) dc sy ey sm em :
  filtered_frame cell d dc sy ey sm em
  = getitem_mask d (date_mask cell (columns d) dc sy ey sm em).
Proof.
  unfold filtered_frame. rewrite !narrowed_mask. cbn [getitem_mask columns].
  rewrite !getitem_mask_twice. reflexivity.
Qed.

Lemma filtered_frame_idem (d : DataFrame R) dc sy ey sm em :
  filtered_frame cell (filtered_frame cell d dc sy ey sm em) dc sy ey sm em
  = filtered_frame cell d dc sy ey sm em.
Proof.
  rewrite !filtered_frame_mask. cbn [getitem_mask columns].
  unfold getitem_mask; simpl. f_equal. rewrite filter_filter.
  apply List.filter_ext. intros lr. destruct (date_mask _ _ _ _ _ _ _ _); reflexivity.
Qed.

Lemma ends_on_bind (m : St ref) (k : ref -> St ref) h (d d' : DataFrame R) :
  ends_on m h d ->
  (forall r' h', h' !! r' = Some d -> ends_on (k r') h' d') ->
  ends_on (bindS m k) h d'.
Proof.
  intros (r1 & ext1 & Hm & Hr1) Hk.
  destruct (Hk r1 (h ++ ext1) Hr1) as (r2 & ext2 & Hk2 & Hr2).
  exists r2, (ext1 ++ ext2). unfold bindS. rewrite Hm.
  rewrite app_assoc. split; assumption.
Qed.

Lemma ends_on_alloc h (d : DataFrame R) : ends_on (alloc d) h d.
Proof.
  exists (length h), [d]. split; [reflexivity|].
  rewrite lookup_app_r by lia. rewrite Nat.sub_diag. reflexivity.
Qed.

Lemma ends_on_ret h r (d : DataFrame R) : h !! r = Some d -> ends_on (ret r) h d.
Proof.
  intros Hr. exists r, []. rewrite app_nil_r. split; [reflexivity|exact Hr].
Qed.

Lemma ends_on_read h r (d : DataFrame R) (k : DataFrame R -> St ref) d' :
  h !! r = Some d -> ends_on (k d) h d' -> ends_on (bindS (read r) k) h d'.
Proof.
  intros Hr (r' & ext & Hk & Hr'). exists r', ext.
  unfold bindS, read. rewrite Hr. split; assumption.
Qed.

Lemma ends_on_copy h r (d : DataFrame R) : h !! r = Some d -> ends_on (copy r) h d.
Proof.
  intros Hr. unfold copy. eapply ends_on_read; [exact Hr|apply ends_on_alloc].
Qed.

Lemma ends_on_narrow h r (d : DataFrame R) bound col mask :
  h !! r = Some d ->
  ends_on (narrow bound col mask r) h (narrowed bound col mask d).
Proof.
  intros Hr. unfold narrow, narrowed.
  destruct (truthy bound); simpl; [|apply ends_on_ret; exact Hr].
  assert (Hin : in_columns r col h = Some (has_column d col, h)).
  { unfold in_columns, bindS, read. rewrite Hr. reflexivity. }
  destruct (has_column d col).
  - destruct (ends_on_alloc h (getitem_mask d mask)) as (r' & ext & Ha & Hr').
    exists r', ext. unfold bindS. rewrite Hin. unfold mask_frame, bindS, read.
    rewrite Hr. split; assumption.
  - exists r, []. rewrite app_nil_r. unfold bindS. rewrite Hin.
    split; [reflexivity|exact Hr].
Qed.

Lemma filter_by_date_range_ends_on h df (d : DataFrame R) dc sy ey sm em :
  h !! df = Some d ->
  ends_on (filter_by_date_range cell df dc sy ey sm em) h
    (filtered_frame cell d dc sy ey sm em).
Proof.
  intros Hdf. unfold filter_by_date_range, filtered_frame.
  eapply ends_on_bind; [apply ends_on_copy; exact Hdf|].
  intros r0 h0 H0.
  eapply ends_on_bind; [apply ends_on_narrow; exact H0|].
  intros r1 h1 H1.
  eapply ends_on_bind; [apply ends_on_narrow; exact H1|].
  intros r2 h2 H2.
  eapply ends_on_bind; [apply ends_on_narrow; exact H2|].
  intros r3 h3 H3.
  eapply ends_on_bind; [apply ends_on_narrow; exact H3|].
  intros r4 h4 H4. apply ends_on_ret. exact H4.
Qed.

(** C7.  Filtering is idempotent: a second call with the same column and
    bounds, on the frame the first call returned, returns a frame identical
    to it (same columns, same rows, same index labels). *)
Theorem filter_by_date_range_idempotent
    (h : store) (df : ref) (d : DataFrame R) (date_column : string)
    (start_year end_year start_month end_month : option Z) :
  h !! df = Some d ->
  exists r1 h1 r2 h2 d1,
    filter_by_date_range cell df date_column
      start_year end_year start_month end_month h = Some (r1, h1)
    /\ filter_by_date_range cell r1 date_column
         start_year end_year start_month end_month h1 = Some (r2, h2)
    /\ h1 !! r1 = Some d1
    /\ h2 !! r2 = Some d1
    /\ d1 = filtered_frame cell d date_column
              start_year end_year start_month end_month
    /\ filtered_frame cell d1 date_column
         start_year end_year start_month end_month = d1.
Proof.
  intros Hdf.
  destruct (filter_by_date_range_ends_on h df d date_column
              start_year end_year start_month end_month Hdf)
    as (r1 & ext1 & Hrun1 & Hr1).
  destruct (filter_by_date_range_ends_on (h ++ ext1) r1 _ date_column
              start_year end_year start_month end_month Hr1)
    as (r2 & ext2 & Hrun2 & Hr2).
  rewrite filtered_frame_idem in Hr2.
  exists r1, (h ++ ext1), r2, ((h ++ ext1) ++ ext2),
    (filtered_frame cell d date_column
       start_year end_year start_month end_month).
  repeat split; try assumption. apply filtered_frame_idem.
Qed.

(** C8.  The call changes no frame that existed before it, so the input
    frame is as it was; the frame it returns has the input's columns, and
    its rows are rows of the input, in the input's order and under the
    input's labels. *)
Theorem filter_by_date_range_frame
    (h : store) (df : ref) (d : DataFrame R) (date_column : string)
    (start_year end_year start_month end_month : option Z) :
  h !! df = Some d ->
  exists r' h' d',
    filter_by_date_range cell df date_column
      start_year end_year start_month end_month h = Some (r', h')
    /\ h' !! df = Some d
    /\ (forall r0 d0, h !! r0 = Some d0 -> h' !! r0 = Some d0)
    /\ h' !! r' = Some d'
    /\ columns d' = columns d
    /\ sublist (rows d') (rows d)
    /\ (forall lr, In lr (rows d') -> In lr (rows d)).
Proof.
  intros Hdf.
  destruct (filter_by_date_range_ends_on h df d date_column
              start_year end_year start_month end_month Hdf)
    as (r1 & ext1 & Hrun1 & Hr1).
  exists r1, (h ++ ext1),
    (filtered_frame cell d date_column
       start_year end_year start_month end_month).
  split; [exact Hrun1|].
  split; [apply lookup_app_l_Some; exact Hdf|].
  split; [intros r0 d0 H0; apply lookup_app_l_Some; exact H0|].
  split; [exact Hr1|].
  rewrite filtered_frame_mask. cbn [getitem_mask columns rows].
  split; [reflexivity|]. split; [apply filter_sublist|].
  intros lr Hin. apply List.filter_In in Hin. tauto.
Qed.

(** C9.  A bound equal to 0 is falsy and is treated exactly as a bound that
    was not given: the call is the same computation, and with 0 as its only
    bound it returns the frame with every row, also the rows whose year or
    month is negative or missing. *)
Theorem zero_bound_is_no_bound
    (df : ref) (d : DataFrame R) (date_column : string)
    (start_year end_year start_month end_month : option Z) :
  filter_by_date_range cell df date_column
    (Some 0) end_year start_month end_month
  = filter_by_date_range cell df date_column
      None end_year start_month end_month
  /\ filter_by_date_range cell df date_column
       start_year (Some 0) start_month end_month
     = filter_by_date_range cell df date_column
         start_year None start_month end_month
  /\ filter_by_date_range cell df date_column
       start_year end_year (Some 0) end_month
     = filter_by_date_range cell df date_column
         start_year end_year None end_month
  /\ filter_by_date_range cell df date_column
       start_year end_year start_month (Some 0)
     = filter_by_date_range cell df date_column
         start_year end_year start_month None
  /\ filtered_frame cell d date_column (Some 0) (Some 0) (Some 0) (Some 0) = d.
Proof.
  repeat split; reflexivity.
Qed.

End FilterFacts.

Lemma filter_by_date_range_idempotent_witness :
  [sample_frame] !! 0%nat = Some sample_frame
  /\ exists r1 h1 r2 h2 d1,
       EcommerceDataLoader.filter_by_date_range Sales.int_cell 0%nat
         "order_purchase_timestamp" (Some 2024) (Some 2024) None None
         [sample_frame] = Some (r1, h1)
       /\ EcommerceDataLoader.filter_by_date_range Sales.int_cell r1
            "order_purchase_timestamp" (Some 2024) (Some 2024) None None h1
          = Some (r2, h2)
       /\ h1 !! r1 = Some d1
       /\ h2 !! r2 = Some d1
       /\ d1 = EcommerceDataLoader.filtered_frame Sales.int_cell sample_frame
                 "order_purchase_timestamp" (Some 2024) (Some 2024) None None
       /\ EcommerceDataLoader.filtered_frame Sales.int_cell d1
            "order_purchase_timestamp" (Some 2024) (Some 2024) None None = d1.
Proof.
  split; [reflexivity|].
  apply (filter_by_date_range_idempotent Sales.int_cell [sample_frame] 0%nat
           sample_frame "order_purchase_timestamp"
           (Some 2024) (Some 2024) None None).
  reflexivity.
Defined.

Lemma filter_by_date_range_frame_witness :
  [sample_frame] !! 0%nat = Some sample_frame
  /\ exists r' h' d',
       EcommerceDataLoader.filter_by_date_range Sales.int_cell 0%nat
         "order_purchase_timestamp" (Some 2024) None (Some 1) (Some 6)
         [sample_frame] = Some (r', h')
       /\ h' !! 0%nat = Some sample_frame
       /\ (forall r0 d0, [sample_frame] !! r0 = Some d0 -> h' !! r0 = Some d0)
       /\ h' !! r' = Some d'
       /\ Pandas.columns d' = Pandas.columns sample_frame
       /\ sublist (Pandas.rows d') (Pandas.rows sample_frame)
       /\ (forall lr, In lr (Pandas.rows d') -> In lr (Pandas.rows sample_frame)).
Proof.
  split; [reflexivity|].
  apply (filter_by_date_range_frame Sales.int_cell [sample_frame] 0%nat
           sample_frame "order_purchase_timestamp"
           (Some 2024) None (Some 1) (Some 6)).
  reflexivity.
Defined.

(** With 2024 as both year bounds only the row of January 2024 is left; with
    0 as the start year the rows of every year, and the row without a year,
    are all still there. *)
Example filter_by_date_range_sample :
  map fst (Pandas.rows
             (EcommerceDataLoader.filtered_frame Sales.int_cell sample_frame
                "order_purchase_timestamp" (Some 2024) (Some 2024) None None))
  = [1]
  /\ map fst (Pandas.rows
                (EcommerceDataLoader.filtered_frame Sales.int_cell sample_frame
                   "order_purchase_timestamp" (Some 0) None None None))
     = [0; 1; 2]
  /\ map fst (Pandas.rows
                (EcommerceDataLoader.filtered_frame Sales.int_cell sample_frame
                   "order_purchase_timestamp" (Some 1) None None None))
     = [0; 1].
Proof. repeat split; vm_compute; reflexivity. Qed.

(** ** The sales fact table *)

Section SalesFact.
Import Py Pandas EcommerceDataLoader.

Lemma map_snd_imap {A B} (g : nat -> B) (l : list A) :
  map snd (imap (fun i r => (g i, r)) l) = l.
Proof.
  revert g. induction l as [|x l IH]; intros g; simpl; [reflexivity|].
  f_equal. apply (IH (fun i => g (S i))).
Qed.

Lemma map_snd_range_index {A} (l : list A) : map snd (range_index l) = l.
Proof. apply map_snd_imap. Qed.

Lemma values_range_index_rows {A} cols (l : list A) :
  values (mkDataFrame cols (range_index l)) = l.
Proof. apply map_snd_range_index. Qed.

Lemma length_range_index {A} (l : list A) : length (range_index l) = length l.
Proof. rewrite <- (map_snd_range_index l) at 2. symmetry; apply length_map. Qed.

(** An assignment that leaves [order_id] alone keeps the column as it is. *)
Lemma assign_order_id (df df' : DataFrame Sales.t) cols f :
  (forall r r', f r = Ok r' -> Sales.order_id r' = Sales.order_id r) ->
  assign df cols f = Ok df' ->
  map Sales.order_id (values df') = map Sales.order_id (values df).
Proof.
  intros Hf Hrun. apply assign_rows in Hrun. unfold values.
  induction Hrun as [|lr lr' l l' (r' & Hr' & ->) _ IH]; simpl;
    [reflexivity|].
  f_equal; [apply Hf; exact Hr'|exact IH].
Qed.

Lemma set_date_cell_order_id col c r :
  Sales.order_id (Sales.set_date_cell col c r) = Sales.order_id r.
Proof.
  unfold Sales.set_date_cell. repeat case_bool_decide; reflexivity.
Qed.

Lemma convert_column_order_id df col df' :
  convert_column df col = Ok df' ->
  map Sales.order_id (values df') = map Sales.order_id (values df).
Proof.
  unfold convert_column. destruct (has_column df col).
  - apply assign_order_id. intros r r'.
    destruct (Sales.date_cell_of col r) as [c|]; [|intros H; inversion H; reflexivity].
    destruct (to_datetime c) as [c'|]; simpl; intros H; inversion H.
    apply set_date_cell_order_id.
  - intros H; inversion H; reflexivity.
Qed.

Lemma preprocess_dates_order_id cols : forall df df',
  preprocess_dates df cols = Ok df' ->
  map Sales.order_id (values df') = map Sales.order_id (values df).
Proof.
  induction cols as [|col cols IH]; simpl; intros df df' H.
  - inversion H; reflexivity.
  - destruct (convert_column df col) as [df1|] eqn:H1; simpl in H; [|discriminate].
    rewrite (IH _ _ H). apply convert_column_order_id with col. exact H1.
Qed.

Lemma add_feature_order_id dc suffix f df df' :
  add_feature dc suffix f df = Ok df' ->
  map Sales.order_id (values df') = map Sales.order_id (values df).
Proof.
  unfold add_feature. apply assign_order_id. intros r r'.
  destruct (Sales.date_cell_of dc r) as [c|]; [|discriminate].
  destruct (dt f c) as [v|]; simpl; intros H; inversion H. reflexivity.
Qed.

Lemma add_time_features_order_id df dc df' :
  add_time_features df dc = Ok df' ->
  map Sales.order_id (values df') = map Sales.order_id (values df).
Proof.
  unfold add_time_features. destruct (has_column df dc);
    [|intros H; inversion H; reflexivity].
  destruct (add_feature dc "_year" _ df) as [df1|] eqn:H1; simpl; [|discriminate].
  destruct (add_feature dc "_month" _ df1) as [df2|] eqn:H2; simpl; [|discriminate].
  destruct (add_feature dc "_quarter" _ df2) as [df3|] eqn:H3; simpl; [|discriminate].
  intros H4.
  rewrite (add_feature_order_id _ _ _ _ _ H4), (add_feature_order_id _ _ _ _ _ H3),
    (add_feature_order_id _ _ _ _ _ H2), (add_feature_order_id _ _ _ _ _ H1).
  reflexivity.
Qed.

Section MergeFacts.
Context {L R' K O : Type} `{EqDecision K}.
Variables (kl : L -> K) (kr : R' -> K) (join : L -> R' -> O).

Lemma matches_unique l right :
  NoDup (map kr right) ->
  length (matches kl kr l right)
  = if bool_decide (kl l ∈ map kr right) then 1%nat else 0%nat.
Proof.
  unfold matches. induction right as [|r right IH]; simpl; intros Hnd.
  - reflexivity.
  - apply NoDup_cons in Hnd as [Hr Hnd]. specialize (IH Hnd).
    assert (Hiff : kl l ∈ kr r :: map kr right
                   <-> kl l = kr r \/ kl l ∈ map kr right)
      by apply elem_of_cons.
    destruct (bool_decide (kl l = kr r)) eqn:Heq; simpl; rewrite IH.
    + apply bool_decide_eq_true in Heq.
      rewrite (bool_decide_eq_true_2 (kl l ∈ kr r :: map kr right))
        by tauto.
      rewrite bool_decide_eq_false_2; [reflexivity|]. rewrite Heq; exact Hr.
    + apply bool_decide_eq_false in Heq.
      destruct (bool_decide (kl l ∈ map kr right)) eqn:Hin.
      * apply bool_decide_eq_true in Hin.
        rewrite bool_decide_eq_true_2 by tauto. reflexivity.
      * apply bool_decide_eq_false in Hin.
        rewrite bool_decide_eq_false_2 by tauto. reflexivity.
Qed.

(** An inner join has, for each left row, as many rows as there are right
    rows of the same key. *)
Lemma merge_inner_length left right :
  length (merge_inner kl kr join left right)
  = fold_right (fun l n => (length (matches kl kr l right) + n)%nat) 0%nat left.
Proof.
  unfold merge_inner. induction left as [|l left IH]; simpl; [reflexivity|].
  rewrite length_app, length_map, IH. reflexivity.
Qed.

Lemma merge_inner_length_unique left right :
  NoDup (map kr right) ->
  length (merge_inner kl kr join left right)
  = length (List.filter (fun l => bool_decide (kl l ∈ map kr right)) left).
Proof.
  intros Hnd. rewrite merge_inner_length.
  induction left as [|l left IH]; simpl; [reflexivity|].
  rewrite matches_unique by exact Hnd.
  destruct (bool_decide _); simpl; rewrite IH; reflexivity.
Qed.

Lemma merge_inner_elem o left right :
  In o (merge_inner kl kr join left right) <->
  exists l r, In l left /\ In r right /\ kl l = kr r /\ o = join l r.
Proof.
  unfold merge_inner, matches. rewrite in_flat_map. split.
  - intros (l & Hl & Ho). apply in_map_iff in Ho as (r & <- & Hr).
    apply List.filter_In in Hr as [Hr Hk]. apply bool_decide_eq_true in Hk.
    exists l, r. auto.
  - intros (l & r & Hl & Hr & Hk & ->).
    exists l. split; [exact Hl|]. apply in_map. apply List.filter_In.
    split; [exact Hr|]. apply bool_decide_eq_true; exact Hk.
Qed.
End MergeFacts.

Lemma select_values {R} (df df' : DataFrame R) cols :
  select df cols = Ok df' -> values df' = values df /\ columns df' = cols.
Proof.
  unfold select. destruct (forallb _ _); intros H; inversion H; split; reflexivity.
Qed.

Lemma len_values {R} (df : DataFrame R) : len df = Z.of_nat (length (values df)).
Proof. unfold len, values. rewrite length_map. reflexivity. Qed.

(** The [order_id] column of the sales table is that of the join. *)
Lemma create_sales_dataset_order_ids ds oi o sales :
  order_items ds = Some oi ->
  orders ds = Some o ->
  create_sales_dataset ds = Ok sales ->
  map Sales.order_id (values sales)
  = map Sales.order_id
      (merge_inner OrderItem.order_id Order.order_id Sales.join
         (values oi) (values o)).
Proof.
  intros Hoi Ho. unfold create_sales_dataset. rewrite Hoi, Ho.
  destruct (select oi _) as [left|] eqn:Hl; simpl; [|discriminate].
  destruct (select o _) as [right|] eqn:Hr; simpl; [|discriminate].
  apply select_values in Hl as [Hl _]. apply select_values in Hr as [Hr _].
  destruct (convert_column _ _) as [df1|] eqn:H1; simpl; [|discriminate].
  destruct (convert_column df1 _) as [df2|] eqn:H2; simpl; [|discriminate].
  intros H3.
  rewrite (add_time_features_order_id _ _ _ H3),
    (convert_column_order_id _ _ _ H2), (convert_column_order_id _ _ _ H1).
  unfold merge_on_order_id, values at 1; simpl.
  rewrite map_snd_range_index, Hl, Hr. reflexivity.
Qed.

(** Without any assumption on the orders table, the sales table has one row
    for every pair of an order item and an order of the same [order_id]. *)
Lemma sales_rows_are_pairs ds oi o sales :
  order_items ds = Some oi ->
  orders ds = Some o ->
  create_sales_dataset ds = Ok sales ->
  len sales
  = Z.of_nat
      (fold_right
         (fun i n =>
            (length (matches OrderItem.order_id Order.order_id i (values o))
             + n)%nat)
         0%nat (values oi)).
Proof.
  intros Hoi Ho Hrun.
  pose proof (create_sales_dataset_order_ids ds oi o sales Hoi Ho Hrun) as Hids.
  apply (f_equal (@length _)) in Hids. rewrite !length_map in Hids.
  rewrite len_values, Hids, merge_inner_length. reflexivity.
Qed.

(** An assignment that succeeds on every row succeeds on the frame, and
    what it establishes for a row holds for every row of the result. *)
Lemma assign_establishes {R} (P Q : R -> Prop) (df : DataFrame R) cols f :
  Forall (fun lr => P (snd lr)) (rows df) ->
  (forall r, P r -> exists r', f r = Ok r' /\ Q r') ->
  exists df',
    assign df cols f = Ok df'
    /\ Forall (fun lr => Q (snd lr)) (rows df')
    /\ columns df'
       = columns df ++ List.filter (fun c => negb (has_column df c)) cols.
Proof.
  intros HP Hf.
  destruct (assign_total df cols f) as [df' Hrun].
  { eapply Forall_impl; [exact HP|]. intros lr Hlr.
    destruct (Hf _ Hlr) as (r' & Hr' & _). eauto. }
  exists df'. split; [exact Hrun|]. split.
  - pose proof (assign_rows _ _ _ _ Hrun) as Hrows.
    clear Hrun. induction Hrows as [|lr lr' l l' (r' & Hr' & ->) _ IH];
      [constructor|].
    apply Forall_cons in HP as [Hlr HP]. constructor; [|apply IH; exact HP].
    simpl. destruct (Hf _ Hlr) as (r'' & Hr'' & HQ). congruence.
  - unfold assign in Hrun.
    destruct (traverse _ (rows df)); simpl in Hrun; inversion Hrun.
    reflexivity.
Qed.

Lemma to_datetime_converted c :
  Spec.parses c -> exists c', to_datetime c = Ok c' /\ Spec.converted c'.
Proof.
  destruct c as [|ts|txt]; simpl; intros Hp.
  - exists NaT; split; [reflexivity|exact I].
  - exists (Stamp ts); split; [reflexivity|exact I].
  - destruct (Timestamp.parse txt) as [ts|]; [|congruence].
    exists (Stamp ts); split; [reflexivity|exact I].
Qed.

Lemma convert_column_establishes (df : DataFrame Sales.t) col
    (P Q : Sales.t -> Prop) :
  has_column df col = true ->
  Forall (fun lr => P (snd lr)) (rows df) ->
  (forall r, P r ->
     exists c c', Sales.date_cell_of col r = Some c
                  /\ to_datetime c = Ok c'
                  /\ Q (Sales.set_date_cell col c' r)) ->
  exists df',
    convert_column df col = Ok df'
    /\ Forall (fun lr => Q (snd lr)) (rows df')
    /\ columns df' = columns df.
Proof.
  intros Hcol HP Hf. unfold convert_column. rewrite Hcol.
  match goal with
  | |- exists _, assign df ?cols ?f = _ /\ _ =>
      destruct (assign_establishes P Q df cols f HP) as (df' & Hrun & HQ & Hc)
  end.
  { intros r Hr. destruct (Hf r Hr) as (c & c' & Hc & Hc' & HQ).
    rewrite Hc, Hc'. eexists; split; [reflexivity|exact HQ]. }
  exists df'. split; [exact Hrun|]. split; [exact HQ|].
  rewrite Hc. cbn [List.filter]. rewrite Hcol. simpl. apply app_nil_r.
Qed.

Lemma add_feature_total dc suffix f (df : DataFrame Sales.t) :
  dc = "order_purchase_timestamp"%string ->
  Forall (fun lr => Spec.converted (Sales.order_purchase_timestamp (snd lr)))
    (rows df) ->
  exists df',
    add_feature dc suffix f df = Ok df'
    /\ Forall (fun lr => Spec.converted (Sales.order_purchase_timestamp (snd lr)))
         (rows df')
    /\ columns df'
       = columns df
         ++ List.filter (fun c => negb (has_column df c)) [(dc ++ suffix)%string].
Proof.
  intros -> Hc. unfold add_feature.
  apply (assign_establishes
           (fun r => Spec.converted (Sales.order_purchase_timestamp r))
           (fun r => Spec.converted (Sales.order_purchase_timestamp r)));
    [exact Hc|].
  intros r Hr. unfold Sales.date_cell_of; simpl.
  destruct (Sales.order_purchase_timestamp r) as [|ts|txt] eqn:Hcell;
    simpl in *; try contradiction.
  - eexists; split; [reflexivity|]. simpl. rewrite Hcell. exact I.
  - eexists; split; [reflexivity|]. simpl. rewrite Hcell. exact I.
Qed.

(** The sales table is built whenever the two tables are loaded with their
    columns and every timestamp of the orders can be read. *)
Lemma create_sales_dataset_total ds oi o :
  order_items ds = Some oi ->
  orders ds = Some o ->
  forallb (has_column oi) order_items_columns = true ->
  forallb (has_column o) orders_columns = true ->
  Forall (fun r => Spec.parses (Order.order_purchase_timestamp r)
                   /\ Spec.parses (Order.order_delivered_customer_date r))
    (values o) ->
  exists sales, create_sales_dataset ds = Ok sales.
Proof.
  intros Hoi Ho Hci Hco Hparse. unfold create_sales_dataset, select.
  rewrite Hoi, Ho, Hci, Hco. cbn [bind preprocess_dates].
  set (merged := merge_on_order_id _ _).
  assert (Hcols : columns merged
                  = (order_items_columns
                     ++ ["customer_id"%string; "order_status"%string;
                         "order_purchase_timestamp"%string;
                         "order_delivered_customer_date"%string])%list)
    by reflexivity.
  assert (Hrows : Forall
            (fun lr => Spec.parses (Sales.order_purchase_timestamp (snd lr))
                       /\ Spec.parses (Sales.order_delivered_customer_date (snd lr)))
            (rows merged)).
  { apply Forall_forall. intros [i r] Hr. cbn [snd].
    assert (Hv : In r (values merged)).
    { apply list_elem_of_In in Hr. apply (in_map snd) in Hr. exact Hr. }
    unfold merged, merge_on_order_id in Hv.
    rewrite values_range_index_rows in Hv.
    apply merge_inner_elem in Hv as (it & ord & _ & Hord & _ & ->).
    rewrite Forall_forall in Hparse. apply (Hparse ord).
    apply list_elem_of_In. exact Hord. }
  assert (Hp : has_column merged "order_purchase_timestamp" = true)
    by (unfold has_column; rewrite Hcols; reflexivity).
  assert (Hd : has_column merged "order_delivered_customer_date" = true)
    by (unfold has_column; rewrite Hcols; reflexivity).
  destruct (convert_column_establishes merged "order_purchase_timestamp"
              (fun r => Spec.parses (Sales.order_purchase_timestamp r)
                        /\ Spec.parses (Sales.order_delivered_customer_date r))
              (fun r => Spec.converted (Sales.order_purchase_timestamp r)
                        /\ Spec.parses (Sales.order_delivered_customer_date r))
              Hp Hrows) as (df1 & Hrun1 & Hrows1 & Hc1).
  { intros r [Hpr Hdr].
    destruct (to_datetime_converted _ Hpr) as (c' & Hc' & Hconv).
    exists (Sales.order_purchase_timestamp r), c'.
    split; [reflexivity|]. split; [exact Hc'|]. simpl. auto. }
  rewrite Hrun1. cbn [bind].
  assert (Hd1 : has_column df1 "order_delivered_customer_date" = true)
    by (unfold has_column in *; rewrite Hc1; exact Hd).
  destruct (convert_column_establishes df1 "order_delivered_customer_date"
              (fun r => Spec.converted (Sales.order_purchase_timestamp r)
                        /\ Spec.parses (Sales.order_delivered_customer_date r))
              (fun r => Spec.converted (Sales.order_purchase_timestamp r))
              Hd1 Hrows1) as (df2 & Hrun2 & Hrows2 & Hc2).
  { intros r [Hpr Hdr].
    destruct (to_datetime_converted _ Hdr) as (c' & Hc' & Hconv).
    exists (Sales.order_delivered_customer_date r), c'.
    split; [reflexivity|]. split; [exact Hc'|]. simpl. exact Hpr. }
  rewrite Hrun2. cbn [bind].
  (* the time features *)
  unfold add_time_features.
  assert (Hp2 : has_column df2 "order_purchase_timestamp" = true)
    by (unfold has_column in *; rewrite Hc2, Hc1; exact Hp).
  rewrite Hp2.
  destruct (add_feature_total "order_purchase_timestamp" "_year"
              Timestamp.year df2 eq_refl Hrows2) as (df3 & Hrun3 & Hrows3 & _).
  rewrite Hrun3. cbn [bind].
  destruct (add_feature_total "order_purchase_timestamp" "_month"
              Timestamp.month df3 eq_refl Hrows3) as (df4 & Hrun4 & Hrows4 & _).
  rewrite Hrun4. cbn [bind].
  destruct (add_feature_total "order_purchase_timestamp" "_quarter"
              Timestamp.quarter df4 eq_refl Hrows4) as (df5 & Hrun5 & Hrows5 & _).
  rewrite Hrun5. cbn [bind].
  destruct (add_feature_total "order_purchase_timestamp" "_day"
              Timestamp.day df5 eq_refl Hrows5) as (df6 & Hrun6 & _).
  exists df6. exact Hrun6.
Qed.

(** C4, as the code has it.  When [order_id] is unique in the orders table,
    the sales table has exactly one row for each order item whose
    [order_id] occurs in the orders table; so it has at most as many rows as
    there are order items (it may well have more rows than there are
    orders), and an [order_id] is in it exactly when it is in both tables. *)
Theorem sales_fact_row_count
    (ds : datasets) (oi : DataFrame OrderItem.t) (o : DataFrame Order.t)
    (sales : DataFrame Sales.t) :
  order_items ds = Some oi ->
  orders ds = Some o ->
  NoDup (map Order.order_id (values o)) ->
  create_sales_dataset ds = Ok sales ->
  len sales
  = Z.of_nat
      (length
         (List.filter
            (fun i => bool_decide (OrderItem.order_id i
                                   ∈ map Order.order_id (values o)))
            (values oi)))
  /\ len sales <= len oi
  /\ (forall id,
        In id (map Sales.order_id (values sales)) <->
        In id (map OrderItem.order_id (values oi))
        /\ In id (map Order.order_id (values o))).
Proof.
  intros Hoi Ho Hnd Hrun.
  pose proof (create_sales_dataset_order_ids ds oi o sales Hoi Ho Hrun) as Hids.
  assert (Hlen : len sales
                 = Z.of_nat
                     (length
                        (List.filter
                           (fun i => bool_decide
                                       (OrderItem.order_id i
                                        ∈ map Order.order_id (values o)))
                           (values oi)))).
  { pose proof (f_equal (@length _) Hids) as Hl. rewrite !length_map in Hl.
    rewrite len_values, Hl, merge_inner_length_unique by exact Hnd.
    reflexivity. }
  split; [exact Hlen|]. split.
  - rewrite Hlen, len_values. apply inj_le, List.filter_length_le.
  - intros id. rewrite Hids, !in_map_iff. split.
    + intros (s & <- & Hs). apply merge_inner_elem in Hs
        as (i & ord & Hi & Hord & Hk & ->). simpl. split.
      * exists i; auto.
      * exists ord; auto.
    + intros [(i & <- & Hi) (ord & Hk & Hord)].
      exists (Sales.join i ord). split; [reflexivity|].
      apply merge_inner_elem. exists i, ord. auto.
Qed.

End SalesFact.

Lemma sales_fact_row_count_witness :
  exists sales,
    (EcommerceDataLoader.order_items two_items_one_order = Some two_items
     /\ EcommerceDataLoader.orders two_items_one_order = Some one_order
     /\ NoDup (map Order.order_id (Pandas.values one_order))
     /\ EcommerceDataLoader.create_sales_dataset two_items_one_order
        = Py.Ok sales)
    /\ Pandas.len sales
       = Z.of_nat
           (length
              (List.filter
                 (fun i => bool_decide
                             (OrderItem.order_id i
                              ∈ map Order.order_id (Pandas.values one_order)))
                 (Pandas.values two_items)))
    /\ Pandas.len sales <= Pandas.len two_items
    /\ (forall id,
          In id (map Sales.order_id (Pandas.values sales)) <->
          In id (map OrderItem.order_id (Pandas.values two_items))
          /\ In id (map Order.order_id (Pandas.values one_order))).
Proof.
  destruct (EcommerceDataLoader.create_sales_dataset two_items_one_order)
    as [sales|] eqn:Hrun; [|vm_compute in Hrun; discriminate].
  exists sales.
  assert (Hnd : NoDup (map Order.order_id (Pandas.values one_order))).
  { apply NoDup_cons; split; [apply not_elem_of_nil|apply NoDup_nil_2]. }
  split; [split; [reflexivity|split; [reflexivity|split;
    [exact Hnd|reflexivity]]]|].
  apply (sales_fact_row_count two_items_one_order two_items one_order sales
           eq_refl eq_refl Hnd Hrun).
Defined.

(** C4 as the claim has it is refuted: an order of two items gives a sales
    table of two rows, more than the one row of the orders table, so the row
    count is not bounded by the smaller of the two table sizes. *)
Lemma sales_fact_exceeds_orders :
  exists sales,
    EcommerceDataLoader.create_sales_dataset two_items_one_order = Py.Ok sales
    /\ NoDup (map Order.order_id (Pandas.values one_order))
    /\ Pandas.len sales = 2
    /\ Pandas.len two_items = 2
    /\ Pandas.len one_order = 1
    /\ ~ Pandas.len sales <= Z.min (Pandas.len two_items) (Pandas.len one_order).
Proof.
  eexists. split; [vm_compute; reflexivity|].
  split; [apply NoDup_cons; split; [apply not_elem_of_nil|apply NoDup_nil_2]|].
  repeat split; try reflexivity. vm_compute. intros H; apply H; reflexivity.
Qed.

(** ** Sums and groups *)

Section Sums.

Lemma sum_app l1 l2 : (Np.sum (l1 ++ l2) == Np.sum l1 + Np.sum l2)%Q.
Proof.
  induction l1 as [|x l1 IH]; simpl; [ring|]. rewrite IH. ring.
Qed.

Lemma sum_Permutation l1 l2 : Permutation l1 l2 -> (Np.sum l1 == Np.sum l2)%Q.
Proof.
  induction 1 as [|x l1 l2 _ IH|x y l|l1 l2 l3 _ IH1 _ IH2]; simpl.
  - reflexivity.
  - rewrite IH; reflexivity.
  - ring.
  - rewrite IH1; exact IH2.
Qed.

Lemma sum_map_ext {A} (f g : A -> Q) l :
  (forall x, In x l -> (f x == g x)%Q) ->
  (Np.sum (map f l) == Np.sum (map g l))%Q.
Proof.
  induction l as [|x l IH]; simpl; intros H; [reflexivity|].
  rewrite (H x) by (left; reflexivity). rewrite IH; [reflexivity|].
  intros y Hy; apply H; right; exact Hy.
Qed.

Lemma sum_map_zero {A} (f : A -> Q) l :
  (forall x, In x l -> (f x == 0)%Q) -> (Np.sum (map f l) == 0)%Q.
Proof.
  induction l as [|x l IH]; simpl; intros H; [reflexivity|].
  rewrite (H x) by (left; reflexivity). rewrite IH; [ring|].
  intros y Hy; apply H; right; exact Hy.
Qed.

End Sums.

Section GroupFacts.
Import Pandas.
Context {K R : Type} `{EqDecision K} `{Ord K}.

Lemma insert_key_Permutation (k : K) l : Permutation (insert_key k l) (k :: l).
Proof.
  induction l as [|x l IH]; simpl; [reflexivity|].
  destruct (leb k x); [reflexivity|].
  rewrite IH. apply perm_swap.
Qed.

Lemma sort_keys_Permutation (l : list K) : Permutation (sort_keys l) l.
Proof.
  induction l as [|x l IH]; simpl; [reflexivity|].
  rewrite insert_key_Permutation, IH. reflexivity.
Qed.

Lemma unique_sorted_NoDup (col : list (option K)) : NoDup (unique_sorted col).
Proof.
  unfold unique_sorted. rewrite sort_keys_Permutation. apply NoDup_remove_dups.
Qed.

Lemma unique_sorted_elem (col : list (option K)) k :
  k ∈ unique_sorted col <-> Some k ∈ col.
Proof.
  unfold unique_sorted. rewrite sort_keys_Permutation, elem_of_remove_dups.
  rewrite list_elem_of_omap. split.
  - intros (o & Ho & Hk). simpl in Hk. subst o. exact Ho.
  - intros Hk. exists (Some k). split; [exact Hk|reflexivity].
Qed.

Lemma unique_sorted_length (col : list (option K)) :
  Z.of_nat (length (unique_sorted col)) = nunique col.
Proof.
  unfold unique_sorted, nunique. rewrite sort_keys_Permutation. reflexivity.
Qed.

Lemma groupby_keys (key : R -> option K) l :
  map fst (groupby key l) = unique_sorted (map key l).
Proof.
  unfold groupby. rewrite map_map. simpl. apply map_id.
Qed.

Lemma groupby_elem (key : R -> option K) l k g :
  In (k, g) (groupby key l) ->
  g = group_of key k l /\ Some k ∈ map key l.
Proof.
  unfold groupby. rewrite in_map_iff. intros (k' & Heq & Hin).
  inversion Heq; subst. split; [reflexivity|].
  apply unique_sorted_elem. apply list_elem_of_In. exact Hin.
Qed.

(** The groups of a list of distinct keys split the rows that have one of
    these keys: summing group by group is summing over those rows. *)
Lemma sum_groups (key : R -> option K) (f : R -> Q) (ks : list K) l :
  NoDup ks ->
  (Np.sum (map (fun k => Np.sum (map f (group_of key k l))) ks)
   == Np.sum (map f (List.filter
                       (fun r => match key r with
                                 | Some k => bool_decide (k ∈ ks)
                                 | None => false
                                 end) l)))%Q.
Proof.
  intros Hnd. induction l as [|x l IH].
  - simpl. apply sum_map_zero. reflexivity.
  - assert (Hstep :
      (Np.sum (map (fun k => Np.sum (map f (group_of key k (x :: l)))) ks)
       == Np.sum (map (fun k => if bool_decide (key x = Some k)
                                then f x else 0) ks)
          + Np.sum (map (fun k => Np.sum (map f (group_of key k l))) ks))%Q).
    { clear IH Hnd. induction ks as [|k ks IHk]; simpl; [ring|].
      rewrite IHk. destruct (bool_decide (key x = Some k)); simpl; ring. }
    rewrite Hstep, IH. clear Hstep IH. simpl.
    assert (Hone :
      (Np.sum (map (fun k => if bool_decide (key x = Some k)
                             then f x else 0) ks)
       == match key x with
          | Some k => if bool_decide (k ∈ ks) then f x else 0
          | None => 0
          end)%Q).
    { destruct (key x) as [k0|].
      - induction Hnd as [|k ks Hk Hnd IHk]; simpl; [reflexivity|].
        rewrite IHk. destruct (decide (k0 = k)) as [->|Hne].
        + rewrite bool_decide_eq_true_2 by reflexivity.
          rewrite (bool_decide_eq_true_2 (k ∈ k :: ks)) by left.
          rewrite (bool_decide_eq_false_2 (k ∈ ks)) by exact Hk. ring.
        + rewrite bool_decide_eq_false_2 by congruence.
          destruct (bool_decide (k0 ∈ ks)) eqn:Hin.
          * apply bool_decide_eq_true in Hin.
            rewrite bool_decide_eq_true_2 by (right; exact Hin). ring.
          * apply bool_decide_eq_false in Hin.
            rewrite bool_decide_eq_false_2; [ring|].
            rewrite elem_of_cons. tauto.
      - apply sum_map_zero. intros k _.
        rewrite bool_decide_eq_false_2 by discriminate. reflexivity. }
    rewrite Hone. destruct (key x) as [k0|]; [|ring].
    destruct (bool_decide (k0 ∈ ks)); simpl; ring.
Qed.

End GroupFacts.

(** ** Results on business_metrics.py: revenue metrics *)

Section Revenue.
Import Py Pandas EcommerceMetrics.

Lemma append_inj (p a b : string) : (p ++ a = p ++ b)%string -> a = b.
Proof.
  induction p as [|c p IH]; simpl; intros H; [exact H|].
  inversion H; auto.
Qed.

Lemma suffix_ne (p a b : string) : a <> b -> (p ++ a)%string <> (p ++ b)%string.
Proof. intros Hne Heq. apply Hne. eapply append_inj; exact Heq. Qed.

Lemma order_keys_Permutation (l : list Sales.t) :
  Permutation (unique_sorted (map order_key l)) (elements (Spec.order_ids l)).
Proof.
  apply NoDup_Permutation.
  - apply unique_sorted_NoDup.
  - apply NoDup_elements.
  - intros k. rewrite unique_sorted_elem, elem_of_elements.
    unfold Spec.order_ids. rewrite elem_of_list_to_set.
    rewrite !list_elem_of_In, !in_map_iff. unfold order_key. split.
    + intros (r & Hk & Hr). inversion Hk. eauto.
    + intros (r & Hk & Hr). exists r. subst k. auto.
Qed.

Lemma order_count_distinct (l : list Sales.t) :
  nunique (map order_key l) = Z.of_nat (size (Spec.order_ids l)).
Proof.
  rewrite <- unique_sorted_length. f_equal.
  rewrite (Permutation_length (order_keys_Permutation l)). reflexivity.
Qed.

Lemma order_group_total (l : list Sales.t) (o : string) :
  Np.sum (map Sales.price (group_of order_key o l)) = Spec.order_total l o.
Proof.
  unfold Spec.order_total, group_of, order_key. f_equal. f_equal.
  apply List.filter_ext. intros r.
  destruct (decide (Sales.order_id r = o)) as [->|Hne].
  - rewrite !bool_decide_eq_true_2; reflexivity.
  - rewrite !bool_decide_eq_false_2; congruence.
Qed.

Lemma order_totals_column (l : list Sales.t) :
  map snd (order_totals l)
  = map (Spec.order_total l) (unique_sorted (map order_key l)).
Proof.
  unfold order_totals, agg, groupby. rewrite !map_map. simpl.
  apply map_ext. intros k. apply order_group_total.
Qed.

(** The order totals add up to the total revenue. *)
Lemma order_totals_sum (l : list Sales.t) :
  (Np.sum (map snd (order_totals l)) == Np.sum (map Sales.price l))%Q.
Proof.
  unfold order_totals, agg, groupby. rewrite !map_map. simpl.
  rewrite (sum_groups order_key Sales.price) by apply unique_sorted_NoDup.
  assert (Hall : List.filter
            (fun r => match order_key r with
                      | Some k => bool_decide
                                    (k ∈ unique_sorted (map order_key l))
                      | None => false
                      end) l = l).
  { assert (Hin : forall r, In r l ->
              bool_decide (Sales.order_id r ∈ unique_sorted (map order_key l))
              = true).
    { intros r Hr. apply bool_decide_eq_true, unique_sorted_elem.
      apply list_elem_of_In. exact (in_map order_key l r Hr). }
    revert Hin. generalize (unique_sorted (map order_key l)). intros ks.
    induction l as [|x l IH]; simpl; intros Hin; [reflexivity|].
    rewrite Hin by (left; reflexivity). f_equal. apply IH.
    intros r Hr; apply Hin; right; exact Hr. }
  rewrite Hall. reflexivity.
Qed.

Lemma order_totals_length (l : list Sales.t) :
  length (map snd (order_totals l)) = size (Spec.order_ids l).
Proof.
  rewrite order_totals_column, length_map.
  apply (Permutation_length (order_keys_Permutation l)).
Qed.

Lemma order_ids_nonempty (l : list Sales.t) :
  l <> [] -> (0 < size (Spec.order_ids l))%nat.
Proof.
  destruct l as [|r l]; [congruence|]. intros _.
  destruct (size (Spec.order_ids (r :: l))) eqn:Hsz; [|lia].
  apply size_empty_inv in Hsz. exfalso.
  assert (Hin : Sales.order_id r ∈ Spec.order_ids (r :: l)).
  { unfold Spec.order_ids. apply elem_of_list_to_set. left. }
  rewrite Hsz in Hin. revert Hin. apply not_elem_of_empty.
Qed.

(** The average order value of a table with at least one row. *)
Lemma order_value_mean_spec (df : DataFrame Sales.t) :
  has_column df "order_id" = true ->
  has_column df "price" = true ->
  rows df <> [] ->
  exists aov,
    order_value_mean df = Ok (Np.Finite aov)
    /\ (aov == Spec.mean_order_total (values df))%Q
    /\ (aov == Np.sum (map Sales.price (values df))
               / inject_Z (Z.of_nat (size (Spec.order_ids (values df)))))%Q.
Proof.
  intros Ho Hp Hne. unfold order_value_mean. rewrite Ho, Hp; simpl.
  assert (Hv : values df <> []).
  { unfold values. destruct (rows df); [congruence|discriminate]. }
  pose proof (order_ids_nonempty _ Hv) as Hpos.
  pose proof (order_totals_length (values df)) as Hlen.
  unfold Np.mean.
  destruct (map snd (order_totals (values df))) as [|q qs] eqn:Hq.
  { simpl in Hlen. lia. }
  rewrite <- Hq.
  exists (Np.sum (map snd (order_totals (values df)))
          / inject_Z
              (Z.of_nat (length (map snd (order_totals (values df))))))%Q.
  split; [reflexivity|]. rewrite order_totals_length. split.
  - unfold Spec.mean_order_total. apply Qdiv_comp; [|reflexivity].
    rewrite order_totals_column. apply sum_Permutation.
    apply Permutation_map. apply order_keys_Permutation.
  - apply Qdiv_comp; [|reflexivity]. apply order_totals_sum.
Qed.

(** C1.  For a table with at least one row, [calculate_revenue_metrics]
    returns under the period's label: as total revenue the sum of the price
    column; as average order value the mean, over the distinct orders, of
    the summed price of each order (which is the total revenue divided by
    the number of orders); as total orders the number of distinct
    [order_id] values; as total items the number of rows. *)
Theorem calculate_revenue_metrics_spec
    (t : DataFrame Sales.t) (current_period comparison_period : string) :
  rows t <> [] ->
  has_column t "price" = true ->
  has_column t "order_id" = true ->
  exists m aov,
    calculate_revenue_metrics t None current_period comparison_period = Ok m
    /\ m !! (current_period ++ "_total_revenue")%string
       = Some (PyFloat (Np.Finite (Np.sum (map Sales.price (values t)))))
    /\ m !! (current_period ++ "_avg_order_value")%string
       = Some (PyFloat (Np.Finite aov))
    /\ (aov == Spec.mean_order_total (values t))%Q
    /\ (aov == Np.sum (map Sales.price (values t))
               / inject_Z (Z.of_nat (size (Spec.order_ids (values t)))))%Q
    /\ m !! (current_period ++ "_total_orders")%string
       = Some (PyInt (Z.of_nat (size (Spec.order_ids (values t)))))
    /\ m !! (current_period ++ "_total_items")%string
       = Some (PyInt (Z.of_nat (length (rows t)))).
Proof.
  intros Hne Hp Ho.
  destruct (order_value_mean_spec t Ho Hp Hne) as (aov & Haov & Hmean & Hdiv).
  unfold calculate_revenue_metrics, price_sum, order_count, getitem.
  rewrite Hp, Ho, Haov. cbn [bind]. rewrite order_count_distinct.
  eexists. exists aov. split; [reflexivity|].
  unfold update; cbn [fold_left fst snd].
  repeat split; try assumption.
  - rewrite !lookup_insert_ne by (apply suffix_ne; discriminate).
    apply lookup_insert_eq.
  - rewrite !lookup_insert_ne by (apply suffix_ne; discriminate).
    apply lookup_insert_eq.
  - rewrite !lookup_insert_ne by (apply suffix_ne; discriminate).
    apply lookup_insert_eq.
  - apply lookup_insert_eq.
Qed.

Lemma calculate_revenue_metrics_spec_witness :
  let t := Spec.table [Spec.line "o1" "P1" 100 2023 6] in
  (rows t <> [] /\ has_column t "price" = true
   /\ has_column t "order_id" = true)
  /\ exists m aov,
       calculate_revenue_metrics t None "2023" "2022" = Ok m
       /\ m !! ("2023" ++ "_total_revenue")%string
          = Some (PyFloat (Np.Finite (Np.sum (map Sales.price (values t)))))
       /\ m !! ("2023" ++ "_avg_order_value")%string
          = Some (PyFloat (Np.Finite aov))
       /\ (aov == Spec.mean_order_total (values t))%Q
       /\ (aov == Np.sum (map Sales.price (values t))
                  / inject_Z (Z.of_nat (size (Spec.order_ids (values t)))))%Q
       /\ m !! ("2023" ++ "_total_orders")%string
          = Some (PyInt (Z.of_nat (size (Spec.order_ids (values t)))))
       /\ m !! ("2023" ++ "_total_items")%string
          = Some (PyInt (Z.of_nat (length (rows t)))).
Proof.
  intros t.
  assert (H1 : rows t <> []) by discriminate.
  split; [split; [exact H1|split; reflexivity]|].
  apply (calculate_revenue_metrics_spec t "2023" "2022" H1 eq_refl eq_refl).
Defined.

Example revenue_of_one_order :
  let res :=
    let! sales := EcommerceDataLoader.create_sales_dataset scenario in
    calculate_revenue_metrics sales None "p" "q" in
  Spec.metric res "p_total_revenue" = Some (PyFloat (Np.Finite 100))
  /\ Spec.metric res "p_avg_order_value" = Some (PyFloat (Np.Finite 100))
  /\ Spec.metric res "p_total_orders" = Some (PyInt 1).
Proof. repeat split; vm_compute; reflexivity. Qed.

(** The average order value is not the mean price of a line item: an order
    of two items at 10 and 5 and an order of one item at 10 have an average
    order value of 25/2, while the mean item price is 25/3. *)
Example average_order_value_is_per_order :
  let t := Spec.table [Spec.line "o1" "P1" 10 2024 1;
                       Spec.line "o1" "P2" 5 2024 1;
                       Spec.line "o2" "P1" 10 2024 3] in
  order_value_mean t = Ok (Np.Finite (25 # 2))
  /\ (Spec.mean_item_price (values t) == 25 # 3)%Q.
Proof. split; vm_compute; reflexivity. Qed.


(** *** Growth rates *)

(** Between two finite floats with a non-zero denominator the growth rate
    is [(current - previous) / previous * 100]. *)
Lemma growth_rate_finite (a b : Q) :
  ~ (b == 0)%Q ->
  exists g,
    growth_rate (PyFloat (Np.Finite a)) (PyFloat (Np.Finite b))
    = Ok (PyFloat (Np.Finite g))
    /\ (g == (a - b) / b * 100)%Q.
Proof.
  intros Hb. unfold growth_rate, py_truediv, py_sub, py_mul; simpl.
  unfold Np.sgn. destruct (b ?= 0)%Q eqn:Hc.
  - apply Qeq_alt in Hc. contradiction.
  - eexists; split; [reflexivity|]. unfold Np.of_Z. simpl. reflexivity.
  - eexists; split; [reflexivity|]. unfold Np.of_Z. simpl. reflexivity.
Qed.

Lemma growth_rate_int (a b : Z) :
  b <> 0 ->
  growth_rate (PyInt a) (PyInt b)
  = Ok (PyFloat (Np.Finite (inject_Z (a - b) / inject_Z b * inject_Z 100))).
Proof.
  intros Hb. unfold growth_rate, py_truediv, py_sub, py_mul; simpl.
  destruct (Z.eqb_spec b 0); [contradiction|]. reflexivity.
Qed.

(** A zero denominator: between floats the result is an infinity or NaN and
    nothing is raised; between ints ZeroDivisionError is raised. *)
Lemma growth_rate_zero_float (a b : Q) :
  (b == 0)%Q ->
  growth_rate (PyFloat (Np.Finite a)) (PyFloat (Np.Finite b))
  = Ok (PyFloat (match (a ?= 0)%Q with
                 | Gt => Np.PosInf
                 | Lt => Np.NegInf
                 | Eq => Np.NaN
                 end)).
Proof.
  intros Hb. unfold growth_rate, py_truediv, py_sub, py_mul; simpl.
  unfold Np.sgn. rewrite (proj1 (Qeq_alt b 0) Hb).
  assert (Hab : ((a - b) ?= 0)%Q = (a ?= 0)%Q).
  { apply Qcompare_comp; [rewrite Hb; ring|reflexivity]. }
  rewrite Hab. destruct (a ?= 0)%Q; reflexivity.
Qed.

Lemma growth_rate_zero_int (a : Z) :
  growth_rate (PyInt a) (PyInt 0) = Raise ZeroDivisionError.
Proof. reflexivity. Qed.

(** With an empty comparison table the call raises ZeroDivisionError, from
    the division of the two order counts. *)
Lemma calculate_revenue_metrics_no_orders cur prev cp pp :
  has_column cur "price" = true -> has_column cur "order_id" = true ->
  has_column prev "price" = true -> has_column prev "order_id" = true ->
  rows prev = [] ->
  calculate_revenue_metrics cur (Some prev) cp pp = Raise ZeroDivisionError.
Proof.
  intros Hp Ho Hpp Hpo Hempty.
  unfold calculate_revenue_metrics, price_sum, order_count, order_value_mean,
    getitem.
  rewrite Hp, Ho, Hpp, Hpo. cbn [bind andb].
  unfold values. rewrite Hempty. cbn [map].
  unfold update; cbn [fold_left fst snd]. unfold lookup_key.
  rewrite !lookup_insert_ne by (apply suffix_ne; discriminate).
  rewrite lookup_insert_eq. cbn [bind].
  rewrite !lookup_insert_ne by (apply suffix_ne; discriminate).
  rewrite lookup_insert_eq. cbn [bind].
  rewrite !lookup_insert_ne by (apply suffix_ne; discriminate).
  rewrite lookup_insert_eq. cbn [bind].
  reflexivity.
Qed.

(** With at least one row in the comparison table the call returns, and its
    three growth entries are the growth rates of revenue, average order
    value and order count. *)
Lemma calculate_revenue_metrics_growth cur prev cp pp :
  has_column cur "price" = true -> has_column cur "order_id" = true ->
  has_column prev "price" = true -> has_column prev "order_id" = true ->
  rows prev <> [] ->
  exists m rg ag og,
    calculate_revenue_metrics cur (Some prev) cp pp = Ok m
    /\ growth_rate (PyFloat (Np.Finite (Np.sum (map Sales.price (values cur)))))
         (PyFloat (Np.Finite (Np.sum (map Sales.price (values prev))))) = Ok rg
    /\ m !! "revenue_growth_rate"%string = Some rg
    /\ growth_rate (PyFloat (Np.mean (map snd (order_totals (values cur)))))
         (PyFloat (Np.mean (map snd (order_totals (values prev))))) = Ok ag
    /\ m !! "aov_growth_rate"%string = Some ag
    /\ growth_rate (PyInt (Z.of_nat (size (Spec.order_ids (values cur)))))
         (PyInt (Z.of_nat (size (Spec.order_ids (values prev))))) = Ok og
    /\ m !! "order_growth_rate"%string = Some og.
Proof.
  intros Hp Ho Hpp Hpo Hne.
  assert (Hv : values prev <> []).
  { unfold values. destruct (rows prev); [congruence|discriminate]. }
  pose proof (order_ids_nonempty _ Hv) as Hpos.
  unfold calculate_revenue_metrics, price_sum, order_count, order_value_mean,
    getitem.
  rewrite Hp, Ho, Hpp, Hpo. cbn [bind andb]. rewrite !order_count_distinct.
  unfold update; cbn [fold_left fst snd]. unfold lookup_key.
  rewrite !lookup_insert_ne by (apply suffix_ne; discriminate).
  rewrite lookup_insert_eq. cbn [bind].
  set (rg := growth_rate _ _).
  assert (Hrg : exists v, rg = Ok v).
  { unfold rg, growth_rate, py_truediv; simpl. eexists; reflexivity. }
  destruct Hrg as [vrg Hrg]. rewrite Hrg. cbn [bind].
  rewrite !lookup_insert_ne by (apply suffix_ne; discriminate).
  rewrite lookup_insert_eq. cbn [bind].
  set (ag := growth_rate _ _).
  assert (Hag : exists v, ag = Ok v).
  { unfold ag, growth_rate, py_truediv; simpl. eexists; reflexivity. }
  destruct Hag as [vag Hag]. rewrite Hag. cbn [bind].
  rewrite !lookup_insert_ne by (apply suffix_ne; discriminate).
  rewrite lookup_insert_eq. cbn [bind].
  rewrite growth_rate_int by lia. cbn [bind].
  eexists. exists vrg, vag. eexists.
  split; [reflexivity|]. split; [reflexivity|]. split.
  { rewrite !lookup_insert_ne by discriminate. apply lookup_insert_eq. }
  split; [reflexivity|]. split.
  { rewrite !lookup_insert_ne by discriminate. apply lookup_insert_eq. }
  split; [reflexivity|]. apply lookup_insert_eq.
Qed.

(** The dashboard computes the same change for its trend arrows, and there
    a zero or missing denominator is checked for first: no indicator is
    shown and nothing is divided. *)
Lemma get_trend_indicator_zero current previous :
  Dashboard.is_zero previous = true ->
  Dashboard.get_trend_indicator current previous = Ok Dashboard.NoTrend.
Proof.
  intros Hz. unfold Dashboard.get_trend_indicator. rewrite Hz.
  rewrite !orb_true_r. reflexivity.
Qed.

(** C2, what the code does where the claim fails.  The current period has
    one order of price 10, the comparison period one order of price 0: the
    comparison revenue and average order value are 0.  The call raises
    nothing and signals nothing: it returns a dictionary whose
    [revenue_growth_rate] and [aov_growth_rate] are plus infinity. *)
Theorem zero_comparison_revenue_gives_infinity :
  let current := Spec.table [Spec.line "o1" "P1" 10 2024 1] in
  let previous := Spec.table [Spec.line "o2" "P1" 0 2023 1] in
  let res := calculate_revenue_metrics current (Some previous) "2024" "2023" in
  Spec.raised res = None
  /\ Spec.metric res "2023_total_revenue" = Some (PyFloat (Np.Finite 0))
  /\ Spec.metric res "2023_avg_order_value" = Some (PyFloat (Np.Finite 0))
  /\ Spec.metric res "2023_total_orders" = Some (PyInt 1)
  /\ Spec.metric res "revenue_growth_rate" = Some (PyFloat Np.PosInf)
  /\ Spec.metric res "aov_growth_rate" = Some (PyFloat Np.PosInf)
  /\ Spec.metric res "order_growth_rate" = Some (PyFloat (Np.Finite 0)).
Proof. repeat split; vm_compute; reflexivity. Qed.

(** When both periods have revenue, the three growth rates are
    [(current - previous) / previous * 100]. *)
Example growth_rates_of_two_periods :
  let current := Spec.table [Spec.line "o1" "P1" 30 2024 1;
                             Spec.line "o2" "P1" 30 2024 2] in
  let previous := Spec.table [Spec.line "o3" "P1" 40 2023 1] in
  let res := calculate_revenue_metrics current (Some previous) "2024" "2023" in
  Spec.is_float (Spec.metric res "revenue_growth_rate") (Np.Finite 50) = true
  /\ Spec.is_float (Spec.metric res "aov_growth_rate") (Np.Finite (-25)) = true
  /\ Spec.is_float (Spec.metric res "order_growth_rate") (Np.Finite 100) = true.
Proof. repeat split; vm_compute; reflexivity. Qed.

End Revenue.

(** ** Ordered keys *)

#[global] Instance Z_ord_laws : OrdLaws Z.
Proof.
  split; unfold Pandas.leb, Pandas.Z_ord; intros; lia.
Qed.

Section SortedKeys.
Import Pandas.
Context {K : Type} `{EqDecision K} `{OrdLaws K}.

#[local] Instance le_key_trans : Transitive le_key.
Proof. intros x y z; apply ord_trans. Qed.

#[local] Instance le_key_antisym : AntiSymm (=) le_key.
Proof. intros x y; apply ord_antisym. Qed.

Lemma insert_key_Sorted (k : K) l :
  Sorted le_key l -> Sorted le_key (insert_key k l).
Proof.
  induction l as [|x l IH]; simpl; intros Hs.
  - repeat constructor.
  - destruct (leb k x) eqn:Hkx.
    + constructor; [exact Hs|constructor; exact Hkx].
    + apply Sorted_inv in Hs as [Hs Hhd]. constructor; [apply IH; exact Hs|].
      assert (Hxk : le_key x k).
      { destruct (ord_total k x) as [Hc|Hc]; [congruence|exact Hc]. }
      destruct l as [|y l]; simpl; [constructor; exact Hxk|].
      destruct (leb k y); constructor; [exact Hxk|].
      inversion Hhd; assumption.
Qed.

Lemma sort_keys_Sorted (l : list K) : Sorted le_key (sort_keys l).
Proof.
  induction l as [|x l IH]; simpl; [constructor|].
  apply insert_key_Sorted, IH.
Qed.

(** The sorted list of distinct keys is determined by the keys present. *)
Lemma unique_sorted_ext (c1 c2 : list (option K)) :
  (forall k, Some k ∈ c1 <-> Some k ∈ c2) ->
  unique_sorted c1 = unique_sorted c2.
Proof.
  intros Hiff. apply (Sorted_unique le_key).
  - apply sort_keys_Sorted.
  - apply sort_keys_Sorted.
  - apply NoDup_Permutation; try apply unique_sorted_NoDup.
    intros k. rewrite !unique_sorted_elem. apply Hiff.
Qed.

Lemma unique_sorted_Sorted (c : list (option K)) :
  StronglySorted le_key (unique_sorted c).
Proof. apply Sorted_StronglySorted; [apply _|apply sort_keys_Sorted]. Qed.

End SortedKeys.

Section Columns.
Context {A B : Type}.

Lemma map_fst_combine (a : list A) (b : list B) :
  length a = length b -> map fst (combine a b) = a.
Proof.
  revert b; induction a as [|x a IH]; intros [|y b]; simpl; intros Hl;
    try discriminate; [reflexivity|]. f_equal. apply IH. lia.
Qed.

Lemma map_snd_combine (a : list A) (b : list B) :
  length a = length b -> map snd (combine a b) = b.
Proof.
  revert b; induction a as [|x a IH]; intros [|y b]; simpl; intros Hl;
    try discriminate; [reflexivity|]. f_equal. apply IH. lia.
Qed.

Lemma column_of_key {C} (f : A -> C) (k : A -> B) (g : B -> C) (l : list A) :
  map f l = map g (map k l) -> Forall (fun x => f x = g (k x)) l.
Proof.
  induction l as [|x l IH]; simpl; intros Hm; constructor.
  - inversion Hm; reflexivity.
  - apply IH. inversion Hm; reflexivity.
Qed.

End Columns.

(** ** Results on business_metrics.py: monthly trends *)

Section Trends.
Import Py Pandas EcommerceMetrics.

Lemma month_keys_elem l m :
  In m (month_keys l) <-> exists r, In r l /\ Sales.month r = Some m.
Proof.
  unfold month_keys. rewrite <- list_elem_of_In, unique_sorted_elem.
  rewrite list_elem_of_In, in_map_iff. split; intros (r & H1 & H2); eauto.
Qed.

Lemma month_rows_nonempty l m : In m (month_keys l) -> Spec.month_rows m l <> [].
Proof.
  intros Hm. apply month_keys_elem in Hm as (r & Hr & Hmr).
  intros Hnil. assert (Hin : In r (Spec.month_rows m l)).
  { apply List.filter_In. split; [exact Hr|]. apply bool_decide_eq_true; exact Hmr. }
  rewrite Hnil in Hin. destruct Hin.
Qed.

Lemma monthly_revenue_columns l :
  map fst (monthly_revenue l) = month_keys l
  /\ map snd (monthly_revenue l)
     = map (fun m => Np.sum (map Sales.price (Spec.month_rows m l)))
         (month_keys l).
Proof.
  unfold monthly_revenue, agg, groupby, month_keys. rewrite !map_map; simpl.
  split; [apply map_id|reflexivity].
Qed.

Lemma monthly_orders_columns l :
  map fst (monthly_orders l) = month_keys l
  /\ map snd (monthly_orders l)
     = map (fun m => Z.of_nat (size (Spec.order_ids (Spec.month_rows m l))))
         (month_keys l).
Proof.
  unfold monthly_orders, agg, groupby, month_keys. rewrite !map_map; simpl.
  split; [apply map_id|]. apply map_ext. intros m.
  apply order_count_distinct.
Qed.

Lemma per_order_keys l :
  map fst (per_order l) = unique_sorted (map month_order_key l).
Proof.
  unfold per_order, agg, groupby. rewrite !map_map; simpl. apply map_id.
Qed.

Lemma month_order_key_elem l m o :
  Some (m, o) ∈ map month_order_key l <->
  exists r, In r l /\ Sales.month r = Some m /\ Sales.order_id r = o.
Proof.
  rewrite list_elem_of_In, in_map_iff. unfold month_order_key. split.
  - intros (r & Hk & Hr).
    destruct (Sales.month r) as [m'|] eqn:Hm; [|discriminate].
    inversion Hk; subst. exists r; auto.
  - intros (r & Hr & Hm & Ho). exists r. rewrite Hm, Ho. auto.
Qed.

Lemma monthly_aov_unfold l :
  monthly_aov l
  = map (fun kg => (fst kg, Np.mean (map snd (snd kg))))
      (groupby (fun e : (Z * string) * Q => Some (fst (fst e))) (per_order l)).
Proof. reflexivity. Qed.

Lemma monthly_aov_keys l : map fst (monthly_aov l) = month_keys l.
Proof.
  rewrite monthly_aov_unfold, map_map; simpl.
  change (map (fun x : Z * list (Z * string * Q) => fst x)) with
    (map (@fst Z (list (Z * string * Q)))).
  rewrite groupby_keys.
  unfold month_keys. apply unique_sorted_ext. intros m.
  rewrite !list_elem_of_In, !in_map_iff. split.
  - intros (e & He & Hin). inversion He; subst.
    apply (in_map fst) in Hin.
    rewrite per_order_keys in Hin. destruct e as [[m o] q]; simpl in *.
    apply list_elem_of_In, unique_sorted_elem, month_order_key_elem in Hin
      as (r & Hr & Hm & _).
    exists r; auto.
  - intros (r & Hm & Hr).
    assert (Hin : In (m, Sales.order_id r) (map fst (per_order l))).
    { rewrite per_order_keys. apply list_elem_of_In, unique_sorted_elem.
      apply month_order_key_elem. exists r; auto. }
    apply in_map_iff in Hin as (e & He & Hin).
    exists e. rewrite He. split; [reflexivity|exact Hin].
Qed.

Lemma month_orders_Permutation l m :
  Permutation (month_orders l m)
    (elements (Spec.order_ids (Spec.month_rows m l))).
Proof.
  apply NoDup_Permutation.
  - unfold month_orders.
    pose proof (unique_sorted_NoDup (map month_order_key l)) as Hnd.
    induction Hnd as [|[m' o] ks Hk Hnd IH]; simpl; [constructor|].
    case_bool_decide as Hm; simpl in *; [|exact IH]. subst m'.
    constructor; [|exact IH]. intros Hin.
    apply list_elem_of_In, in_map_iff in Hin as ([m' o'] & Ho & Hin).
    simpl in Ho; subst o'. apply List.filter_In in Hin as [Hin Hm'].
    apply bool_decide_eq_true in Hm'; simpl in Hm'; subst m'.
    apply Hk, list_elem_of_In, Hin.
  - apply NoDup_elements.
  - intros o. rewrite elem_of_elements. unfold Spec.order_ids.
    rewrite elem_of_list_to_set, !list_elem_of_In. unfold month_orders.
    rewrite !in_map_iff. split.
    + intros ([m' o'] & Ho & Hin). simpl in Ho; subst o'.
      apply List.filter_In in Hin as [Hin Hm'].
      apply bool_decide_eq_true in Hm'; simpl in Hm'; subst m'.
      apply list_elem_of_In, unique_sorted_elem, month_order_key_elem in Hin
        as (r & Hr & Hm & Ho).
      exists r. split; [exact Ho|]. apply List.filter_In. split; [exact Hr|].
      apply bool_decide_eq_true; exact Hm.
    + intros (r & Ho & Hr). apply List.filter_In in Hr as [Hr Hm].
      apply bool_decide_eq_true in Hm.
      exists (m, o). split; [reflexivity|]. apply List.filter_In. split.
      * apply list_elem_of_In, unique_sorted_elem, month_order_key_elem.
        exists r; auto.
      * apply bool_decide_eq_true; reflexivity.
Qed.

Lemma month_order_total l m o :
  Np.sum (map Sales.price (group_of month_order_key (m, o) l))
  = Spec.order_total (Spec.month_rows m l) o.
Proof.
  unfold Spec.order_total, Spec.month_rows, group_of. f_equal. f_equal.
  rewrite filter_filter. apply List.filter_ext. intros r.
  unfold month_order_key.
  destruct (Sales.month r) as [m'|]; simpl;
    repeat case_bool_decide; simplify_eq; try reflexivity; congruence.
Qed.

(** The per-order totals of a month, as the second grouping sees them. *)
Lemma month_group_totals l m :
  map snd (group_of (fun e : (Z * string) * Q => Some (fst (fst e))) m
             (per_order l))
  = map (Spec.order_total (Spec.month_rows m l)) (month_orders l m).
Proof.
  unfold per_order, agg, groupby, group_of, month_orders.
  generalize (unique_sorted (map month_order_key l)). intros ks.
  induction ks as [|[m' o] ks IH]; simpl; [reflexivity|].
  destruct (decide (m' = m)) as [->|Hm].
  - rewrite !bool_decide_eq_true_2 by reflexivity. simpl.
    f_equal; [exact (month_order_total l m o)|exact IH].
  - rewrite !bool_decide_eq_false_2 by congruence. exact IH.
Qed.

Lemma month_aov_spec l m :
  Spec.month_rows m l <> [] ->
  exists a,
    Np.mean (map snd (group_of (fun e : (Z * string) * Q => Some (fst (fst e)))
                        m (per_order l)))
    = Np.Finite a
    /\ (a == Spec.mean_order_total (Spec.month_rows m l))%Q.
Proof.
  intros Hne. rewrite month_group_totals.
  pose proof (month_orders_Permutation l m) as Hperm.
  pose proof (order_ids_nonempty _ Hne) as Hpos.
  pose proof (Permutation_length Hperm) as Hlen.
  change (length (elements (Spec.order_ids (Spec.month_rows m l))))
    with (size (Spec.order_ids (Spec.month_rows m l))) in Hlen.
  unfold Np.mean.
  destruct (map _ (month_orders l m)) as [|q qs] eqn:Hq.
  { apply (f_equal (@length _)) in Hq. rewrite length_map in Hq.
    simpl in Hq. lia. }
  rewrite <- Hq. eexists. split; [reflexivity|].
  unfold Spec.mean_order_total. rewrite length_map, Hlen.
  apply Qdiv_comp; [|reflexivity].
  apply sum_Permutation, Permutation_map, Hperm.
Qed.

Lemma monthly_aov_columns l :
  map snd (monthly_aov l)
  = map (fun m =>
           Np.mean (map snd (group_of
                               (fun e : (Z * string) * Q => Some (fst (fst e)))
                               m (per_order l))))
      (month_keys l).
Proof.
  pose proof (monthly_aov_keys l) as Hk. revert Hk.
  rewrite monthly_aov_unfold. unfold groupby. rewrite !map_map; simpl.
  rewrite map_id. intros ->. reflexivity.
Qed.

Lemma growth_length col : length (growth col) = length col.
Proof.
  unfold growth, pct_change. rewrite length_map.
  generalize Np.NaN. induction col as [|x col IH]; intros p; simpl;
    [reflexivity|]. rewrite IH; reflexivity.
Qed.

(** A growth column starts with NaN. *)
Lemma growth_first x col : exists rest, growth (x :: col) = Np.NaN :: rest.
Proof.
  unfold growth, pct_change; simpl. eexists.
  destruct x; reflexivity.
Qed.

Lemma trend_rows_columns (ms : list Z) (rs : list Q) (os : list Z)
    (avs rg og ag : list Np.float64) :
  length rs = length ms -> length os = length ms ->
  length avs = length ms -> length rg = length ms ->
  length og = length ms -> length ag = length ms ->
  let t :=
    map (fun '(m, r, o, a, x, y, z) => mkTrend m r o a x y z)
      (combine (combine (combine (combine (combine (combine
         ms rs) os) avs) rg) og) ag) in
  map month t = ms /\ map revenue t = rs /\ map orders t = os
  /\ map avg_order_value t = avs /\ map revenue_growth t = rg
  /\ map order_growth t = og /\ map aov_growth t = ag.
Proof.
  revert rs os avs rg og ag.
  induction ms as [|m ms IH];
    intros [|r rs] [|o os] [|a avs] [|x rg] [|y og] [|z ag];
    simpl; intros H1 H2 H3 H4 H5 H6; try discriminate;
    [repeat split|].
  destruct (IH rs os avs rg og ag) as (E1 & E2 & E3 & E4 & E5 & E6 & E7);
    try lia.
  repeat split; f_equal; assumption.
Qed.

Lemma values_getitem_mask {R} (d : DataFrame R) p :
  values (getitem_mask d p) = List.filter p (values d).
Proof.
  unfold values, getitem_mask; simpl.
  induction (rows d) as [|[i r] l IH]; simpl; [reflexivity|].
  destruct (p r); simpl; rewrite IH; reflexivity.
Qed.

Lemma month_keys_distinct l :
  length (month_keys l) = size (Spec.months l).
Proof.
  unfold month_keys, Spec.months, size, set_size; simpl.
  apply Permutation_length, NoDup_Permutation.
  - apply unique_sorted_NoDup.
  - apply NoDup_elements.
  - intros m. rewrite unique_sorted_elem, elem_of_elements,
      elem_of_list_to_set, list_elem_of_omap, !list_elem_of_In, in_map_iff.
    split.
    + intros (r & Hm & Hr). exists r. rewrite list_elem_of_In. auto.
    + intros (r & Hr & Hm). rewrite list_elem_of_In in Hr. eauto.
Qed.

Lemma month_keys_sorted l : StronglySorted Z.le (month_keys l).
Proof.
  pose proof (unique_sorted_Sorted (K:=Z) (map Sales.month l)) as Hs.
  unfold month_keys. induction Hs as [|x ks Hs IH Hx]; constructor;
    [exact IH|].
  eapply Forall_impl; [exact Hx|]. intros y Hy. apply Z.leb_le. exact Hy.
Qed.

(** C5.  The monthly trends have exactly one row for each month that
    occurs in the (year-filtered) input, in ascending order of the month and
    with no row for a month that does not occur.  A row holds the sum of the
    month's prices, the number of distinct orders of the month, and the
    mean over these orders of each order's summed price.  The growth columns
    of the first row are NaN. *)
Theorem calculate_monthly_trends_spec
    (data : DataFrame Sales.t) (year : option Z) :
  has_column data "order_purchase_timestamp_month" = true ->
  has_column data "price" = true ->
  has_column data "order_id" = true ->
  (truthy year = true ->
   has_column data "order_purchase_timestamp_year" = true) ->
  exists trends,
    calculate_monthly_trends data year = Ok trends
    /\ let l := Spec.year_rows data year in
       let t := values trends in
       NoDup (map month t)
       /\ StronglySorted Z.le (map month t)
       /\ (forall m, In m (map month t) <->
                     exists r, In r l /\ Sales.month r = Some m)
       /\ length t = size (Spec.months l)
       /\ Forall
            (fun row =>
               let g := Spec.month_rows (month row) l in
               revenue row = Np.sum (map Sales.price g)
               /\ orders row = Z.of_nat (size (Spec.order_ids g))
               /\ exists a,
                    avg_order_value row = Np.Finite a
                    /\ (a == Spec.mean_order_total g)%Q) t
       /\ match t with
          | first :: _ =>
              revenue_growth first = Np.NaN
              /\ order_growth first = Np.NaN
              /\ aov_growth first = Np.NaN
          | [] => True
          end.
Proof.
  intros Hm Hp Ho Hy. unfold calculate_monthly_trends.
  set (data' := if truthy year
                then getitem_mask data (fun r => bool_decide (Sales.year r = year))
                else data).
  assert (Hdata : (if truthy year
                   then if has_column data "order_purchase_timestamp_year"
                        then Ok (getitem_mask data
                                   (fun r => bool_decide (Sales.year r = year)))
                        else Raise KeyError
                   else Ok data) = Ok data').
  { unfold data'. destruct (truthy year); [rewrite Hy|]; reflexivity. }
  rewrite Hdata; cbn [bind].
  assert (Hcols : columns data' = columns data).
  { unfold data'. destruct (truthy year); reflexivity. }
  unfold has_column in *. rewrite Hcols, Hm, Hp, Ho. cbn [andb].
  assert (Hl : values data' = Spec.year_rows data year).
  { unfold data', Spec.year_rows. destruct (truthy year);
      [apply values_getitem_mask|reflexivity]. }
  rewrite Hl. set (l := Spec.year_rows data year).
  destruct (monthly_revenue_columns l) as [Hrk Hrv].
  destruct (monthly_orders_columns l) as [Hok Hov].
  pose proof (monthly_aov_keys l) as Hak.
  pose proof (monthly_aov_columns l) as Hav.
  assert (Hlr : length (map snd (monthly_revenue l)) = length (month_keys l))
    by (rewrite <- Hrk, !length_map; reflexivity).
  assert (Hlo : length (map snd (monthly_orders l)) = length (month_keys l))
    by (rewrite <- Hok, !length_map; reflexivity).
  assert (Hla : length (map snd (monthly_aov l)) = length (month_keys l))
    by (rewrite <- Hak, !length_map; reflexivity).
  rewrite bool_decide_eq_true_2
    by (rewrite Hrk; split; [exact Hlo|exact Hla]).
  eexists. split; [reflexivity|]. cbn zeta.
  unfold values; cbn [rows]. rewrite map_snd_range_index.
  match goal with
  | |- context [map ?F (combine ?c ?ag)] =>
      set (t := map F (combine c ag))
  end.
  assert (Lk : length (map fst (monthly_revenue l)) = length (month_keys l))
    by (rewrite Hrk; reflexivity).
  assert (L1 : length (map snd (monthly_revenue l))
               = length (map fst (monthly_revenue l)))
    by (rewrite Hlr, Lk; reflexivity).
  assert (L2 : length (map snd (monthly_orders l))
               = length (map fst (monthly_revenue l)))
    by (rewrite Hlo, Lk; reflexivity).
  assert (L3 : length (map snd (monthly_aov l))
               = length (map fst (monthly_revenue l)))
    by (rewrite Hla, Lk; reflexivity).
  assert (G1 : length (growth (map (fun e : Z * Q => Np.Finite (snd e))
                                 (monthly_revenue l)))
               = length (map fst (monthly_revenue l)))
    by (rewrite growth_length, !length_map; reflexivity).
  assert (G2 : length (growth (map (fun e : Z * Z => Np.of_Z (snd e))
                                 (monthly_orders l)))
               = length (map fst (monthly_revenue l)))
    by (rewrite growth_length, length_map, <- (length_map snd); exact L2).
  assert (G3 : length (growth (map snd (monthly_aov l)))
               = length (map fst (monthly_revenue l)))
    by (rewrite growth_length; exact L3).
  destruct (trend_rows_columns _ _ _ _ _ _ _ L1 L2 L3 G1 G2 G3)
    as (E1 & E2 & E3 & E4 & E5 & E6 & E7).
  clear L1 L2 L3 G1 G2 G3 Lk.
  fold t in E1, E2, E3, E4, E5, E6, E7.
  rewrite Hrk in E1.
  split; [rewrite E1; apply unique_sorted_NoDup|].
  split; [rewrite E1; apply month_keys_sorted|].
  split; [intros m; rewrite E1; apply month_keys_elem|].
  split.
  { rewrite <- (length_map month t), E1. apply month_keys_distinct. }
  split.
  { assert (Hin : Forall (fun row => In (month row) (month_keys l)) t).
    { rewrite <- E1. apply Forall_forall. intros row Hrow.
      apply in_map. apply list_elem_of_In. exact Hrow. }
    rewrite Hrv, <- E1 in E2. rewrite Hov, <- E1 in E3. rewrite Hav, <- E1 in E4.
    apply column_of_key in E2. apply column_of_key in E3.
    apply column_of_key in E4.
    clear - E2 E3 E4 Hin.
    induction t as [|row t IH]; constructor.
    - inversion E2; inversion E3; inversion E4; inversion Hin; subst.
      repeat split; try assumption.
      match goal with H : avg_order_value row = _ |- _ => rewrite H end.
      apply month_aov_spec, month_rows_nonempty. assumption.
    - inversion E2; inversion E3; inversion E4; inversion Hin; subst.
      apply IH; assumption. }
  destruct t as [|first t'] eqn:Ht; [exact I|].
  simpl in E5, E6, E7.
  destruct (monthly_revenue l) as [|e1 mr]; [discriminate|].
  destruct (monthly_orders l) as [|e2 mo]; [discriminate|].
  destruct (monthly_aov l) as [|e3 ma]; [discriminate|].
  simpl in E5, E6, E7.
  destruct (growth_first (Np.Finite (snd e1))
              (map (fun e => Np.Finite (snd e)) mr)) as [r1 G1].
  destruct (growth_first (Np.of_Z (snd e2))
              (map (fun e => Np.of_Z (snd e)) mo)) as [r2 G2].
  destruct (growth_first (snd e3) (map snd ma)) as [r3 G3].
  rewrite G1 in E5. rewrite G2 in E6. rewrite G3 in E7.
  injection E5 as E5 _. injection E6 as E6 _. injection E7 as E7 _.
  split; [exact E5|split; [exact E6|exact E7]].
Qed.

Lemma calculate_monthly_trends_spec_witness :
  (has_column two_months "order_purchase_timestamp_month" = true
   /\ has_column two_months "price" = true
   /\ has_column two_months "order_id" = true
   /\ (truthy (Some 2024) = true ->
       has_column two_months "order_purchase_timestamp_year" = true))
  /\ exists trends,
       calculate_monthly_trends two_months (Some 2024) = Ok trends
       /\ let l := Spec.year_rows two_months (Some 2024) in
          let t := values trends in
          NoDup (map month t)
          /\ StronglySorted Z.le (map month t)
          /\ (forall m, In m (map month t) <->
                        exists r, In r l /\ Sales.month r = Some m)
          /\ length t = size (Spec.months l)
          /\ Forall
               (fun row =>
                  let g := Spec.month_rows (month row) l in
                  revenue row = Np.sum (map Sales.price g)
                  /\ orders row = Z.of_nat (size (Spec.order_ids g))
                  /\ exists a,
                       avg_order_value row = Np.Finite a
                       /\ (a == Spec.mean_order_total g)%Q) t
          /\ match t with
             | first :: _ =>
                 revenue_growth first = Np.NaN
                 /\ order_growth first = Np.NaN
                 /\ aov_growth first = Np.NaN
             | [] => True
             end.
Proof.
  split; [repeat split; reflexivity|].
  apply (calculate_monthly_trends_spec two_months (Some 2024));
    reflexivity.
Defined.

(** In 2024 the table has sales in January and March: the trends have these
    two rows and none for February. *)
Example monthly_trends_of_two_months :
  match calculate_monthly_trends two_months (Some 2024) with
  | Ok trends =>
      map (fun row => (month row, revenue row, orders row, revenue_growth row))
        (values trends)
  | Raise _ => []
  end
  = [(1, 15%Q, 1, Np.NaN); (3, 10%Q, 1, Np.Finite (-500 # 15))].
Proof. vm_compute. reflexivity. Qed.

End Trends.

(** ** Sorting *)

Section Sorting.
Import Pandas.
Context {A : Type} (key : A -> Q).

Lemma insert_by_Permutation x l : Permutation (insert_by key x l) (x :: l).
Proof.
  induction l as [|y l IH]; simpl; [reflexivity|].
  destruct (Qle_bool (key y) (key x)); [|reflexivity].
  rewrite IH. apply perm_swap.
Qed.

Lemma insert_by_ascending x l :
  ascending key l -> ascending key (insert_by key x l).
Proof.
  unfold ascending. induction l as [|y l IH]; simpl; intros Hs.
  - repeat constructor.
  - apply StronglySorted_inv in Hs as [Hs Hy].
    destruct (Qle_bool (key y) (key x)) eqn:Hle.
    + apply Qle_bool_iff in Hle. constructor; [apply IH; exact Hs|].
      rewrite insert_by_Permutation. constructor; [exact Hle|exact Hy].
    + assert (Hlt : (key x < key y)%Q).
      { apply Qnot_le_lt. intros Hc. apply Qle_bool_iff in Hc. congruence. }
      constructor; [constructor; assumption|].
      constructor; [apply Qlt_le_weak; exact Hlt|].
      eapply Forall_impl; [exact Hy|]. intros z Hz. simpl in Hz.
      apply Qlt_le_weak. eapply Qlt_le_trans; eassumption.
Qed.

Lemma stable_sort_acc l : forall acc,
  ascending key acc ->
  Permutation (fold_left (fun a x => insert_by key x a) l acc) (acc ++ l)
  /\ ascending key (fold_left (fun a x => insert_by key x a) l acc).
Proof.
  induction l as [|x l IH]; simpl; intros acc Hacc.
  - rewrite app_nil_r. split; [reflexivity|exact Hacc].
  - destruct (IH (insert_by key x acc) (insert_by_ascending x acc Hacc))
      as [Hp Hs].
    split; [|exact Hs]. rewrite Hp, insert_by_Permutation.
    simpl. apply Permutation_middle.
Qed.

Lemma ties_insert_by q x l :
  ascending key l ->
  Spec.ties key q (insert_by key x l)
  = Spec.ties key q l ++ (if Qeq_bool (key x) q then [x] else []).
Proof.
  unfold ascending, Spec.ties. induction l as [|y l IH]; simpl; intros Hs.
  - destruct (Qeq_bool (key x) q); reflexivity.
  - apply StronglySorted_inv in Hs as [Hs Hy].
    destruct (Qle_bool (key y) (key x)) eqn:Hle; simpl.
    + rewrite IH by exact Hs. destruct (Qeq_bool (key y) q); reflexivity.
    + assert (Hlt : (key x < key y)%Q).
      { apply Qnot_le_lt. intros Hc. apply Qle_bool_iff in Hc. congruence. }
      destruct (Qeq_bool (key x) q) eqn:Hx; [|rewrite app_nil_r; reflexivity].
      apply Qeq_bool_iff in Hx.
      assert (Hnone : forall z, In z (y :: l) -> Qeq_bool (key z) q = false).
      { intros z Hz. destruct (Qeq_bool (key z) q) eqn:Hzq; [|reflexivity].
        apply Qeq_bool_iff in Hzq. exfalso.
        assert (Hyz : (key y <= key z)%Q).
        { destruct Hz as [->|Hz]; [apply Qle_refl|].
          rewrite Forall_forall in Hy. apply Hy, list_elem_of_In, Hz. }
        rewrite Hzq, <- Hx in Hyz. apply (Qlt_not_le _ _ Hlt Hyz). }
      assert (Hnil : List.filter (fun z => Qeq_bool (key z) q) (y :: l) = []).
      { clear - Hnone. induction (y :: l) as [|z l' IHl]; simpl; [reflexivity|].
        rewrite Hnone by (left; reflexivity). apply IHl.
        intros w Hw; apply Hnone; right; exact Hw. }
      simpl in Hnil. rewrite Hnil. reflexivity.
Qed.

Lemma ties_stable_sort_acc q l : forall acc,
  ascending key acc ->
  Spec.ties key q (fold_left (fun a x => insert_by key x a) l acc)
  = Spec.ties key q acc ++ Spec.ties key q l.
Proof.
  induction l as [|x l IH]; simpl; intros acc Hacc.
  - rewrite app_nil_r; reflexivity.
  - rewrite IH by (apply insert_by_ascending; exact Hacc).
    rewrite ties_insert_by by exact Hacc. rewrite <- app_assoc.
    destruct (Qeq_bool (key x) q); reflexivity.
Qed.

Lemma ties_rev q l : Spec.ties key q (rev l) = rev (Spec.ties key q l).
Proof.
  unfold Spec.ties. induction l as [|x l IH]; simpl; [reflexivity|].
  rewrite List.filter_app, IH; simpl.
  destruct (Qeq_bool (key x) q); simpl; [reflexivity|apply app_nil_r].
Qed.

Lemma descending_rev l : ascending key l -> Spec.descending key (rev l).
Proof.
  unfold ascending, Spec.descending. induction 1 as [|x l Hs IH Hx]; simpl.
  - constructor.
  - apply StronglySorted_app_2; [|exact IH|repeat constructor].
    intros y z Hy Hz. apply list_elem_of_In in Hz. destruct Hz as [<-|[]].
    rewrite Forall_forall in Hx. apply Hx.
    apply list_elem_of_In, in_rev, list_elem_of_In. exact Hy.
Qed.

Lemma firstn_In n (l : list A) x : In x (firstn n l) -> In x l.
Proof.
  revert n. induction l as [|y l IH]; intros [|n]; simpl; try tauto.
  intros [->|Hin]; [left; reflexivity|right; eapply IH; exact Hin].
Qed.

Lemma descending_firstn n l :
  Spec.descending key l -> Spec.descending key (firstn n l).
Proof.
  unfold Spec.descending. revert n. induction l as [|x l IH]; intros [|n] Hs;
    simpl; try constructor.
  - apply IH. apply StronglySorted_inv in Hs as [Hs _]; exact Hs.
  - apply StronglySorted_inv in Hs as [_ Hx].
    rewrite Forall_forall in *. intros y Hy. apply Hx.
    apply list_elem_of_In. apply list_elem_of_In in Hy.
    eapply firstn_In; exact Hy.
Qed.

Lemma descending_head n l :
  Spec.descending key l -> Spec.descending key (head n l).
Proof. unfold head. destruct (0 <=? n); apply descending_firstn. Qed.

Lemma head_length n (l : list A) : length (head n l) = Spec.kept n (length l).
Proof.
  unfold head, Spec.kept. destruct (0 <=? n); rewrite length_firstn; lia.
Qed.

Lemma head_In n (l : list A) x : In x (head n l) -> In x l.
Proof.
  unfold head. destruct (0 <=? n); intros Hin; eapply firstn_In; exact Hin.
Qed.

End Sorting.

#[global] Instance stable_sorter_laws : SorterLaws Pandas.stable_sorter.
Proof.
  split; intros A key l; simpl; unfold Pandas.stable_sort;
    destruct (stable_sort_acc key l [] (SSorted_nil _)) as [Hp Hs].
  - exact Hp.
  - exact Hs.
Qed.

#[global] Instance reversing_sorter_laws : SorterLaws Pandas.reversing_sorter.
Proof.
  split; intros A key l; simpl; unfold Pandas.stable_sort;
    destruct (stable_sort_acc key (rev l) [] (SSorted_nil _)) as [Hp Hs].
  - rewrite Hp. simpl. symmetry. apply Permutation_rev.
  - exact Hs.
Qed.

Lemma stable_sorter_stable : Spec.stable Pandas.stable_sorter.
Proof.
  intros A key l q. simpl. unfold Pandas.stable_sort.
  rewrite ties_stable_sort_acc by constructor. reflexivity.
Qed.

Section SortValues.
Import Pandas.
Context {S : Sorter} {LS : SorterLaws S} {A : Type} (key : A -> Q).

Lemma sort_values_desc_Permutation l :
  Permutation (sort_values_desc key l) l.
Proof.
  unfold sort_values_desc.
  rewrite <- Permutation_rev, sort_asc_Permutation, <- Permutation_rev.
  reflexivity.
Qed.

Lemma sort_values_desc_descending l :
  Spec.descending key (sort_values_desc key l).
Proof. apply descending_rev, sort_asc_sorted. Qed.

(** With a stable sort, rows of equal key keep their original order. *)
Lemma sort_values_desc_ties l q :
  Spec.stable S ->
  Spec.ties key q (sort_values_desc key l) = Spec.ties key q l.
Proof.
  intros Hst. unfold sort_values_desc.
  rewrite ties_rev, Hst, ties_rev, rev_involutive. reflexivity.
Qed.

End SortValues.

(** The default sort kind does not promise stability: a sort that meets the
    contract can return tied rows in the reverse of their original order. *)
Example sort_values_desc_ties_not_fixed :
  Pandas.sort_values_desc (H := Pandas.reversing_sorter) fst
    [(3%Q, "a"%string); (1%Q, "b"%string); (3%Q, "c"%string)]
  = [(3%Q, "c"%string); (3%Q, "a"%string); (1%Q, "b"%string)]
  /\ Pandas.sort_values_desc (H := Pandas.stable_sorter) fst
       [(3%Q, "a"%string); (1%Q, "b"%string); (3%Q, "c"%string)]
     = [(3%Q, "a"%string); (3%Q, "c"%string); (1%Q, "b"%string)].
Proof. split; reflexivity. Qed.

(** ** Results on business_metrics.py: product performance *)

Section Products.
Import Py Pandas EcommerceMetrics.

Lemma merge_products_keeps sales products s :
  In s sales ->
  exists r, In r (merge_products sales products)
            /\ sp_product_id r = Sales.product_id s
            /\ sp_price r = Sales.price s
            /\ sp_order_id r = Sales.order_id s.
Proof.
  intros Hs. unfold merge_products, merge_left.
  destruct (matches Sales.product_id Product.product_id s products)
    as [|p ps] eqn:Hm.
  - exists (sales_product s None). split; [|repeat split].
    apply in_flat_map. exists s. split; [exact Hs|]. rewrite Hm. left; reflexivity.
  - exists (sales_product s (Some p)). split; [|repeat split].
    apply in_flat_map. exists s. split; [exact Hs|]. rewrite Hm. left; reflexivity.
Qed.

Lemma merge_products_unmatched sales products s :
  In s sales ->
  (forall p, In p products -> Product.product_id p <> Sales.product_id s) ->
  In (sales_product s None) (merge_products sales products).
Proof.
  intros Hs Hno. unfold merge_products, merge_left.
  apply in_flat_map. exists s. split; [exact Hs|].
  destruct (matches Sales.product_id Product.product_id s products)
    as [|p ps] eqn:Hm; [left; reflexivity|].
  exfalso. assert (Hp : In p (matches Sales.product_id Product.product_id s products))
    by (rewrite Hm; left; reflexivity).
  apply List.filter_In in Hp as [Hp Heq]. apply bool_decide_eq_true in Heq.
  apply (Hno p Hp). symmetry; exact Heq.
Qed.

Lemma merge_products_ids sales products r :
  In r (merge_products sales products) ->
  exists s, In s sales /\ Sales.product_id s = sp_product_id r.
Proof.
  unfold merge_products, merge_left. rewrite in_flat_map.
  intros (s & Hs & Hr). exists s. split; [exact Hs|].
  destruct (matches _ _ s products) as [|p ps].
  - destruct Hr as [<-|[]]. reflexivity.
  - apply in_map_iff in Hr as (p' & <- & _). reflexivity.
Qed.

Lemma category_groups_elem sp kg :
  In kg (category_groups sp) <->
  exists c, (exists r, In r sp /\ sp_product_category_name r = Some c)
            /\ kg = (Some c, Spec.category_rows c sp).
Proof.
  unfold category_groups, groupby. rewrite map_map, in_map_iff; simpl. split.
  - intros (c & <- & Hc). exists c. split; [|reflexivity].
    apply list_elem_of_In, unique_sorted_elem, list_elem_of_In, in_map_iff in Hc
      as (r & Hr & Hin). eauto.
  - intros (c & (r & Hr & Hc) & ->). exists c. split; [reflexivity|].
    apply list_elem_of_In, unique_sorted_elem, list_elem_of_In, in_map_iff.
    eauto.
Qed.

Lemma product_groups_elem sp kg :
  In kg (product_groups sp) <->
  exists p, (exists r, In r sp /\ sp_product_id r = p)
            /\ kg = (p, Spec.product_rows p sp).
Proof.
  unfold product_groups, groupby. rewrite in_map_iff. split.
  - intros (p & <- & Hp). exists p.
    apply list_elem_of_In, unique_sorted_elem, list_elem_of_In, in_map_iff in Hp
      as (r & Hr & Hin). inversion Hr; subst. split; [eauto|].
    unfold Spec.product_rows, group_of. f_equal. apply List.filter_ext.
    intros r'. repeat case_bool_decide; simplify_eq; try reflexivity; congruence.
  - intros (p & (r & Hr & Hp) & ->). exists p. split.
    + unfold Spec.product_rows, group_of. f_equal. apply List.filter_ext.
      intros r'. repeat case_bool_decide; simplify_eq; try reflexivity; congruence.
    + apply list_elem_of_In, unique_sorted_elem, list_elem_of_In, in_map_iff.
      exists r. split; [congruence|exact Hr].
Qed.

Lemma category_groups_length sp :
  length (category_groups sp) = size (Spec.categories sp).
Proof.
  unfold category_groups, groupby. rewrite !length_map.
  unfold Spec.categories, size, set_size; simpl.
  apply Permutation_length, NoDup_Permutation.
  - apply unique_sorted_NoDup.
  - apply NoDup_elements.
  - intros c. rewrite unique_sorted_elem, elem_of_elements,
      elem_of_list_to_set, list_elem_of_omap, !list_elem_of_In, in_map_iff.
    split.
    + intros (r & Hc & Hr). exists r. rewrite list_elem_of_In. auto.
    + intros (r & Hr & Hc). rewrite list_elem_of_In in Hr. eauto.
Qed.

Lemma product_groups_length sp :
  length (product_groups sp) = size (Spec.product_ids sp).
Proof.
  unfold product_groups, groupby. rewrite !length_map.
  unfold Spec.product_ids, size, set_size; simpl.
  apply Permutation_length, NoDup_Permutation.
  - apply unique_sorted_NoDup.
  - apply NoDup_elements.
  - intros c. rewrite unique_sorted_elem, elem_of_elements,
      elem_of_list_to_set, !list_elem_of_In, !in_map_iff.
    split.
    + intros (r & Hc & Hr). inversion Hc. eauto.
    + intros (r & Hc & Hr). exists r. split; [congruence|exact Hr].
Qed.

Lemma values_range_index {A} cols (l : list A) :
  values (mkDataFrame cols (range_index l)) = l.
Proof. apply map_snd_range_index. Qed.

Lemma in_sort_values_desc {S : Sorter} {LS : SorterLaws S} {A}
    (key : A -> Q) (l : list A) x :
  In x (sort_values_desc key l) <-> In x l.
Proof.
  rewrite <- !list_elem_of_In.
  rewrite (sort_values_desc_Permutation key l). reflexivity.
Qed.

Lemma nunique_distinct (l : list string) :
  nunique (map Some l) = Z.of_nat (size (list_to_set l : gset string)).
Proof.
  unfold nunique. f_equal.
  replace (omap id (map Some l)) with l.
  - unfold size, set_size; simpl.
    apply Permutation_length, NoDup_Permutation.
    + apply NoDup_remove_dups.
    + apply NoDup_elements.
    + intros x. rewrite elem_of_remove_dups, elem_of_elements,
        elem_of_list_to_set. reflexivity.
  - induction l as [|x l IH]; [reflexivity|].
    cbn [map omap list_omap id]. fold (omap id (map Some l)).
    rewrite <- IH. reflexivity.
Qed.

(** In a table in descending order, a later row has at most the key of an
    earlier one. *)
Lemma descending_app {A} (key : A -> Q) (l1 l2 : list A) :
  Spec.descending key (l1 ++ l2) ->
  forall x y, In x l1 -> In y l2 -> (key y <= key x)%Q.
Proof.
  unfold Spec.descending.
  induction l1 as [|a l1 IH]; cbn [app]; intros Hs x y Hx Hy; [destruct Hx|].
  apply StronglySorted_inv in Hs as [Hs Ha].
  destruct Hx as [<-|Hx]; [|apply (IH Hs x y Hx Hy)].
  rewrite Forall_forall in Ha. apply Ha. apply list_elem_of_In.
  apply in_or_app. right; exact Hy.
Qed.

Lemma head_cut {A} (n : Z) (l : list A) : exists rest, l = head n l ++ rest.
Proof.
  unfold head. destruct (0 <=? n); eexists; symmetry; apply firstn_skipn.
Qed.

Lemma head_NoDup {A B} (f : A -> B) (n : Z) (l : list A) :
  NoDup (map f l) -> NoDup (map f (head n l)).
Proof.
  destruct (head_cut n l) as [rest Hcut]. intros Hnd.
  rewrite Hcut, map_app in Hnd. apply NoDup_app in Hnd as [Hnd _].
  exact Hnd.
Qed.

Lemma category_names sp :
  map product_category_name (map category_row (category_groups sp))
  = map Some (unique_sorted (map sp_product_category_name sp)).
Proof.
  unfold category_groups. rewrite !map_map.
  cbn [category_row product_category_name fst].
  rewrite <- (groupby_keys sp_product_category_name sp), map_map.
  reflexivity.
Qed.

Lemma product_names sp :
  map product_id (map product_row (product_groups sp))
  = unique_sorted (map (fun r => Some (sp_product_id r)) sp).
Proof.
  unfold product_groups. rewrite map_map.
  cbn [product_row product_id]. apply groupby_keys.
Qed.

Lemma category_row_figures sp c :
  (exists r, In r sp /\ sp_product_category_name r = Some c) ->
  Spec.category_row_of sp (category_row (Some c, Spec.category_rows c sp)).
Proof.
  intros (r & Hr & Hc). exists c. split; [reflexivity|]. split.
  - unfold Spec.categories. apply elem_of_list_to_set, list_elem_of_omap.
    exists r. split; [apply list_elem_of_In; exact Hr|exact Hc].
  - cbn [category_row total_revenue avg_price items_sold unique_orders
         fst snd].
    repeat split.
    rewrite <- (map_map sp_order_id Some). apply nunique_distinct.
Qed.

Lemma product_row_figures sp p :
  (exists r, In r sp /\ sp_product_id r = p) ->
  Spec.product_row_of sp (product_row (p, Spec.product_rows p sp)).
Proof.
  intros (r & Hr & Hp). split.
  - cbn [product_row product_id fst]. unfold Spec.product_ids.
    apply elem_of_list_to_set, list_elem_of_In, in_map_iff.
    exists r. split; [exact Hp|exact Hr].
  - cbn [product_row product_id p_total_revenue p_items_sold p_unique_orders
         fst snd].
    repeat split.
    rewrite <- (map_map sp_order_id Some). apply nunique_distinct.
Qed.

(** X23.  The two tables of [analyze_product_performance].  The call
    returns when the columns it selects are there.  The left join keeps
    every sales row, a row without a product under a null category.  Each
    row of the category table holds the figures of the joined rows of one
    category that is not null, each row of the product table those of one
    product id of the sales, and no category and no product has two rows.
    Each table is in descending order of [total_revenue] (the summed price,
    rounded to two decimals) and cut to [top_n] rows; with [top_n] 3 and
    five categories the category table has three rows.  What the cut leaves
    out has at most the revenue of every row that is kept. *)
Theorem analyze_product_performance_tables
    (S : Sorter) (LS : SorterLaws S)
    (sales_data : DataFrame Sales.t) (products_data : DataFrame Product.t)
    (top_n : Z) :
  has_column sales_data "product_id" = true ->
  has_column sales_data "price" = true ->
  has_column sales_data "order_id" = true ->
  has_column products_data "product_id" = true ->
  has_column products_data "product_category_name" = true ->
  exists res,
    analyze_product_performance sales_data products_data top_n = Ok res
    /\ let sp := merge_products (values sales_data) (values products_data) in
       let cats := values (category_performance res) in
       let prods := values (product_performance res) in
       (forall s, In s (values sales_data) ->
          exists r, In r sp
                    /\ sp_product_id r = Sales.product_id s
                    /\ sp_price r = Sales.price s
                    /\ sp_order_id r = Sales.order_id s)
       /\ (forall s, In s (values sales_data) ->
             (forall p, In p (values products_data) ->
                Product.product_id p <> Sales.product_id s) ->
             In (sales_product s None) sp)
       /\ Forall (Spec.category_row_of sp) cats
       /\ Forall (Spec.product_row_of sp) prods
       /\ NoDup (map product_category_name cats)
       /\ NoDup (map product_id prods)
       /\ Spec.descending total_revenue cats
       /\ Spec.descending p_total_revenue prods
       /\ length cats = Spec.kept top_n (size (Spec.categories sp))
       /\ length prods = Spec.kept top_n (size (Spec.product_ids sp))
       /\ (top_n = 3 -> size (Spec.categories sp) = 5%nat ->
           length cats = 3%nat)
       /\ (forall c row,
             c ∈ Spec.categories sp ->
             ~ In (Some c) (map product_category_name cats) ->
             In row cats ->
             (Np.round2 (Spec.revenue (Spec.category_rows c sp))
              <= total_revenue row)%Q)
       /\ (forall p row,
             p ∈ Spec.product_ids sp ->
             ~ In p (map product_id prods) ->
             In row prods ->
             (Np.round2 (Spec.revenue (Spec.product_rows p sp))
              <= p_total_revenue row)%Q).
Proof.
  intros H1 H2 H3 H4 H5. unfold analyze_product_performance, select.
  cbn [forallb]. rewrite H1, H2, H3, H4, H5. cbn [andb bind].
  eexists. split; [reflexivity|].
  cbn [category_performance product_performance].
  change (values (mkDataFrame ["product_id"; "price"; "order_id"]%string
                    (rows sales_data))) with (values sales_data).
  change (values (mkDataFrame ["product_id"; "product_category_name"]%string
                    (rows products_data))) with (values products_data).
  set (sp := merge_products (values sales_data) (values products_data)).
  cbn zeta. rewrite !values_range_index.
  set (all_categories := map category_row (category_groups sp)).
  set (all_products := map product_row (product_groups sp)).
  set (lc := sort_values_desc total_revenue all_categories).
  set (lp := sort_values_desc p_total_revenue all_products).
  assert (Hcrow : forall c,
            c ∈ Spec.categories sp ->
            In (category_row (Some c, Spec.category_rows c sp)) lc).
  { intros c Hc. apply in_sort_values_desc, in_map_iff.
    exists (Some c, Spec.category_rows c sp). split; [reflexivity|].
    apply category_groups_elem. exists c. split; [|reflexivity].
    unfold Spec.categories in Hc.
    apply elem_of_list_to_set, list_elem_of_omap in Hc as (r & Hr & Hc).
    exists r. split; [apply list_elem_of_In; exact Hr|exact Hc]. }
  assert (Hprow : forall p,
            p ∈ Spec.product_ids sp ->
            In (product_row (p, Spec.product_rows p sp)) lp).
  { intros p Hp. apply in_sort_values_desc, in_map_iff.
    exists (p, Spec.product_rows p sp). split; [reflexivity|].
    apply product_groups_elem. exists p. split; [|reflexivity].
    unfold Spec.product_ids in Hp.
    apply elem_of_list_to_set, list_elem_of_In, in_map_iff in Hp
      as (r & Hp & Hr).
    exists r. split; [exact Hr|exact Hp]. }
  split; [intros s Hs; apply merge_products_keeps; exact Hs|].
  split; [intros s Hs Hno; apply merge_products_unmatched; assumption|].
  split.
  { apply Forall_forall. intros row Hrow.
    apply list_elem_of_In, (head_In total_revenue) in Hrow.
    unfold lc in Hrow.
    apply in_sort_values_desc, in_map_iff in Hrow as (kg & <- & Hkg).
    apply category_groups_elem in Hkg as (c & Hc & ->).
    apply category_row_figures. exact Hc. }
  split.
  { apply Forall_forall. intros row Hrow.
    apply list_elem_of_In, (head_In p_total_revenue) in Hrow.
    unfold lp in Hrow.
    apply in_sort_values_desc, in_map_iff in Hrow as (kg & <- & Hkg).
    apply product_groups_elem in Hkg as (p & Hp & ->).
    apply product_row_figures. exact Hp. }
  split.
  { apply head_NoDup. unfold lc.
    rewrite (Permutation_map product_category_name
               (sort_values_desc_Permutation total_revenue all_categories)).
    unfold all_categories. rewrite category_names.
    apply (NoDup_fmap_2 Some). apply unique_sorted_NoDup. }
  split.
  { apply head_NoDup. unfold lp.
    rewrite (Permutation_map product_id
               (sort_values_desc_Permutation p_total_revenue all_products)).
    unfold all_products. rewrite product_names. apply unique_sorted_NoDup. }
  split; [apply descending_head, sort_values_desc_descending|].
  split; [apply descending_head, sort_values_desc_descending|].
  assert (Hlc : length (head top_n lc)
                = Spec.kept top_n (size (Spec.categories sp))).
  { rewrite head_length. unfold lc.
    rewrite (Permutation_length (sort_values_desc_Permutation _ _)).
    unfold all_categories. rewrite length_map, category_groups_length.
    reflexivity. }
  split; [exact Hlc|].
  split.
  { rewrite head_length. unfold lp.
    rewrite (Permutation_length (sort_values_desc_Permutation _ _)).
    unfold all_products. rewrite length_map, product_groups_length.
    reflexivity. }
  split.
  { intros -> H5c. rewrite Hlc, H5c. reflexivity. }
  split.
  - intros c row Hc Hnot Hrow.
    destruct (head_cut top_n lc) as [rest Hcut].
    pose proof (Hcrow c Hc) as Hin.
    pose proof (sort_values_desc_descending total_revenue all_categories)
      as Hd.
    fold lc in Hd. revert Hin Hd. rewrite Hcut at 1 2. intros Hin Hd.
    apply in_app_or in Hin as [Hin|Hin].
    + exfalso. apply Hnot. apply in_map_iff.
      exists (category_row (Some c, Spec.category_rows c sp)).
      split; [reflexivity|exact Hin].
    + exact (descending_app total_revenue _ _ Hd row _ Hrow Hin).
  - intros p row Hp Hnot Hrow.
    destruct (head_cut top_n lp) as [rest Hcut].
    pose proof (Hprow p Hp) as Hin.
    pose proof (sort_values_desc_descending p_total_revenue all_products)
      as Hd.
    fold lp in Hd. revert Hin Hd. rewrite Hcut at 1 2. intros Hin Hd.
    apply in_app_or in Hin as [Hin|Hin].
    + exfalso. apply Hnot. apply in_map_iff.
      exists (product_row (p, Spec.product_rows p sp)).
      split; [reflexivity|exact Hin].
    + exact (descending_app p_total_revenue _ _ Hd row _ Hrow Hin).
Qed.

Lemma analyze_product_performance_tables_witness :
  (has_column five_categories "product_id" = true
   /\ has_column five_categories "price" = true
   /\ has_column five_categories "order_id" = true
   /\ has_column five_products "product_id" = true
   /\ has_column five_products "product_category_name" = true)
  /\ exists res,
       analyze_product_performance (H := stable_sorter)
         five_categories five_products 3 = Ok res
       /\ Spec.descending total_revenue (values (category_performance res))
       /\ length (values (category_performance res))
          = Spec.kept 3 (size (Spec.categories
                                 (merge_products (values five_categories)
                                    (values five_products)))).
Proof.
  split; [repeat split; reflexivity|].
  destruct (analyze_product_performance_tables stable_sorter stable_sorter_laws
              five_categories five_products 3
              eq_refl eq_refl eq_refl eq_refl eq_refl)
    as (res & Hres & _ & _ & _ & _ & _ & _ & Hd & _ & Hl & _).
  exists res. split; [exact Hres|]. split; [exact Hd|exact Hl].
Defined.

(** Five categories and one product without a category: with [top_n] 3 the
    category table holds the three categories of highest revenue, and the
    product without a category, the best seller, heads the product table
    only. *)
Example top_three_of_five_categories :
  let res := analyze_product_performance (H := stable_sorter)
               five_categories five_products 3 in
  map (fun row => (product_category_name row, total_revenue row))
    (Spec.category_table res)
  = [(Some "music"%string, 50%Q); (Some "sports"%string, 40%Q);
     (Some "books"%string, 30%Q)]
  /\ map (fun row => (product_id row, p_total_revenue row))
       (Spec.product_table res)
     = [("P6"%string, 99%Q); ("P4"%string, 50%Q); ("P5"%string, 40%Q)].
Proof. split; vm_compute; reflexivity. Qed.

(** One sale of a product that is not in the product table: the join keeps
    the row, under a null category; it has its row in the product table and
    none in the category table. *)
Example sale_of_an_unknown_product :
  let sales := Spec.table [Spec.line "o1" "P9" 100 2024 1] in
  let products :=
    mkDataFrame ["product_id"; "product_category_name"]%string [] in
  let res := analyze_product_performance (H := stable_sorter) sales products 10 in
  merge_products (values sales) (values products)
  = [mkSalesProduct "P9" 100 "o1" None]
  /\ Spec.raised res = None
  /\ Spec.category_table res = []
  /\ Spec.product_table res = [mkProductRow "P9" 100 1 1].
Proof. repeat split; vm_compute; reflexivity. Qed.

End Products.

(** ** Further results on data_loader.py *)

Section LoaderOutcomes.
Import Py Pandas EcommerceDataLoader.

Lemma traverse_raises {A B} (f : A -> result B) e l :
  Forall (fun x => (exists y, f x = Ok y) \/ f x = Raise e) l ->
  Exists (fun x => f x = Raise e) l ->
  traverse f l = Raise e.
Proof.
  induction 1 as [|x l Hx _ IH]; intros Hex; [inversion Hex|].
  simpl. destruct Hx as [[y Hy]|Hy]; rewrite Hy; simpl; [|reflexivity].
  apply Exists_cons in Hex as [Hex|Hex]; [congruence|].
  rewrite (IH Hex). reflexivity.
Qed.

Lemma assign_raises {R} (df : DataFrame R) cols f e :
  Forall (fun lr => (exists r', f (snd lr) = Ok r') \/ f (snd lr) = Raise e)
    (rows df) ->
  Exists (fun lr => f (snd lr) = Raise e) (rows df) ->
  assign df cols f = Raise e.
Proof.
  intros Hall Hex. unfold assign.
  rewrite (traverse_raises _ e); [reflexivity| |].
  - eapply Forall_impl; [exact Hall|]. intros lr [[r' Hr']|Hr]; rewrite ?Hr', ?Hr;
      simpl; [left; eexists; reflexivity|right; reflexivity].
  - eapply Exists_impl; [exact Hex|]. intros lr Hr. simpl in Hr. rewrite Hr.
    reflexivity.
Qed.

Lemma assign_columns {R} (df df' : DataFrame R) cols f :
  assign df cols f = Ok df' ->
  columns df'
  = columns df ++ List.filter (fun c => negb (has_column df c)) cols.
Proof.
  unfold assign. destruct (traverse _ (rows df)); simpl; intros Hrun;
    inversion Hrun. reflexivity.
Qed.

Lemma parsesb_parses c : Spec.parsesb c = true <-> Spec.parses c.
Proof.
  destruct c as [| |txt]; simpl; try tauto.
  destruct (Timestamp.parse txt); split; congruence.
Qed.

Lemma to_datetime_cases c :
  (exists c', to_datetime c = Ok c') \/ to_datetime c = Raise ParserError.
Proof.
  destruct c as [| |txt]; simpl; eauto.
  destruct (Timestamp.parse txt); eauto.
Qed.

Lemma to_datetime_raises c :
  Spec.parsesb c = false -> to_datetime c = Raise ParserError.
Proof.
  destruct c as [| |txt]; simpl; try discriminate.
  destruct (Timestamp.parse txt); [discriminate|reflexivity].
Qed.

(** Converting a column whose cells do not all parse raises ParserError. *)
Lemma convert_column_raises (df : DataFrame Sales.t) col (cell : Sales.t -> date_cell) :
  has_column df col = true ->
  (forall r, Sales.date_cell_of col r = Some (cell r)) ->
  Exists (fun lr => Spec.parsesb (cell (snd lr)) = false) (rows df) ->
  convert_column df col = Raise ParserError.
Proof.
  intros Hcol Hcell Hex. unfold convert_column. rewrite Hcol.
  apply assign_raises.
  - apply Forall_forall. intros lr _. rewrite Hcell.
    destruct (to_datetime_cases (cell (snd lr))) as [[c' Hc']|Hc'];
      rewrite Hc'; simpl; [left; eexists; reflexivity|right; reflexivity].
  - eapply Exists_impl; [exact Hex|]. intros lr Hlr. simpl. rewrite Hcell.
    rewrite (to_datetime_raises _ Hlr). reflexivity.
Qed.

Lemma assign_has_column {R} (df df' : DataFrame R) cols f c :
  assign df cols f = Ok df' ->
  has_column df c = true -> has_column df' c = true.
Proof.
  intros Hrun Hc. unfold has_column in *. rewrite (assign_columns _ _ _ _ Hrun).
  apply bool_decide_eq_true. apply bool_decide_eq_true in Hc.
  apply elem_of_app. left; exact Hc.
Qed.

Lemma add_feature_establishes dc suffix f (df : DataFrame Sales.t)
    (P Q : Sales.t -> Prop) :
  Forall (fun lr => P (snd lr)) (rows df) ->
  (forall r, P r ->
     exists c, Sales.date_cell_of dc r = Some c
               /\ Spec.converted c
               /\ Q (Sales.set_time_feature (dc ++ suffix)%string
                       (Spec.derived f c) r)) ->
  exists df',
    add_feature dc suffix f df = Ok df'
    /\ Forall (fun lr => Q (snd lr)) (rows df')
    /\ (forall c, has_column df c = true -> has_column df' c = true).
Proof.
  intros HP Hf. unfold add_feature.
  match goal with
  | |- exists _, assign df ?cols ?g = _ /\ _ =>
      destruct (assign_establishes P Q df cols g HP) as (df' & Hrun & HQ & _)
  end.
  { intros r Hr. destruct (Hf r Hr) as (c & Hc & Hconv & HQ).
    rewrite Hc. destruct c as [|ts|txt]; simpl in *; try contradiction;
      eexists; split; try reflexivity; exact HQ. }
  exists df'. split; [exact Hrun|]. split; [exact HQ|].
  intros c. eapply assign_has_column. exact Hrun.
Qed.

Lemma parse_valid s ts :
  Timestamp.parse s = Some ts -> Timestamp.valid ts = true.
Proof.
  unfold Timestamp.parse.
  assert (Hcheck : forall x, Timestamp.check x = Some ts ->
                             Timestamp.valid ts = true).
  { intros x. unfold Timestamp.check.
    destruct (Timestamp.valid x) eqn:Hv; [|discriminate].
    intros Hx; inversion Hx; subst; exact Hv. }
  destruct (Timestamp.parse_date _) as [[[y m] d]|]; [|discriminate].
  destruct (skipn 10 _) as [|sep rest]; [apply Hcheck|].
  destruct (_ || _); [|discriminate].
  destruct (Timestamp.parse_time rest) as [[[hh mi] se]|]; [|discriminate].
  apply Hcheck.
Qed.

Lemma to_datetime_well_formed c c' :
  Spec.well_formed c -> to_datetime c = Ok c' -> Spec.well_formed c'.
Proof.
  destruct c as [|ts|txt]; simpl; intros Hw Hc; inversion Hc; subst;
    try exact Hw; try exact I.
  destruct (Timestamp.parse txt) as [ts|] eqn:Hp; inversion Hc; subst.
  simpl. eapply parse_valid; exact Hp.
Qed.

Lemma valid_in_calendar ts :
  Timestamp.valid ts = true -> Spec.in_calendar (Stamp ts).
Proof.
  unfold Timestamp.valid, Spec.in_calendar, Timestamp.quarter.
  rewrite !andb_true_iff, !Z.leb_le.
  intros [[[[[[[[[Hm1 Hm2] Hd1] Hd2] _] _] _] _] _] _].
  assert (Hdim : Timestamp.days_in_month (Timestamp.year ts) (Timestamp.month ts)
                 <= 31).
  { unfold Timestamp.days_in_month.
    destruct (_ =? 2); [destruct (Timestamp.is_leap _); lia|].
    destruct (_ || _); lia. }
  repeat split; try lia.
  - pose proof (Z.div_pos (Timestamp.month ts - 1) 3 ltac:(lia) ltac:(lia)). lia.
  - assert ((Timestamp.month ts - 1) / 3 < 4); [|lia].
    apply Z.div_lt_upper_bound; lia.
Qed.

Lemma int_cell_set_eq col v r :
  Sales.int_cell col (Sales.set_time_feature col v r) = v.
Proof.
  unfold Sales.int_cell, Sales.set_time_feature; cbn [Sales.time_features].
  rewrite lookup_insert_eq. reflexivity.
Qed.

Lemma int_cell_set_ne col col' v r :
  col <> col' ->
  Sales.int_cell col' (Sales.set_time_feature col v r) = Sales.int_cell col' r.
Proof.
  intros Hne.
  unfold Sales.int_cell, Sales.set_time_feature; cbn [Sales.time_features].
  rewrite lookup_insert_ne by exact Hne. reflexivity.
Qed.

(** The steps after the join succeed on a frame that has the two date
    columns and whose cells all parse; they leave both date columns
    converted and the four derived columns filled from the purchase
    timestamp.  [I] is any property of the purchase cell that conversion
    keeps. *)
Lemma prepared_establishes (I : date_cell -> Prop) (merged : DataFrame Sales.t) :
  (forall c c', I c -> to_datetime c = Ok c' -> I c') ->
  has_column merged "order_purchase_timestamp" = true ->
  has_column merged "order_delivered_customer_date" = true ->
  Forall (fun lr => Spec.dates_parse (snd lr) = true
                    /\ I (Sales.order_purchase_timestamp (snd lr)))
    (rows merged) ->
  exists sales,
    Spec.prepared merged = Ok sales
    /\ Forall (fun lr =>
                 Spec.features_hold (snd lr)
                 /\ Spec.converted (Sales.order_delivered_customer_date (snd lr))
                 /\ I (Sales.order_purchase_timestamp (snd lr)))
         (rows sales)
    /\ (forall c, has_column merged c = true -> has_column sales c = true).
Proof.
  intros HI Hp Hd Hrows. unfold Spec.prepared. cbn [preprocess_dates].
  set (base := fun r : Sales.t =>
         Spec.converted (Sales.order_purchase_timestamp r)
         /\ Spec.converted (Sales.order_delivered_customer_date r)
         /\ I (Sales.order_purchase_timestamp r)).
  set (feat := fun (suffix : string) (f : Timestamp.t -> Z) (r : Sales.t) =>
         Sales.int_cell ("order_purchase_timestamp" ++ suffix)%string r
         = Spec.derived f (Sales.order_purchase_timestamp r)).
  destruct (convert_column_establishes merged "order_purchase_timestamp"
              (fun r => Spec.dates_parse r = true
                        /\ I (Sales.order_purchase_timestamp r))
              (fun r => Spec.converted (Sales.order_purchase_timestamp r)
                        /\ Spec.parses (Sales.order_delivered_customer_date r)
                        /\ I (Sales.order_purchase_timestamp r))
              Hp Hrows) as (df1 & H1 & Hr1 & Hc1).
  { intros r [Hparse Hi]. unfold Spec.dates_parse in Hparse.
    apply andb_true_iff in Hparse as [Hpp Hpd].
    apply parsesb_parses in Hpp, Hpd.
    destruct (to_datetime_converted _ Hpp) as (c' & Hc' & Hconv).
    exists (Sales.order_purchase_timestamp r), c'.
    repeat split; try assumption. simpl. eapply HI; eassumption. }
  rewrite H1; cbn [bind].
  assert (Hd1 : has_column df1 "order_delivered_customer_date" = true)
    by (unfold has_column; rewrite Hc1; exact Hd).
  destruct (convert_column_establishes df1 "order_delivered_customer_date"
              (fun r => Spec.converted (Sales.order_purchase_timestamp r)
                        /\ Spec.parses (Sales.order_delivered_customer_date r)
                        /\ I (Sales.order_purchase_timestamp r))
              base Hd1 Hr1) as (df2 & H2 & Hr2 & Hc2).
  { intros r (Hpc & Hpd & Hi).
    destruct (to_datetime_converted _ Hpd) as (c' & Hc' & Hconv).
    exists (Sales.order_delivered_customer_date r), c'.
    repeat split; assumption. }
  rewrite H2; cbn [bind].
  assert (Hp2 : has_column df2 "order_purchase_timestamp" = true)
    by (unfold has_column; rewrite Hc2, Hc1; exact Hp).
  unfold add_time_features. rewrite Hp2.
  destruct (add_feature_establishes "order_purchase_timestamp" "_year"
              Timestamp.year df2 base
              (fun r => base r /\ feat "_year"%string Timestamp.year r) Hr2)
    as (df3 & H3 & Hr3 & Hc3).
  { intros r Hb. exists (Sales.order_purchase_timestamp r).
    split; [reflexivity|]. split; [apply Hb|]. split; [exact Hb|].
    unfold feat. apply int_cell_set_eq. }
  rewrite H3; cbn [bind].
  destruct (add_feature_establishes "order_purchase_timestamp" "_month"
              Timestamp.month df3
              (fun r => base r /\ feat "_year"%string Timestamp.year r)
              (fun r => (base r /\ feat "_year"%string Timestamp.year r)
                        /\ feat "_month"%string Timestamp.month r) Hr3)
    as (df4 & H4 & Hr4 & Hc4).
  { intros r [Hb Hy]. exists (Sales.order_purchase_timestamp r).
    split; [reflexivity|]. split; [apply Hb|]. split; [split; [exact Hb|]|].
    - unfold feat in *. rewrite int_cell_set_ne by discriminate. exact Hy.
    - unfold feat. apply int_cell_set_eq. }
  rewrite H4; cbn [bind].
  destruct (add_feature_establishes "order_purchase_timestamp" "_quarter"
              Timestamp.quarter df4
              (fun r => (base r /\ feat "_year"%string Timestamp.year r)
                        /\ feat "_month"%string Timestamp.month r)
              (fun r => ((base r /\ feat "_year"%string Timestamp.year r)
                         /\ feat "_month"%string Timestamp.month r)
                        /\ feat "_quarter"%string Timestamp.quarter r) Hr4)
    as (df5 & H5 & Hr5 & Hc5).
  { intros r [[Hb Hy] Hm]. exists (Sales.order_purchase_timestamp r).
    split; [reflexivity|]. split; [apply Hb|].
    split; [split; [split; [exact Hb|]|]|].
    - unfold feat in *. rewrite int_cell_set_ne by discriminate. exact Hy.
    - unfold feat in *. rewrite int_cell_set_ne by discriminate. exact Hm.
    - unfold feat. apply int_cell_set_eq. }
  rewrite H5; cbn [bind].
  destruct (add_feature_establishes "order_purchase_timestamp" "_day"
              Timestamp.day df5
              (fun r => ((base r /\ feat "_year"%string Timestamp.year r)
                         /\ feat "_month"%string Timestamp.month r)
                        /\ feat "_quarter"%string Timestamp.quarter r)
              (fun r => Spec.features_hold r
                        /\ Spec.converted (Sales.order_delivered_customer_date r)
                        /\ I (Sales.order_purchase_timestamp r)) Hr5)
    as (df6 & H6 & Hr6 & Hc6).
  { intros r [[[Hb Hy] Hm] Hq]. exists (Sales.order_purchase_timestamp r).
    split; [reflexivity|]. split; [apply Hb|].
    destruct Hb as (Hcp & Hcd & Hi). unfold feat in *.
    split; [|split; assumption].
    unfold Spec.features_hold. cbn zeta.
    split; [exact Hcp|].
    rewrite !int_cell_set_ne by discriminate. rewrite int_cell_set_eq.
    repeat split; assumption. }
  exists df6. split; [exact H6|]. split; [exact Hr6|].
  intros c Hc. apply Hc6, Hc5, Hc4, Hc3.
  unfold has_column in *. rewrite Hc2, Hc1. exact Hc.
Qed.

Lemma forallb_false_Exists {A B} (g : A -> B) (p : B -> bool) l :
  forallb p (map g l) = false -> Exists (fun x => p (g x) = false) l.
Proof.
  induction l as [|x l IH]; simpl; [discriminate|].
  destruct (p (g x)) eqn:Hx; simpl; intros Hl; [right; apply IH; exact Hl|].
  left; exact Hx.
Qed.

(** The steps after the join raise ParserError as soon as one cell of the
    two date columns does not parse. *)
Lemma prepared_raises (merged : DataFrame Sales.t) :
  has_column merged "order_purchase_timestamp" = true ->
  has_column merged "order_delivered_customer_date" = true ->
  forallb Spec.dates_parse (values merged) = false ->
  Spec.prepared merged = Raise ParserError.
Proof.
  intros Hp Hd Hbad. unfold Spec.prepared. cbn [preprocess_dates].
  destruct (forallb Spec.parsesb
              (map (fun lr : Z * Sales.t => Sales.order_purchase_timestamp (snd lr))
                 (rows merged))) eqn:Hpur.
  - assert (Hall : Forall (fun lr =>
               Spec.parses (Sales.order_purchase_timestamp (snd lr)))
               (rows merged)).
    { apply Forall_forall. intros lr Hlr.
      rewrite forallb_forall in Hpur. apply parsesb_parses. apply Hpur.
      apply (in_map (fun lr : Z * Sales.t =>
                       Sales.order_purchase_timestamp (snd lr))).
      apply list_elem_of_In. exact Hlr. }
    destruct (convert_column_establishes merged "order_purchase_timestamp"
                (fun r => Spec.parses (Sales.order_purchase_timestamp r))
                (fun _ => True) Hp Hall) as (df1 & H1 & _ & Hc1).
    { intros r Hr. destruct (to_datetime_converted _ Hr) as (c' & Hc' & _).
      exists (Sales.order_purchase_timestamp r), c'.
      repeat split; assumption. }
    rewrite H1; cbn [bind].
    rewrite (convert_column_raises df1 "order_delivered_customer_date"
               Sales.order_delivered_customer_date); [reflexivity| | |].
    + unfold has_column. rewrite Hc1. exact Hd.
    + reflexivity.
    + assert (Hex : Exists (fun lr =>
                 Spec.parsesb (Sales.order_delivered_customer_date (snd lr))
                 = false) (rows merged)).
      { apply forallb_false_Exists in Hbad.
        rewrite Exists_exists in Hbad. destruct Hbad as (lr & Hlr & Hrb).
        apply Exists_exists. exists lr. split; [exact Hlr|].
        unfold Spec.dates_parse in Hrb.
        rewrite forallb_forall in Hpur.
        rewrite (Hpur (Sales.order_purchase_timestamp (snd lr))) in Hrb.
        - exact Hrb.
        - apply (in_map (fun lr : Z * Sales.t =>
                           Sales.order_purchase_timestamp (snd lr))).
          apply list_elem_of_In. exact Hlr. }
      assert (H1' := H1). unfold convert_column in H1'. rewrite Hp in H1'.
      apply assign_rows in H1'.
      clear - H1' Hex. induction H1' as [|lr lr' l l' (r' & Hr' & ->) _ IH];
        [inversion Hex|].
      apply Exists_cons in Hex as [Hex|Hex]; [left|right; apply IH; exact Hex].
      cbn [snd]. simpl in Hr'.
      destruct (to_datetime _); simpl in Hr'; inversion Hr'; subst.
      exact Hex.
  - rewrite (convert_column_raises merged "order_purchase_timestamp"
               Sales.order_purchase_timestamp); [reflexivity|exact Hp|reflexivity|].
    apply forallb_false_Exists in Hpur. exact Hpur.
Qed.

Lemma create_sales_dataset_merged ds oi o :
  order_items ds = Some oi ->
  orders ds = Some o ->
  forallb (has_column oi) order_items_columns = true ->
  forallb (has_column o) orders_columns = true ->
  create_sales_dataset ds = Spec.prepared (Spec.merged oi o).
Proof.
  intros Hoi Ho Hci Hco. unfold create_sales_dataset, select.
  rewrite Hoi, Ho, Hci, Hco. reflexivity.
Qed.

Lemma values_merged oi o : values (Spec.merged oi o) = Spec.joined oi o.
Proof. unfold Spec.merged. apply values_range_index_rows. Qed.

Lemma create_sales_dataset_inv ds sales :
  create_sales_dataset ds = Ok sales ->
  exists oi o,
    order_items ds = Some oi
    /\ orders ds = Some o
    /\ forallb Spec.dates_parse (Spec.joined oi o) = true
    /\ Spec.prepared (Spec.merged oi o) = Ok sales.
Proof.
  intros Hrun.
  destruct (order_items ds) as [oi|] eqn:Hoi;
    [|unfold create_sales_dataset in Hrun; rewrite Hoi in Hrun; discriminate].
  destruct (orders ds) as [o|] eqn:Ho;
    [|unfold create_sales_dataset in Hrun; rewrite Hoi, Ho in Hrun; discriminate].
  destruct (forallb (has_column oi) order_items_columns) eqn:Hci;
    [|unfold create_sales_dataset, select in Hrun;
      rewrite Hoi, Ho, Hci in Hrun; discriminate].
  destruct (forallb (has_column o) orders_columns) eqn:Hco;
    [|unfold create_sales_dataset, select in Hrun;
      rewrite Hoi, Ho, Hci, Hco in Hrun; discriminate].
  rewrite (create_sales_dataset_merged ds oi o Hoi Ho Hci Hco) in Hrun.
  exists oi, o. repeat split; try assumption.
  destruct (forallb Spec.dates_parse (Spec.joined oi o)) eqn:Hparse;
    [reflexivity|].
  rewrite <- values_merged in Hparse.
  rewrite (prepared_raises (Spec.merged oi o)) in Hrun;
    [discriminate|reflexivity|reflexivity|exact Hparse].
Qed.

Lemma rows_values_Forall {R} (P : R -> Prop) (df : DataFrame R) :
  Forall (fun lr => P (snd lr)) (rows df) <-> Forall P (values df).
Proof. unfold values. rewrite Forall_fmap. reflexivity. Qed.

(** What an assignment leaves alone in every row, it leaves alone in the
    frame: the rows keep their labels and their order. *)
Lemma assign_keeps {R B} (g : R -> B) (df df' : DataFrame R) cols f :
  (forall r r', f r = Ok r' -> g r' = g r) ->
  assign df cols f = Ok df' ->
  Spec.labelled g df' = Spec.labelled g df.
Proof.
  intros Hg Hrun. apply assign_rows in Hrun. unfold Spec.labelled.
  induction Hrun as [|lr lr' l l' (r' & Hr' & ->) _ IH]; [reflexivity|].
  cbn [map fst snd]. rewrite (Hg _ _ Hr'), IH. reflexivity.
Qed.

Lemma convert_column_keeps {B} (g : Sales.t -> B) df col df' :
  (forall c r, g (Sales.set_date_cell col c r) = g r) ->
  convert_column df col = Ok df' ->
  Spec.labelled g df' = Spec.labelled g df.
Proof.
  intros Hg. unfold convert_column.
  destruct (has_column df col); [|intros H; inversion H; reflexivity].
  apply assign_keeps. intros r r'.
  destruct (Sales.date_cell_of col r) as [c|];
    [|intros H; inversion H; reflexivity].
  destruct (to_datetime c) as [c'|]; simpl; intros H; inversion H.
  apply Hg.
Qed.

Lemma add_feature_keeps {B} (g : Sales.t -> B) dc suffix f df df' :
  (forall col v r, g (Sales.set_time_feature col v r) = g r) ->
  add_feature dc suffix f df = Ok df' ->
  Spec.labelled g df' = Spec.labelled g df.
Proof.
  intros Hg. unfold add_feature. apply assign_keeps. intros r r'.
  destruct (Sales.date_cell_of dc r) as [c|]; [|discriminate].
  destruct (dt f c) as [v|]; simpl; intros H; inversion H.
  apply Hg.
Qed.

(** The steps after the join rewrite the two dates and add the derived
    columns; the cells of the item and of the order stay. *)
Lemma prepared_keeps (merged sales : DataFrame Sales.t) :
  Spec.prepared merged = Ok sales ->
  Spec.labelled Spec.item_cells sales = Spec.labelled Spec.item_cells merged.
Proof.
  assert (Hd : forall col c r,
             Spec.item_cells (Sales.set_date_cell col c r) = Spec.item_cells r).
  { intros col c r. unfold Sales.set_date_cell.
    repeat case_bool_decide; reflexivity. }
  assert (Hf : forall col v r,
             Spec.item_cells (Sales.set_time_feature col v r)
             = Spec.item_cells r) by reflexivity.
  unfold Spec.prepared. cbn [preprocess_dates].
  destruct (convert_column merged _) as [df1|] eqn:H1; [|discriminate].
  cbn [bind].
  destruct (convert_column df1 _) as [df2|] eqn:H2; [|discriminate].
  cbn [bind].
  apply (convert_column_keeps Spec.item_cells) in H1; [|apply Hd].
  apply (convert_column_keeps Spec.item_cells) in H2; [|apply Hd].
  unfold add_time_features.
  destruct (has_column df2 "order_purchase_timestamp");
    [|intros H; inversion H; subst; congruence].
  destruct (add_feature _ "_year" _ df2) as [df3|] eqn:H3; [|discriminate].
  cbn [bind].
  destruct (add_feature _ "_month" _ df3) as [df4|] eqn:H4; [|discriminate].
  cbn [bind].
  destruct (add_feature _ "_quarter" _ df4) as [df5|] eqn:H5; [|discriminate].
  cbn [bind]. intros H6.
  apply (add_feature_keeps Spec.item_cells) in H3, H4, H5, H6; try apply Hf.
  congruence.
Qed.

Lemma map_range_index {A B} (g : A -> B) (l : list A) :
  map (fun lr => (fst lr, g (snd lr))) (range_index l) = range_index (map g l).
Proof.
  unfold range_index.
  change (map ?f ?x) with (f <$> x).
  rewrite fmap_imap, imap_fmap. reflexivity.
Qed.

Lemma labelled_nil {R B} (g : R -> B) (df df' : DataFrame R) :
  Spec.labelled g df' = Spec.labelled g df -> rows df = [] -> rows df' = [].
Proof.
  unfold Spec.labelled. intros Heq Hnil. rewrite Hnil in Heq.
  destruct (rows df'); [reflexivity|discriminate].
Qed.

(** X1.  What [create_sales_dataset] does with the tables it is given.
    It raises ValueError when one of the two tables is not loaded and
    KeyError when a column it selects is absent.  With both tables and all
    the columns, only joined rows are read: when no order item has its
    order in the orders table the result is the empty sales table, whatever
    the dates of the orders are.  A sales table that is returned has the
    rows of the join, in the order of the join and under the labels 0, 1,
    ..., each with the cells of its item and of its order as they were. *)
Theorem create_sales_dataset_outcome (ds : datasets) :
  match order_items ds, orders ds with
  | Some oi, Some o =>
      if forallb (has_column oi) order_items_columns
         && forallb (has_column o) orders_columns
      then
        (Spec.joined oi o = [] ->
         exists sales, create_sales_dataset ds = Ok sales /\ rows sales = [])
        /\ (forall sales,
              create_sales_dataset ds = Ok sales ->
              Spec.labelled Spec.item_cells sales
              = range_index (map Spec.item_cells (Spec.joined oi o)))
      else create_sales_dataset ds = Raise KeyError
  | _, _ => create_sales_dataset ds = Raise ValueError
  end.
Proof.
  destruct (order_items ds) as [oi|] eqn:Hoi;
    [|unfold create_sales_dataset; rewrite Hoi; reflexivity].
  destruct (orders ds) as [o|] eqn:Ho;
    [|unfold create_sales_dataset; rewrite Hoi, Ho; reflexivity].
  destruct (forallb (has_column oi) order_items_columns) eqn:Hci;
    [|unfold create_sales_dataset, select; rewrite Hoi, Ho, Hci; reflexivity].
  destruct (forallb (has_column o) orders_columns) eqn:Hco;
    [|unfold create_sales_dataset, select; rewrite Hoi, Ho, Hci, Hco;
      reflexivity].
  cbn [andb]. rewrite (create_sales_dataset_merged ds oi o Hoi Ho Hci Hco).
  split.
  - intros Hnil.
    destruct (prepared_establishes (fun _ => True) (Spec.merged oi o))
      as (sales & Hrun & _); [auto|reflexivity|reflexivity| |].
    { unfold Spec.merged. rewrite Hnil. constructor. }
    exists sales. split; [exact Hrun|].
    apply (labelled_nil Spec.item_cells (Spec.merged oi o));
      [apply prepared_keeps; exact Hrun|].
    unfold Spec.merged. rewrite Hnil. reflexivity.
  - intros sales Hrun. rewrite (prepared_keeps _ _ Hrun).
    unfold Spec.labelled, Spec.merged. cbn [rows]. apply map_range_index.
Qed.

(** An order whose dates cannot be read, and no item: nothing is joined
    and nothing is read. *)
Example sales_of_orders_without_items :
  exists sales,
    create_sales_dataset Spec.orders_without_items = Ok sales
    /\ rows sales = [].
Proof. eexists. split; vm_compute; reflexivity. Qed.

Lemma convert_column_columns df col df' :
  convert_column df col = Ok df' -> columns df' = columns df.
Proof.
  unfold convert_column. destruct (has_column df col) eqn:Hcol;
    [|intros H; inversion H; reflexivity].
  intros Hrun. rewrite (assign_columns _ _ _ _ Hrun).
  cbn [List.filter]. rewrite Hcol. simpl. apply app_nil_r.
Qed.

Lemma add_feature_columns dc suffix f df df' :
  add_feature dc suffix f df = Ok df' ->
  columns df'
  = columns df
    ++ List.filter (fun c => negb (has_column df c)) [(dc ++ suffix)%string].
Proof. apply assign_columns. Qed.

Lemma prepared_columns (merged sales : DataFrame Sales.t) :
  columns merged = Spec.sales_columns ->
  Spec.prepared merged = Ok sales ->
  columns sales = (Spec.sales_columns ++ Spec.feature_columns)%list.
Proof.
  intros Hcols. unfold Spec.prepared. cbn [preprocess_dates].
  destruct (convert_column merged _) as [df1|] eqn:H1; [|discriminate].
  cbn [bind].
  destruct (convert_column df1 _) as [df2|] eqn:H2; [|discriminate].
  cbn [bind].
  apply convert_column_columns in H1, H2.
  assert (Hc2 : columns df2 = Spec.sales_columns) by congruence.
  unfold add_time_features.
  replace (has_column df2 "order_purchase_timestamp") with true
    by (unfold has_column; rewrite Hc2; reflexivity).
  destruct (add_feature _ "_year" _ df2) as [df3|] eqn:H3; [|discriminate].
  cbn [bind].
  destruct (add_feature _ "_month" _ df3) as [df4|] eqn:H4; [|discriminate].
  cbn [bind].
  destruct (add_feature _ "_quarter" _ df4) as [df5|] eqn:H5; [|discriminate].
  cbn [bind]. intros H6.
  apply add_feature_columns in H3, H4, H5, H6.
  unfold has_column in *. rewrite Hc2 in H3. rewrite H3 in H4.
  rewrite H4 in H5. rewrite H5 in H6. rewrite H6. reflexivity.
Qed.

(** X2.  In the sales table [create_sales_dataset] returns, both date
    columns are converted, and the year, month, quarter and day columns hold
    the fields of the row's purchase timestamp (nothing where it is
    missing); the columns are those of the join followed by these four.
    When the timestamps of the orders are real calendar days, the month is
    in 1..12, the quarter in 1..4 and the day in 1..31. *)
Theorem create_sales_dataset_time_features
    (ds : datasets) (sales : DataFrame Sales.t) :
  create_sales_dataset ds = Ok sales ->
  columns sales = (Spec.sales_columns ++ Spec.feature_columns)%list
  /\ Forall (fun r =>
               Spec.features_hold r
               /\ Spec.converted (Sales.order_delivered_customer_date r))
       (values sales)
  /\ (forall o,
        orders ds = Some o ->
        Forall (fun r => Spec.well_formed (Order.order_purchase_timestamp r))
          (values o) ->
        Forall (fun r => Spec.in_calendar (Sales.order_purchase_timestamp r))
          (values sales)).
Proof.
  intros Hrun.
  destruct (create_sales_dataset_inv ds sales Hrun)
    as (oi & o & Hoi & Ho & Hparse & Hprep).
  split; [eapply prepared_columns; [|exact Hprep]; reflexivity|].
  set (W := Forall (fun r => Spec.well_formed (Order.order_purchase_timestamp r))
              (values o)).
  destruct (prepared_establishes (fun c => W -> Spec.well_formed c)
              (Spec.merged oi o)) as (sales' & Hrun' & Hrows & _).
  { intros c c' Hc Hconv HW. eapply to_datetime_well_formed; eauto. }
  { reflexivity. }
  { reflexivity. }
  { apply rows_values_Forall
      with (P := fun r => Spec.dates_parse r = true
                          /\ (W -> Spec.well_formed
                                     (Sales.order_purchase_timestamp r))).
    rewrite values_merged. apply Forall_forall. intros r Hr.
    rewrite forallb_forall in Hparse. split.
    - apply Hparse. apply list_elem_of_In. exact Hr.
    - intros HW. apply list_elem_of_In in Hr.
      apply merge_inner_elem in Hr as (it & ord & _ & Hord & _ & ->).
      unfold W in HW. rewrite Forall_forall in HW. apply (HW ord).
      apply list_elem_of_In. exact Hord. }
  assert (sales' = sales) by congruence. subst sales'.
  apply (rows_values_Forall
           (fun r => Spec.features_hold r
                     /\ Spec.converted (Sales.order_delivered_customer_date r)
                     /\ (W -> Spec.well_formed
                                (Sales.order_purchase_timestamp r)))) in Hrows.
  split.
  - eapply Forall_impl; [exact Hrows|]. intros r (Hf & Hd & _). split; assumption.
  - intros o' Ho' HW. assert (o' = o) by congruence. subst o'.
    eapply Forall_impl; [exact Hrows|]. intros r (_ & _ & Hw).
    specialize (Hw HW).
    destruct (Sales.order_purchase_timestamp r) as [|ts|txt]; simpl; try exact I.
    apply valid_in_calendar. exact Hw.
Qed.

Lemma create_sales_dataset_time_features_witness :
  exists sales,
    create_sales_dataset Spec.scenario = Ok sales
    /\ columns sales = (Spec.sales_columns ++ Spec.feature_columns)%list
    /\ Forall (fun r =>
                 Spec.features_hold r
                 /\ Spec.converted (Sales.order_delivered_customer_date r))
         (values sales)
    /\ (forall o,
          orders Spec.scenario = Some o ->
          Forall (fun r => Spec.well_formed (Order.order_purchase_timestamp r))
            (values o) ->
          Forall (fun r => Spec.in_calendar (Sales.order_purchase_timestamp r))
            (values sales)).
Proof.
  destruct (create_sales_dataset Spec.scenario) as [sales|] eqn:Hrun;
    [|vm_compute in Hrun; discriminate].
  exists sales. split; [reflexivity|].
  apply (create_sales_dataset_time_features Spec.scenario sales Hrun).
Defined.

(** The sales table has the columns of the join and the four derived ones,
    and both its date columns are converted. *)
Lemma create_sales_dataset_rows ds sales :
  create_sales_dataset ds = Ok sales ->
  columns sales = (Spec.sales_columns ++ Spec.feature_columns)%list
  /\ Forall (fun lr =>
               Spec.features_hold (snd lr)
               /\ Spec.converted (Sales.order_delivered_customer_date (snd lr)))
       (rows sales).
Proof.
  intros Hrun.
  destruct (create_sales_dataset_inv ds sales Hrun)
    as (oi & o & Hoi & Ho & Hparse & Hprep).
  split; [eapply prepared_columns; [|exact Hprep]; reflexivity|].
  destruct (prepared_establishes (fun _ => True) (Spec.merged oi o))
    as (sales' & Hrun' & Hrows & _); [auto|reflexivity|reflexivity| |].
  - apply rows_values_Forall
      with (P := fun r => Spec.dates_parse r = true /\ True).
    rewrite values_merged. apply Forall_forall. intros r Hr.
    rewrite forallb_forall in Hparse. split; [|exact I].
    apply Hparse. apply list_elem_of_In. exact Hr.
  - assert (sales' = sales) by congruence. subst sales'.
    eapply Forall_impl; [exact Hrows|]. intros lr (Hf & Hd & _).
    split; assumption.
Qed.

Lemma add_delivery_metrics_columns df df' :
  add_delivery_metrics df = Ok df' ->
  has_column df "order_delivered_customer_date" = true ->
  has_column df "order_purchase_timestamp" = true ->
  has_column df "delivery_speed_days" = false ->
  has_column df "delivery_category" = false ->
  columns df'
  = (columns df ++ ["delivery_speed_days"; "delivery_category"]%string)%list.
Proof.
  intros Hrun Hd Hp Hs Hc. unfold add_delivery_metrics in Hrun.
  rewrite Hd, Hp in Hrun. cbn [andb] in Hrun.
  match type of Hrun with
  | (let! _ := ?t in _) = _ => destruct t as [df1|] eqn:H1
  end; cbn [bind] in Hrun; [|discriminate].
  apply assign_columns in H1, Hrun.
  cbn [List.filter] in H1. rewrite Hs in H1. cbn [negb] in H1.
  rewrite Hrun, H1. cbn [List.filter].
  replace (has_column df1 "delivery_category") with false.
  - cbn [negb]. rewrite <- app_assoc. reflexivity.
  - symmetry. unfold has_column in *. rewrite H1.
    apply bool_decide_eq_false. apply bool_decide_eq_false in Hc.
    intros Hin. apply elem_of_app in Hin as [Hin|Hin]; [tauto|].
    apply list_elem_of_singleton in Hin. discriminate.
Qed.

Lemma delivery_labels_cover days :
  _categorize_delivery_speed days ∈ Spec.delivery_labels.
Proof.
  unfold Spec.delivery_labels.
  destruct days as [d|]; simpl;
    [destruct (d <=? 3); [|destruct (d <=? 7)]|]; set_solver.
Qed.

(** The steps of [load_and_prepare_data] after the sales table is built. *)
Lemma load_and_prepare_data_rows
    (ds : datasets) (sales : DataFrame Sales.t) :
  create_sales_dataset ds = Ok sales ->
  exists sd,
    load_and_prepare_data ds = Ok sd
    /\ columns sd
       = (columns sales ++ ["delivery_speed_days"; "delivery_category"]%string)%list
    /\ map fst (rows sd)
       = map fst (List.filter (fun lr => Spec.is_delivered (snd lr)) (rows sales))
    /\ Forall (fun r =>
                 Sales.order_status r = "delivered"%string
                 /\ Spec.features_hold r
                 /\ exists c,
                      Sales.delivery_category r = Some c
                      /\ c ∈ Spec.delivery_labels
                      /\ Spec.bucket (Sales.delivery_speed_days r) c)
         (values sd).
Proof.
  intros Hrun. unfold load_and_prepare_data. rewrite Hrun. cbn [bind].
  destruct (create_sales_dataset_rows ds sales Hrun) as [Hcols Hrows].
  unfold filter_delivered_orders.
  replace (has_column sales "order_status") with true
    by (unfold has_column; rewrite Hcols; reflexivity).
  cbn [bind].
  set (delivered := getitem_mask sales _).
  assert (Hdc : columns delivered = columns sales) by reflexivity.
  assert (Hdr : Forall (fun lr =>
              (Spec.features_hold (snd lr)
               /\ Spec.converted (Sales.order_delivered_customer_date (snd lr)))
              /\ Sales.order_status (snd lr) = "delivered"%string)
            (rows delivered)).
  { apply Forall_forall. intros lr Hlr. apply list_elem_of_In in Hlr.
    unfold delivered, getitem_mask in Hlr. cbn [rows] in Hlr.
    apply List.filter_In in Hlr as [Hlr Hst].
    apply bool_decide_eq_true in Hst. split; [|exact Hst].
    rewrite Forall_forall in Hrows. apply Hrows.
    apply list_elem_of_In. exact Hlr. }
  destruct (add_delivery_metrics_total delivered) as [sd Hsd].
  { eapply Forall_impl; [exact Hdr|]. intros lr [[Hf Hd] _].
    split; [apply Hf|exact Hd]. }
  exists sd. split; [exact Hsd|].
  assert (Hd : has_column delivered "order_delivered_customer_date" = true)
    by (unfold has_column; rewrite Hdc, Hcols; reflexivity).
  assert (Hp : has_column delivered "order_purchase_timestamp" = true)
    by (unfold has_column; rewrite Hdc, Hcols; reflexivity).
  split.
  { rewrite <- Hdc. apply add_delivery_metrics_columns; try assumption;
      unfold has_column; rewrite Hdc, Hcols; reflexivity. }
  pose proof (add_delivery_metrics_rows delivered sd Hd Hp Hsd) as H2.
  split.
  - change (List.filter (fun lr => Spec.is_delivered (snd lr)) (rows sales))
      with (rows delivered).
    clear - H2. induction H2 as [|lr lr' l l' (days & _ & ->) _ IH]; simpl;
      [reflexivity|f_equal; exact IH].
  - apply rows_values_Forall. clear - H2 Hdr.
    induction H2 as [|lr lr' l l' (days & _ & ->) _ IH]; [constructor|].
    apply Forall_cons in Hdr as [[[Hf _] Hst] Hdr].
    constructor; [|apply IH; exact Hdr]. cbn [snd].
    split; [exact Hst|]. split; [exact Hf|].
    exists (_categorize_delivery_speed days).
    split; [reflexivity|]. split; [apply delivery_labels_cover|].
    apply categorize_bucket.
Qed.




Lemma to_datetime_fixed c : Spec.converted c -> to_datetime c = Ok c.
Proof. destruct c; simpl; [reflexivity|reflexivity|contradiction]. Qed.

Lemma to_datetime_result c c' : to_datetime c = Ok c' -> Spec.converted c'.
Proof.
  destruct c as [|ts|txt]; simpl; intros H; try (inversion H; exact I).
  destruct (Timestamp.parse txt); inversion H; exact I.
Qed.

Lemma set_date_cell_same col c r :
  Sales.date_cell_of col r = Some c -> Sales.set_date_cell col c r = r.
Proof.
  unfold Sales.date_cell_of, Sales.set_date_cell. destruct r; simpl.
  repeat case_bool_decide; intros Hcell; inversion Hcell; reflexivity.
Qed.

Lemma date_cell_of_set col c0 c r :
  Spec.converted c ->
  Spec.column_converted c0 r ->
  Spec.column_converted c0 (Sales.set_date_cell col c r).
Proof.
  unfold Spec.column_converted, Sales.date_cell_of, Sales.set_date_cell.
  intros Hc. repeat case_bool_decide; simplify_eq; simpl; auto.
Qed.

Lemma date_cell_of_set_eq col c r :
  Spec.converted c ->
  Spec.column_converted col (Sales.set_date_cell col c r).
Proof.
  unfold Spec.column_converted, Sales.date_cell_of, Sales.set_date_cell.
  intros Hc. repeat case_bool_decide; simplify_eq; simpl; auto.
Qed.

Lemma traverse_fixed {A} (f : A -> result A) l :
  Forall (fun x => f x = Ok x) l -> traverse f l = Ok l.
Proof.
  induction 1 as [|x l Hx _ IH]; simpl; [reflexivity|].
  rewrite Hx; simpl. rewrite IH. reflexivity.
Qed.

(** An assignment that leaves every row as it is, to columns the frame
    has, leaves the frame as it is. *)
Lemma assign_fixed {R} (df : DataFrame R) cols f :
  forallb (has_column df) cols = true ->
  Forall (fun lr => f (snd lr) = Ok (snd lr)) (rows df) ->
  assign df cols f = Ok df.
Proof.
  intros Hcols Hrows. unfold assign. rewrite traverse_fixed.
  - simpl. f_equal. destruct df as [cs rs]; simpl. f_equal.
    replace (List.filter _ cols) with (@nil string); [apply app_nil_r|].
    symmetry. clear Hrows. induction cols as [|c cols IH]; [reflexivity|].
    simpl in *. apply andb_true_iff in Hcols as [Hc Hcols].
    rewrite Hc. simpl. apply IH. exact Hcols.
  - eapply Forall_impl; [exact Hrows|]. intros [i r] Hr; simpl in *.
    rewrite Hr. reflexivity.
Qed.

Lemma convert_column_fixed df col :
  (has_column df col = true ->
   Forall (fun lr => Spec.column_converted col (snd lr)) (rows df)) ->
  convert_column df col = Ok df.
Proof.
  intros Hconv. unfold convert_column.
  destruct (has_column df col) eqn:Hcol; [|reflexivity].
  apply assign_fixed; [simpl; rewrite Hcol; reflexivity|].
  eapply Forall_impl; [exact (Hconv eq_refl)|]. intros lr Hlr.
  unfold Spec.column_converted in Hlr.
  destruct (Sales.date_cell_of col (snd lr)) as [c|] eqn:Hc; [|reflexivity].
  rewrite (to_datetime_fixed _ Hlr). simpl.
  rewrite (set_date_cell_same _ _ _ Hc). reflexivity.
Qed.

Lemma convert_column_converts df col df' c0 :
  convert_column df col = Ok df' ->
  (c0 = col /\ has_column df col = true
   \/ Forall (fun lr => Spec.column_converted c0 (snd lr)) (rows df)) ->
  Forall (fun lr => Spec.column_converted c0 (snd lr)) (rows df').
Proof.
  unfold convert_column. destruct (has_column df col) eqn:Hcol.
  - intros Hrun Hcase. apply assign_rows in Hrun.
    assert (Hpre : Forall (fun lr => c0 = col
                             \/ Spec.column_converted c0 (snd lr)) (rows df)).
    { destruct Hcase as [[-> _]|Hall].
      - apply Forall_forall. intros; left; reflexivity.
      - eapply Forall_impl; [exact Hall|]. intros; right; assumption. }
    clear Hcase.
    induction Hrun as [|lr lr' l l' (r' & Hr' & ->) _ IH]; [constructor|].
    apply Forall_cons in Hpre as [Hlr Hpre].
    constructor; [|apply IH; exact Hpre]. cbn [snd].
    destruct (Sales.date_cell_of col (snd lr)) as [c|] eqn:Hc.
    + destruct (to_datetime c) as [c'|] eqn:Hc'; simpl in Hr';
        inversion Hr'; subst.
      apply to_datetime_result in Hc'.
      destruct Hlr as [->|Hlr];
        [apply date_cell_of_set_eq|apply date_cell_of_set]; assumption.
    + inversion Hr'; subst. destruct Hlr as [->|Hlr]; [|exact Hlr].
      unfold Spec.column_converted. rewrite Hc. exact I.
  - intros Hrun [[_ Hf]|Hall]; [discriminate|].
    inversion Hrun; subst. exact Hall.
Qed.

Lemma preprocess_dates_converts cols : forall df df',
  preprocess_dates df cols = Ok df' ->
  columns df' = columns df
  /\ (forall c0,
        Forall (fun lr => Spec.column_converted c0 (snd lr)) (rows df) ->
        Forall (fun lr => Spec.column_converted c0 (snd lr)) (rows df'))
  /\ (forall col, In col cols -> has_column df col = true ->
        Forall (fun lr => Spec.column_converted col (snd lr)) (rows df')).
Proof.
  induction cols as [|col cols IH]; intros df df' Hrun; simpl in Hrun.
  - inversion Hrun; subst. split; [reflexivity|]. split; [auto|].
    intros col [].
  - destruct (convert_column df col) as [df1|] eqn:H1; [|discriminate].
    simpl in Hrun. destruct (IH df1 df' Hrun) as (Hc & Hkeep & Hconv).
    pose proof (convert_column_columns _ _ _ H1) as Hc1.
    split; [congruence|]. split.
    + intros c0 Hall. apply Hkeep.
      eapply convert_column_converts; [exact H1|right; exact Hall].
    + intros c [<-|Hin] Hhas.
      * apply Hkeep. eapply convert_column_converts; [exact H1|left; auto].
      * apply Hconv; [exact Hin|]. unfold has_column in *. rewrite Hc1.
        exact Hhas.
Qed.

Lemma preprocess_dates_fixed cols df :
  (forall col, In col cols -> has_column df col = true ->
     Forall (fun lr => Spec.column_converted col (snd lr)) (rows df)) ->
  preprocess_dates df cols = Ok df.
Proof.
  induction cols as [|col cols IH]; intros Hconv; simpl; [reflexivity|].
  rewrite convert_column_fixed by (apply Hconv; left; reflexivity).
  simpl. apply IH. intros c Hin. apply Hconv. right; exact Hin.
Qed.

(** X4.  [preprocess_dates] on a sales table is idempotent.  The names
    it is given are date columns of the table or no columns of the frame:
    converting the same columns of the frame it returned changes nothing,
    and cannot raise.  The date columns it was given are converted in its
    result, the names that are no column of the frame are passed over, and
    the frame has the columns and the labels it had. *)
Theorem preprocess_dates_idempotent
    (df df' : DataFrame Sales.t) (date_columns : list string) :
  forallb (Spec.date_column_or_absent df) date_columns = true ->
  preprocess_dates df date_columns = Ok df' ->
  preprocess_dates df' date_columns = Ok df'
  /\ columns df' = columns df
  /\ map fst (rows df') = map fst (rows df)
  /\ forall col, In col date_columns -> has_column df col = true ->
       col ∈ Spec.date_columns
       /\ Forall (Spec.column_converted col) (values df').
Proof.
  intros Hnames Hrun.
  destruct (preprocess_dates_converts _ _ _ Hrun) as (Hc & _ & Hconv).
  split; [|split; [exact Hc|split]].
  - apply preprocess_dates_fixed. intros col Hin Hhas. apply Hconv; [exact Hin|].
    unfold has_column in *. rewrite <- Hc. exact Hhas.
  - clear Hc Hconv Hnames. revert df df' Hrun.
    induction date_columns as [|col cols IH]; intros df df' Hrun;
      simpl in Hrun; [inversion Hrun; reflexivity|].
    destruct (convert_column df col) as [df1|] eqn:H1; [|discriminate].
    simpl in Hrun. rewrite (IH _ _ Hrun).
    unfold convert_column in H1. destruct (has_column df col);
      [|inversion H1; reflexivity].
    apply assign_rows in H1. clear - H1.
    induction H1 as [|lr lr' l l' (r' & _ & ->) _ IH]; simpl;
      [reflexivity|f_equal; exact IH].
  - intros col Hin Hhas. split.
    + rewrite forallb_forall in Hnames. specialize (Hnames col Hin).
      unfold Spec.date_column_or_absent in Hnames. rewrite Hhas in Hnames.
      cbn [negb] in Hnames. rewrite orb_false_r in Hnames.
      apply bool_decide_eq_true in Hnames. exact Hnames.
    + apply rows_values_Forall. apply Hconv; assumption.
Qed.

Lemma preprocess_dates_idempotent_witness :
  let cols := ["order_purchase_timestamp"; "order_delivered_customer_date";
               "shipping_limit_date"]%string in
  let df := Spec.merged Spec.two_items Spec.one_order in
  forallb (Spec.date_column_or_absent df) cols = true
  /\ exists df',
       preprocess_dates df cols = Ok df'
       /\ preprocess_dates df' cols = Ok df'
       /\ columns df' = columns df
       /\ map fst (rows df') = map fst (rows df)
       /\ forall col, In col cols -> has_column df col = true ->
            col ∈ Spec.date_columns
            /\ Forall (Spec.column_converted col) (values df').
Proof.
  intros cols df.
  assert (Hnames : forallb (Spec.date_column_or_absent df) cols = true)
    by reflexivity.
  split; [exact Hnames|].
  destruct (preprocess_dates df cols) as [df'|] eqn:Hrun;
    [|vm_compute in Hrun; discriminate].
  exists df'. split; [reflexivity|].
  apply (preprocess_dates_idempotent df df' cols Hnames Hrun).
Defined.

End LoaderOutcomes.

(** ** Further results on the date filter *)

Section FilterOutcomes.
Import Py Pandas EcommerceDataLoader.
Context {R : Type}.
Variable cell : string -> R -> option Z.

Lemma getitem_mask_ext (d : DataFrame R) p q :
  (forall r, In r (values d) -> p r = q r) ->
  getitem_mask d p = getitem_mask d q.
Proof.
  intros Hpq. unfold getitem_mask. f_equal. unfold values in Hpq.
  induction (rows d) as [|lr l IH]; [reflexivity|]. simpl.
  rewrite (Hpq (snd lr)) by (left; reflexivity).
  rewrite IH by (intros r Hr; apply Hpq; right; exact Hr). reflexivity.
Qed.

Lemma one_year_mask (d : DataFrame R) dc y r :
  y <> 0 ->
  has_column d (dc ++ "_year")%string = true ->
  date_mask cell (columns d) dc (Some y) (Some y) None None r
  = bool_decide (cell (dc ++ "_year")%string r = Some y).
Proof.
  intros Hy Hcol. unfold has_column in Hcol. unfold date_mask, active.
  rewrite Hcol. clear Hcol.
  replace (truthy (Some y)) with true
    by (simpl; destruct (Z.eqb_spec y 0); [contradiction|reflexivity]).
  cbn [truthy andb]. rewrite !andb_true_r.
  unfold ge_bound, le_bound.
  destruct (cell _ r) as [v|].
  - destruct (decide (v = y)) as [->|Hv].
    + rewrite Z.leb_refl, bool_decide_eq_true_2; reflexivity.
    + rewrite bool_decide_eq_false_2 by congruence.
      destruct (Z.leb_spec y v), (Z.leb_spec v y); try reflexivity. lia.
  - rewrite bool_decide_eq_false_2 by discriminate. reflexivity.
Qed.

(** X5.  With the same year [y] (not 0) as both year bounds and no month
    bound, on a frame that has the year column, the call returns the rows
    whose year cell is exactly [y]; a row without a year is dropped. *)
Theorem filter_by_date_range_one_year
    (h : store) (df : ref) (d : DataFrame R) (date_column : string) (y : Z) :
  h !! df = Some d ->
  y <> 0 ->
  has_column d (date_column ++ "_year")%string = true ->
  Spec.ends_on
    (filter_by_date_range cell df date_column (Some y) (Some y) None None) h
    (getitem_mask d
       (fun r => bool_decide (cell (date_column ++ "_year")%string r = Some y))).
Proof.
  intros Hdf Hy Hcol.
  pose proof (filter_by_date_range_ends_on cell h df d date_column
                (Some y) (Some y) None None Hdf) as Hend.
  rewrite filtered_frame_mask in Hend.
  erewrite getitem_mask_ext in Hend; [exact Hend|].
  intros r _. apply one_year_mask; assumption.
Qed.

(** X6.  When the frame has neither the year column nor the month column
    derived from [date_column], every bound is passed over: the call returns
    a frame equal to its input, whatever the bounds. *)
Theorem filter_by_date_range_without_columns
    (h : store) (df : ref) (d : DataFrame R) (date_column : string)
    (start_year end_year start_month end_month : option Z) :
  h !! df = Some d ->
  has_column d (date_column ++ "_year")%string = false ->
  has_column d (date_column ++ "_month")%string = false ->
  Spec.ends_on
    (filter_by_date_range cell df date_column
       start_year end_year start_month end_month) h d.
Proof.
  intros Hdf Hy Hm.
  pose proof (filter_by_date_range_ends_on cell h df d date_column
                start_year end_year start_month end_month Hdf) as Hend.
  replace (filtered_frame cell d date_column
             start_year end_year start_month end_month) with d in Hend;
    [exact Hend|].
  rewrite filtered_frame_mask. unfold date_mask, active.
  unfold has_column in Hy, Hm. rewrite Hy, Hm, !andb_false_r. cbn [andb].
  unfold getitem_mask. rewrite filter_true. destruct d; reflexivity.
Qed.

Lemma filtered_frame_twice (d : DataFrame R) dc sy ey sm em dc' sy' ey' sm' em' :
  filtered_frame cell (filtered_frame cell d dc sy ey sm em) dc' sy' ey' sm' em'
  = getitem_mask d
      (fun r => date_mask cell (columns d) dc sy ey sm em r
                && date_mask cell (columns d) dc' sy' ey' sm' em' r).
Proof.
  rewrite (filtered_frame_mask cell (filtered_frame cell d dc sy ey sm em)).
  rewrite (filtered_frame_mask cell d). cbn [getitem_mask columns].
  apply getitem_mask_twice.
Qed.

(** X7.  Two calls in a row keep the rows that pass the bounds of both, so
    the order of the two calls does not matter; and one call with year and
    month bounds returns what a call with the year bounds followed by a call
    with the month bounds returns. *)
Theorem filter_by_date_range_composes
    (h : store) (df : ref) (d : DataFrame R) (dc dc' : string)
    (sy ey sm em sy' ey' sm' em' : option Z) :
  h !! df = Some d ->
  (exists d',
     Spec.ends_on
       (bindS (filter_by_date_range cell df dc sy ey sm em)
          (fun r => filter_by_date_range cell r dc' sy' ey' sm' em')) h d'
     /\ Spec.ends_on
          (bindS (filter_by_date_range cell df dc' sy' ey' sm' em')
             (fun r => filter_by_date_range cell r dc sy ey sm em)) h d'
     /\ columns d' = columns d
     /\ forall lr, In lr (rows d') <->
          In lr (rows d)
          /\ Spec.date_mask cell (columns d) dc sy ey sm em (snd lr) = true
          /\ Spec.date_mask cell (columns d) dc' sy' ey' sm' em' (snd lr) = true)
  /\ exists d'',
       Spec.ends_on (filter_by_date_range cell df dc sy ey sm em) h d''
       /\ Spec.ends_on
            (bindS (filter_by_date_range cell df dc sy ey None None)
               (fun r => filter_by_date_range cell r dc None None sm em)) h d''.
Proof.
  intros Hdf.
  assert (Hseq : forall a b c e f a' b' c' e' f',
            Spec.ends_on
              (bindS (filter_by_date_range cell df a b c e f)
                 (fun r => filter_by_date_range cell r a' b' c' e' f')) h
              (filtered_frame cell (filtered_frame cell d a b c e f)
                 a' b' c' e' f')).
  { intros. eapply ends_on_bind;
      [apply filter_by_date_range_ends_on; exact Hdf|].
    intros r' h' Hr'. apply filter_by_date_range_ends_on. exact Hr'. }
  split.
  - exists (filtered_frame cell (filtered_frame cell d dc sy ey sm em)
              dc' sy' ey' sm' em').
    split; [apply Hseq|]. split; [|split].
    + replace (filtered_frame cell (filtered_frame cell d dc sy ey sm em)
                 dc' sy' ey' sm' em')
        with (filtered_frame cell (filtered_frame cell d dc' sy' ey' sm' em')
                dc sy ey sm em); [apply Hseq|].
      rewrite !filtered_frame_twice. apply getitem_mask_ext.
      intros r _. apply andb_comm.
    + rewrite filtered_frame_twice. reflexivity.
    + intros lr. rewrite filtered_frame_twice. cbn [getitem_mask rows].
      rewrite List.filter_In, andb_true_iff. reflexivity.
  - exists (filtered_frame cell d dc sy ey sm em).
    split; [apply filter_by_date_range_ends_on; exact Hdf|].
    replace (filtered_frame cell d dc sy ey sm em)
      with (filtered_frame cell (filtered_frame cell d dc sy ey None None)
              dc None None sm em); [apply Hseq|].
    rewrite filtered_frame_twice, filtered_frame_mask.
    apply getitem_mask_ext. intros r _. unfold date_mask, active.
    cbn [truthy andb]. rewrite !andb_true_r, !andb_assoc. reflexivity.
Qed.

End FilterOutcomes.

Lemma filter_by_date_range_one_year_witness :
  [sample_frame] !! 0%nat = Some sample_frame
  /\ 2024 <> 0
  /\ Pandas.has_column sample_frame
       ("order_purchase_timestamp" ++ "_year")%string = true
  /\ Spec.ends_on
       (EcommerceDataLoader.filter_by_date_range Sales.int_cell 0%nat
          "order_purchase_timestamp" (Some 2024) (Some 2024) None None)
       [sample_frame]
       (Pandas.getitem_mask sample_frame
          (fun r => bool_decide
                      (Sales.int_cell
                         ("order_purchase_timestamp" ++ "_year")%string r
                       = Some 2024))).
Proof.
  assert (Hy : 2024 <> 0) by lia.
  split; [reflexivity|]. split; [exact Hy|]. split; [reflexivity|].
  apply (filter_by_date_range_one_year Sales.int_cell [sample_frame] 0%nat
           sample_frame "order_purchase_timestamp" 2024 eq_refl Hy eq_refl).
Defined.

Lemma filter_by_date_range_without_columns_witness :
  [sample_frame] !! 0%nat = Some sample_frame
  /\ Pandas.has_column sample_frame
       ("order_delivered_customer_date" ++ "_year")%string = false
  /\ Pandas.has_column sample_frame
       ("order_delivered_customer_date" ++ "_month")%string = false
  /\ Spec.ends_on
       (EcommerceDataLoader.filter_by_date_range Sales.int_cell 0%nat
          "order_delivered_customer_date" (Some 2024) (Some 2024)
          (Some 1) (Some 6))
       [sample_frame] sample_frame.
Proof.
  split; [reflexivity|]. split; [reflexivity|]. split; [reflexivity|].
  apply (filter_by_date_range_without_columns Sales.int_cell [sample_frame]
           0%nat sample_frame "order_delivered_customer_date"
           (Some 2024) (Some 2024) (Some 1) (Some 6) eq_refl eq_refl eq_refl).
Defined.

Lemma filter_by_date_range_composes_witness :
  [sample_frame] !! 0%nat = Some sample_frame
  /\ exists d'',
       Spec.ends_on
         (EcommerceDataLoader.filter_by_date_range Sales.int_cell 0%nat
            "order_purchase_timestamp" (Some 2023) (Some 2024)
            (Some 1) (Some 6))
         [sample_frame] d''
       /\ Spec.ends_on
            (EcommerceDataLoader.bindS
               (EcommerceDataLoader.filter_by_date_range Sales.int_cell 0%nat
                  "order_purchase_timestamp" (Some 2023) (Some 2024) None None)
               (fun r =>
                  EcommerceDataLoader.filter_by_date_range Sales.int_cell r
                    "order_purchase_timestamp" None None (Some 1) (Some 6)))
            [sample_frame] d''.
Proof.
  split; [reflexivity|].
  apply (proj2 (filter_by_date_range_composes Sales.int_cell [sample_frame]
                  0%nat sample_frame
                  "order_purchase_timestamp" "order_purchase_timestamp"
                  (Some 2023) (Some 2024) (Some 1) (Some 6)
                  None None None None eq_refl)).
Defined.

(** ** The date filter on the prepared table *)

Section PreparedData.
Import Py Pandas EcommerceDataLoader.

Lemma one_year_of_purchase (d : DataFrame Sales.t) y :
  Forall Spec.features_hold (values d) ->
  getitem_mask d
    (fun r => bool_decide
                (Sales.int_cell ("order_purchase_timestamp" ++ "_year")%string r
                 = Some y))
  = getitem_mask d (Spec.purchased_in y).
Proof.
  intros Hf. apply getitem_mask_ext. intros r Hr.
  rewrite Forall_forall in Hf.
  destruct (Hf r) as (_ & Hy & _); [apply list_elem_of_In, Hr|].
  cbn zeta in Hy. rewrite Hy. unfold Spec.purchased_in.
  destruct (Sales.order_purchase_timestamp r) as [|ts|txt];
    cbn [Spec.derived]; try reflexivity.
  destruct (Z.eqb_spec (Timestamp.year ts) y) as [->|Hne].
  - apply bool_decide_eq_true_2. reflexivity.
  - apply bool_decide_eq_false_2. congruence.
Qed.

(** X8.  On the table [load_and_prepare_data] returns, a call with the
    year [y] (not 0) as both year bounds returns the rows bought in year
    [y], read off the purchase timestamp; rows without one are dropped. *)
Theorem filter_prepared_data_by_year
    (ds : datasets) (sd : DataFrame Sales.t) (h : store) (df : ref) (y : Z) :
  load_and_prepare_data ds = Ok sd ->
  h !! df = Some sd ->
  y <> 0 ->
  Spec.ends_on
    (filter_by_date_range Sales.int_cell df "order_purchase_timestamp"
       (Some y) (Some y) None None) h
    (getitem_mask sd (Spec.purchased_in y)).
Proof.
  intros Hrun Hdf Hy.
  destruct (create_sales_dataset ds) as [sales|e] eqn:Hsales;
    [|unfold load_and_prepare_data in Hrun; rewrite Hsales in Hrun;
      discriminate].
  destruct (load_and_prepare_data_rows ds sales Hsales)
    as (sd' & Hrun' & Hcols & _ & Hrows).
  assert (sd' = sd) by congruence. subst sd'.
  destruct (create_sales_dataset_rows ds sales Hsales) as [Hsc _].
  rewrite Hsc in Hcols.
  pose proof (filter_by_date_range_ends_on Sales.int_cell h df sd
                "order_purchase_timestamp" (Some y) (Some y) None None Hdf)
    as Hend.
  rewrite filtered_frame_mask in Hend.
  rewrite <- one_year_of_purchase.
  - erewrite getitem_mask_ext in Hend; [exact Hend|].
    intros r _. apply one_year_mask; [exact Hy|].
    unfold has_column. rewrite Hcols. reflexivity.
  - eapply Forall_impl; [exact Hrows|]. intros r (_ & Hf & _). exact Hf.
Qed.

Lemma filter_prepared_data_by_year_witness :
  exists sd,
    (load_and_prepare_data Spec.scenario = Ok sd
     /\ [sd] !! 0%nat = Some sd
     /\ 2023 <> 0)
    /\ Spec.ends_on
         (filter_by_date_range Sales.int_cell 0%nat "order_purchase_timestamp"
            (Some 2023) (Some 2023) None None) [sd]
         (getitem_mask sd (Spec.purchased_in 2023)).
Proof.
  destruct (load_and_prepare_data Spec.scenario) as [sd|] eqn:Hrun;
    [|vm_compute in Hrun; discriminate].
  assert (Hy : 2023 <> 0) by lia.
  exists sd. split; [split; [reflexivity|split; [reflexivity|exact Hy]]|].
  apply (filter_prepared_data_by_year Spec.scenario sd [sd] 0%nat 2023
           Hrun eq_refl Hy).
Defined.

End PreparedData.

(** ** Further results on business_metrics.py *)

Section RevenueOutcomes.
Import Py Pandas EcommerceMetrics.

Lemma values_nil {R} (df : DataFrame R) : rows df = [] <-> values df = [].
Proof.
  unfold values. destruct (rows df); simpl; split; congruence.
Qed.

Lemma calculate_revenue_metrics_alone cur cp pp :
  has_column cur "price" = true -> has_column cur "order_id" = true ->
  exists m, calculate_revenue_metrics cur None cp pp = Ok m.
Proof.
  intros Hp Ho.
  unfold calculate_revenue_metrics, price_sum, order_count, order_value_mean,
    getitem.
  rewrite Hp, Ho. cbn [bind andb]. eexists; reflexivity.
Qed.

Lemma calculate_revenue_metrics_KeyError cur comp cp pp :
  has_column cur "price" && has_column cur "order_id" = false ->
  calculate_revenue_metrics cur comp cp pp = Raise KeyError.
Proof.
  intros Hcols.
  unfold calculate_revenue_metrics, price_sum, order_count, order_value_mean,
    getitem.
  destruct (has_column cur "price"); [|reflexivity].
  destruct (has_column cur "order_id"); [discriminate|reflexivity].
Qed.

Lemma calculate_revenue_metrics_comparison_KeyError cur prev cp pp :
  has_column cur "price" = true -> has_column cur "order_id" = true ->
  has_column prev "price" && has_column prev "order_id" = false ->
  calculate_revenue_metrics cur (Some prev) cp pp = Raise KeyError.
Proof.
  intros Hp Ho Hcols.
  unfold calculate_revenue_metrics, price_sum, order_count, order_value_mean,
    getitem.
  rewrite Hp, Ho. cbn [bind andb].
  destruct (has_column prev "price"); [|reflexivity].
  destruct (has_column prev "order_id"); [discriminate|reflexivity].
Qed.

(** X9.  What [calculate_revenue_metrics] does, case by case: KeyError
    when the current table, or the comparison table when one is given, has
    no price or no order_id column; ZeroDivisionError when the comparison
    table has no rows (its order count is the int 0, and the order growth
    divides by it); a dictionary otherwise, also when the comparison revenue
    is 0. *)
Theorem calculate_revenue_metrics_outcome
    (current_data : DataFrame Sales.t)
    (comparison_data : option (DataFrame Sales.t))
    (current_period comparison_period : string) :
  let res := calculate_revenue_metrics current_data comparison_data
               current_period comparison_period in
  if has_column current_data "price" && has_column current_data "order_id"
  then
    match comparison_data with
    | None => exists m, res = Ok m
    | Some prev =>
        if has_column prev "price" && has_column prev "order_id"
        then
          match rows prev with
          | [] => res = Raise ZeroDivisionError
          | _ :: _ => exists m, res = Ok m
          end
        else res = Raise KeyError
    end
  else res = Raise KeyError.
Proof.
  cbn zeta.
  destruct (has_column current_data "price"
            && has_column current_data "order_id") eqn:Hcur;
    [|apply calculate_revenue_metrics_KeyError; exact Hcur].
  apply andb_true_iff in Hcur as [Hp Ho].
  destruct comparison_data as [prev|];
    [|apply calculate_revenue_metrics_alone; assumption].
  destruct (has_column prev "price" && has_column prev "order_id") eqn:Hprev;
    [|apply calculate_revenue_metrics_comparison_KeyError; assumption].
  apply andb_true_iff in Hprev as [Hpp Hpo].
  destruct (rows prev) as [|lr l] eqn:Hrows.
  - apply calculate_revenue_metrics_no_orders; assumption.
  - destruct (calculate_revenue_metrics_growth current_data prev
                current_period comparison_period Hp Ho Hpp Hpo)
      as (m & _ & _ & _ & Hm & _); [rewrite Hrows; discriminate|].
    exists m; exact Hm.
Qed.

Lemma change_pct_same (a : Q) : (Spec.change_pct a a == 0)%Q.
Proof. unfold Spec.change_pct, Qdiv. ring. Qed.

Lemma Qdiv_nonzero (a b : Q) :
  ~ (a == 0)%Q -> ~ (b == 0)%Q -> ~ (a / b == 0)%Q.
Proof.
  intros Ha Hb H0. apply Ha.
  rewrite <- (Qmult_div_r a b Hb). rewrite H0. ring.
Qed.

Lemma order_mean_finite (df : DataFrame Sales.t) :
  rows df <> [] ->
  exists aov,
    Np.mean (map snd (order_totals (values df))) = Np.Finite aov
    /\ (aov == Spec.total_price (values df)
               / inject_Z (Spec.order_number (values df)))%Q.
Proof.
  intros Hne.
  assert (Hv : values df <> []) by (rewrite <- values_nil; exact Hne).
  pose proof (order_ids_nonempty _ Hv) as Hpos.
  pose proof (order_totals_length (values df)) as Hlen.
  unfold Np.mean.
  destruct (map snd (order_totals (values df))) as [|q qs] eqn:Hq.
  { simpl in Hlen. lia. }
  rewrite <- Hq. eexists. split; [reflexivity|].
  rewrite order_totals_length. apply Qdiv_comp; [|reflexivity].
  apply order_totals_sum.
Qed.

(** X10.  With a current table that has rows and a comparison table whose
    revenue is not 0, the three growth entries are finite numbers: the
    change, in percent of the comparison value, of the revenue, of the
    revenue per order, and of the number of orders.  Comparing a table with
    itself gives 0 for all three. *)
Theorem calculate_revenue_metrics_growth_rates
    (cur prev : DataFrame Sales.t) (cp pp : string) :
  has_column cur "price" = true -> has_column cur "order_id" = true ->
  has_column prev "price" = true -> has_column prev "order_id" = true ->
  rows cur <> [] ->
  ~ (Spec.total_price (values prev) == 0)%Q ->
  exists m rg ag og,
    calculate_revenue_metrics cur (Some prev) cp pp = Ok m
    /\ m !! "revenue_growth_rate"%string = Some (PyFloat (Np.Finite rg))
    /\ (rg == Spec.change_pct (Spec.total_price (values cur))
                (Spec.total_price (values prev)))%Q
    /\ m !! "aov_growth_rate"%string = Some (PyFloat (Np.Finite ag))
    /\ (ag == Spec.change_pct
                (Spec.total_price (values cur)
                 / inject_Z (Spec.order_number (values cur)))
                (Spec.total_price (values prev)
                 / inject_Z (Spec.order_number (values prev))))%Q
    /\ m !! "order_growth_rate"%string = Some (PyFloat (Np.Finite og))
    /\ (og == Spec.change_pct (inject_Z (Spec.order_number (values cur)))
                (inject_Z (Spec.order_number (values prev))))%Q
    /\ (values cur = values prev -> (rg == 0 /\ ag == 0 /\ og == 0)%Q).
Proof.
  intros Hp Ho Hpp Hpo Hcur Hrev.
  assert (Hprev : rows prev <> []).
  { intros Hnil. apply Hrev. apply values_nil in Hnil. rewrite Hnil.
    reflexivity. }
  assert (Hn : Spec.order_number (values prev) <> 0).
  { unfold Spec.order_number.
    pose proof (order_ids_nonempty (values prev)
                  ltac:(rewrite <- values_nil; exact Hprev)). lia. }
  destruct (calculate_revenue_metrics_growth cur prev cp pp Hp Ho Hpp Hpo Hprev)
    as (m & vrg & vag & vog & Hm & Hrg & Hmrg & Hag & Hmag & Hog & Hmog).
  destruct (growth_rate_finite (Np.sum (map Sales.price (values cur)))
              (Np.sum (map Sales.price (values prev))) Hrev)
    as (rg & Hrg' & Hrgeq).
  rewrite Hrg' in Hrg. inversion Hrg; subst vrg; clear Hrg.
  destruct (order_mean_finite cur Hcur) as (ac & Hac & Haceq).
  destruct (order_mean_finite prev Hprev) as (ap & Hap & Hapeq).
  assert (Hapne : ~ (ap == 0)%Q).
  { rewrite Hapeq. apply Qdiv_nonzero; [exact Hrev|].
    intros H0. apply Hn. apply inject_Z_injective. exact H0. }
  rewrite Hac, Hap in Hag.
  destruct (growth_rate_finite ac ap Hapne) as (ag & Hag' & Hageq).
  rewrite Hag' in Hag. inversion Hag; subst vag; clear Hag.
  fold (Spec.order_number (values cur)) in Hog.
  fold (Spec.order_number (values prev)) in Hog.
  rewrite (growth_rate_int _ _ Hn) in Hog. inversion Hog; subst vog; clear Hog.
  exists m, rg, ag. eexists.
  split; [exact Hm|]. split; [exact Hmrg|]. split; [exact Hrgeq|].
  split; [exact Hmag|].
  assert (Hageq' :
    (ag == Spec.change_pct
             (Spec.total_price (values cur)
              / inject_Z (Spec.order_number (values cur)))
             (Spec.total_price (values prev)
              / inject_Z (Spec.order_number (values prev))))%Q).
  { rewrite Hageq. unfold Spec.change_pct. rewrite Haceq, Hapeq. reflexivity. }
  split; [exact Hageq'|]. split; [exact Hmog|].
  assert (Hogeq :
    (inject_Z (Spec.order_number (values cur) - Spec.order_number (values prev))
     / inject_Z (Spec.order_number (values prev)) * inject_Z 100
     == Spec.change_pct (inject_Z (Spec.order_number (values cur)))
          (inject_Z (Spec.order_number (values prev))))%Q).
  { unfold Spec.change_pct, Z.sub.
    rewrite inject_Z_plus, inject_Z_opp. reflexivity. }
  split; [exact Hogeq|].
  intros Hsame. rewrite Hrgeq, Hageq', Hogeq. rewrite Hsame.
  repeat split; apply change_pct_same.
Qed.

Lemma calculate_revenue_metrics_growth_rates_witness :
  let cur := Spec.table [Spec.line "o1" "P1" 30 2024 1;
                         Spec.line "o2" "P1" 30 2024 2] in
  let prev := Spec.table [Spec.line "o3" "P1" 40 2023 1] in
  (has_column cur "price" = true /\ has_column cur "order_id" = true
   /\ has_column prev "price" = true /\ has_column prev "order_id" = true
   /\ rows cur <> []
   /\ ~ (Spec.total_price (values prev) == 0)%Q)
  /\ exists m rg ag og,
       calculate_revenue_metrics cur (Some prev) "2024" "2023" = Ok m
       /\ m !! "revenue_growth_rate"%string = Some (PyFloat (Np.Finite rg))
       /\ (rg == Spec.change_pct (Spec.total_price (values cur))
                   (Spec.total_price (values prev)))%Q
       /\ m !! "aov_growth_rate"%string = Some (PyFloat (Np.Finite ag))
       /\ (ag == Spec.change_pct
                   (Spec.total_price (values cur)
                    / inject_Z (Spec.order_number (values cur)))
                   (Spec.total_price (values prev)
                    / inject_Z (Spec.order_number (values prev))))%Q
       /\ m !! "order_growth_rate"%string = Some (PyFloat (Np.Finite og))
       /\ (og == Spec.change_pct (inject_Z (Spec.order_number (values cur)))
                   (inject_Z (Spec.order_number (values prev))))%Q
       /\ (values cur = values prev -> (rg == 0 /\ ag == 0 /\ og == 0)%Q).
Proof.
  intros cur prev.
  assert (Hrows : rows cur <> []) by discriminate.
  assert (Hrev : ~ (Spec.total_price (values prev) == 0)%Q)
    by (vm_compute; discriminate).
  split; [repeat split; try reflexivity; assumption|].
  apply (calculate_revenue_metrics_growth_rates cur prev "2024" "2023"
           eq_refl eq_refl eq_refl eq_refl Hrows Hrev).
Defined.

End RevenueOutcomes.

Section TrendOutcomes.
Import Py Pandas EcommerceMetrics.

(** The columns of the frame [calculate_monthly_trends] returns. *)
Lemma calculate_monthly_trends_columns data year trends :
  calculate_monthly_trends data year = Ok trends ->
  let l := Spec.year_rows data year in
  let t := values trends in
  map month t = month_keys l
  /\ map revenue t = map snd (monthly_revenue l)
  /\ map orders t = map snd (monthly_orders l)
  /\ map avg_order_value t = map snd (monthly_aov l)
  /\ map revenue_growth t
     = growth (map (fun e : Z * Q => Np.Finite (snd e)) (monthly_revenue l))
  /\ map order_growth t
     = growth (map (fun e : Z * Z => Np.of_Z (snd e)) (monthly_orders l))
  /\ map aov_growth t = growth (map snd (monthly_aov l)).
Proof.
  unfold calculate_monthly_trends.
  set (data' := if truthy year
                then getitem_mask data (fun r => bool_decide (Sales.year r = year))
                else data).
  intros Hrun.
  assert (Hdata : (if truthy year
                   then if has_column data "order_purchase_timestamp_year"
                        then Ok (getitem_mask data
                                   (fun r => bool_decide (Sales.year r = year)))
                        else Raise KeyError
                   else Ok data) = Ok data').
  { unfold data'. destruct (truthy year); [|reflexivity].
    destruct (has_column data "order_purchase_timestamp_year");
      [reflexivity|discriminate]. }
  rewrite Hdata in Hrun; cbn [bind] in Hrun.
  assert (Hl : values data' = Spec.year_rows data year).
  { unfold data', Spec.year_rows. destruct (truthy year);
      [apply values_getitem_mask|reflexivity]. }
  rewrite Hl in Hrun. cbn zeta. set (l := Spec.year_rows data year) in *.
  destruct (_ && _); [|discriminate].
  case_bool_decide as Hlen; [|discriminate].
  inversion Hrun; subst trends; clear Hrun.
  destruct Hlen as [L2 L3].
  unfold values; cbn [rows]. rewrite map_snd_range_index.
  assert (L1 : length (map snd (monthly_revenue l))
               = length (map fst (monthly_revenue l)))
    by (rewrite !length_map; reflexivity).
  assert (G1 : length (growth (map (fun e : Z * Q => Np.Finite (snd e))
                                 (monthly_revenue l)))
               = length (map fst (monthly_revenue l)))
    by (rewrite growth_length, !length_map; reflexivity).
  assert (G2 : length (growth (map (fun e : Z * Z => Np.of_Z (snd e))
                                 (monthly_orders l)))
               = length (map fst (monthly_revenue l)))
    by (rewrite growth_length, length_map, <- (length_map snd); exact L2).
  assert (G3 : length (growth (map snd (monthly_aov l)))
               = length (map fst (monthly_revenue l)))
    by (rewrite growth_length; exact L3).
  destruct (trend_rows_columns _ _ _ _ _ _ _ L1 L2 L3 G1 G2 G3)
    as (E1 & E2 & E3 & E4 & E5 & E6 & E7).
  destruct (monthly_revenue_columns l) as [Hrk _].
  split; [rewrite E1; exact Hrk|]. repeat split; assumption.
Qed.

Lemma dated_groups (l : list Sales.t) :
  List.filter (fun r => match Sales.month r with
                        | Some k => bool_decide (k ∈ month_keys l)
                        | None => false
                        end) l
  = Spec.dated l.
Proof.
  unfold Spec.dated. apply List.filter_ext_in. intros r Hr.
  destruct (Sales.month r) as [m|] eqn:Hm; [|reflexivity].
  apply bool_decide_eq_true_2. apply list_elem_of_In.
  apply month_keys_elem. exists r. split; assumption.
Qed.

Lemma month_orders_positive l m :
  In m (month_keys l) ->
  1 <= Z.of_nat (size (Spec.order_ids (Spec.month_rows m l))).
Proof.
  intros Hm. pose proof (month_rows_nonempty l m Hm) as Hne.
  pose proof (order_ids_nonempty _ Hne). lia.
Qed.

(** X11.  The monthly revenues add up to the summed price of the rows that
    have a month: a row without a month is in no month's revenue, and no
    row is counted twice.  Every month of the table has at least one
    order. *)
Theorem calculate_monthly_trends_conserves_revenue
    (data : DataFrame Sales.t) (year : option Z) (trends : DataFrame TrendRow) :
  calculate_monthly_trends data year = Ok trends ->
  (Np.sum (map revenue (values trends))
   == Np.sum (map Sales.price (Spec.dated (Spec.year_rows data year))))%Q
  /\ Forall (fun row => 1 <= orders row) (values trends).
Proof.
  intros Hrun.
  destruct (calculate_monthly_trends_columns data year trends Hrun)
    as (E1 & E2 & E3 & _).
  set (l := Spec.year_rows data year) in *. split.
  - rewrite E2. destruct (monthly_revenue_columns l) as [_ ->].
    unfold Spec.month_rows.
    rewrite <- dated_groups.
    apply (sum_groups Sales.month Sales.price (month_keys l) l).
    apply unique_sorted_NoDup.
  - destruct (monthly_orders_columns l) as [_ Hov]. rewrite Hov, <- E1 in E3.
    apply column_of_key in E3.
    assert (Hin : Forall (fun row => In (month row) (month_keys l))
                    (values trends)).
    { rewrite <- E1. apply Forall_forall. intros row Hrow.
      apply in_map. apply list_elem_of_In. exact Hrow. }
    clear - E3 Hin. induction E3 as [|row t Hrow _ IH]; constructor.
    + rewrite Hrow. apply month_orders_positive.
      apply Forall_cons in Hin as [Hin _]. exact Hin.
    + apply IH. apply Forall_cons in Hin as [_ Hin]. exact Hin.
Qed.

Lemma calculate_monthly_trends_conserves_revenue_witness :
  exists trends,
    calculate_monthly_trends two_months (Some 2024) = Ok trends
    /\ (Np.sum (map revenue (values trends))
        == Np.sum (map Sales.price
                     (Spec.dated (Spec.year_rows two_months (Some 2024%Z)))))%Q
    /\ Forall (fun row => 1 <= orders row) (values trends).
Proof.
  destruct (calculate_monthly_trends two_months (Some 2024)) as [trends|]
    eqn:Hrun; [|vm_compute in Hrun; discriminate].
  exists trends. split; [reflexivity|].
  apply (calculate_monthly_trends_conserves_revenue two_months (Some 2024)
           trends Hrun).
Defined.

Lemma pct_change_from_step (col : list Np.float64) : forall p i a b,
  col !! i = Some a -> col !! S i = Some b ->
  pct_change_from p col !! S i
  = Some (Np.sub (Np.div b a) (Np.Finite 1)).
Proof.
  induction col as [|x col IH]; intros p i a b Ha Hb; [discriminate|].
  destruct i as [|i]; simpl in *.
  - inversion Ha; subst. destruct col as [|y col]; [discriminate|].
    simpl in *. inversion Hb; subst. reflexivity.
  - apply (IH x i a b Ha Hb).
Qed.

Lemma growth_step (col : list Np.float64) i a b :
  col !! i = Some a -> col !! S i = Some b ->
  growth col !! S i = Some (Spec.growth_of b a).
Proof.
  intros Ha Hb. unfold growth, pct_change. rewrite list_lookup_fmap.
  rewrite (pct_change_from_step col Np.NaN i a b Ha Hb). reflexivity.
Qed.

Lemma lookup_column {A B} (f : A -> B) (l : list A) i x :
  l !! i = Some x -> map f l !! i = Some (f x).
Proof. intros Hx. rewrite list_lookup_fmap, Hx. reflexivity. Qed.

Lemma growth_of_finite (x prev : Q) :
  ~ (prev == 0)%Q ->
  exists g,
    Spec.growth_of (Np.Finite x) (Np.Finite prev) = Np.Finite g
    /\ (g == (x / prev - 1) * 100)%Q.
Proof.
  intros Hne. unfold Spec.growth_of, Np.div, Np.sgn.
  destruct (prev ?= 0)%Q eqn:Hc.
  - apply Qeq_alt in Hc. contradiction.
  - eexists; split; reflexivity.
  - eexists; split; reflexivity.
Qed.

Lemma growth_of_zero (x prev : Q) :
  (prev == 0)%Q ->
  Spec.growth_of (Np.Finite x) (Np.Finite prev)
  = match (x ?= 0)%Q with
    | Gt => Np.PosInf
    | Lt => Np.NegInf
    | Eq => Np.NaN
    end.
Proof.
  intros Hz. unfold Spec.growth_of, Np.div, Np.sgn.
  rewrite (proj1 (Qeq_alt prev 0) Hz).
  destruct (x ?= 0)%Q; reflexivity.
Qed.

(** X12.  In the monthly trends, the growth columns of a row are computed
    from the row before it: the value divided by the previous value, minus
    one, times 100.  The order growth is always a finite number, since a
    month of the table has at least one order.  The revenue growth is a
    finite number when the previous month's revenue is not 0; when it is 0
    nothing is raised and the entry is an infinity, or NaN when the month's
    own revenue is 0 as well. *)
Theorem calculate_monthly_trends_growth
    (data : DataFrame Sales.t) (year : option Z) (trends : DataFrame TrendRow)
    (i : nat) (prev row : TrendRow) :
  calculate_monthly_trends data year = Ok trends ->
  values trends !! i = Some prev ->
  values trends !! S i = Some row ->
  revenue_growth row
  = Spec.growth_of (Np.Finite (revenue row)) (Np.Finite (revenue prev))
  /\ aov_growth row
     = Spec.growth_of (avg_order_value row) (avg_order_value prev)
  /\ (exists g,
        order_growth row = Np.Finite g
        /\ (g == (inject_Z (orders row) / inject_Z (orders prev) - 1) * 100)%Q)
  /\ (~ (revenue prev == 0)%Q ->
      exists g,
        revenue_growth row = Np.Finite g
        /\ (g == (revenue row / revenue prev - 1) * 100)%Q)
  /\ ((revenue prev == 0)%Q ->
      revenue_growth row
      = match (revenue row ?= 0)%Q with
        | Gt => Np.PosInf
        | Lt => Np.NegInf
        | Eq => Np.NaN
        end).
Proof.
  intros Hrun Hprev Hrow.
  destruct (calculate_monthly_trends_columns data year trends Hrun)
    as (E1 & E2 & E3 & E4 & E5 & E6 & E7).
  set (l := Spec.year_rows data year) in *.
  assert (Hrg : revenue_growth row
                = Spec.growth_of (Np.Finite (revenue row))
                    (Np.Finite (revenue prev))).
  { pose proof (lookup_column revenue_growth _ _ _ Hrow) as Hg.
    rewrite E5 in Hg.
    rewrite (growth_step _ i (Np.Finite (revenue prev))
               (Np.Finite (revenue row))) in Hg; [congruence| |].
    - rewrite <- (map_map snd Np.Finite), <- E2.
      apply lookup_column, lookup_column. exact Hprev.
    - rewrite <- (map_map snd Np.Finite), <- E2.
      apply lookup_column, lookup_column. exact Hrow. }
  assert (Hog : order_growth row
                = Spec.growth_of (Np.of_Z (orders row)) (Np.of_Z (orders prev))).
  { pose proof (lookup_column order_growth _ _ _ Hrow) as Hg.
    rewrite E6 in Hg.
    rewrite (growth_step _ i (Np.of_Z (orders prev))
               (Np.of_Z (orders row))) in Hg; [congruence| |].
    - rewrite <- (map_map snd Np.of_Z), <- E3.
      apply lookup_column, lookup_column. exact Hprev.
    - rewrite <- (map_map snd Np.of_Z), <- E3.
      apply lookup_column, lookup_column. exact Hrow. }
  assert (Hag : aov_growth row
                = Spec.growth_of (avg_order_value row) (avg_order_value prev)).
  { pose proof (lookup_column aov_growth _ _ _ Hrow) as Hg.
    rewrite E7 in Hg.
    rewrite (growth_step _ i (avg_order_value prev)
               (avg_order_value row)) in Hg; [congruence| |].
    - rewrite <- E4. apply lookup_column. exact Hprev.
    - rewrite <- E4. apply lookup_column. exact Hrow. }
  split; [exact Hrg|]. split; [exact Hag|]. split; [|split].
  - rewrite Hog. unfold Np.of_Z. apply growth_of_finite.
    assert (Hpos : 1 <= orders prev).
    { destruct (monthly_orders_columns l) as [_ Hov].
      rewrite Hov, <- E1 in E3. apply column_of_key in E3.
      rewrite Forall_forall in E3.
      rewrite (E3 prev) by (eapply list_elem_of_lookup_2; exact Hprev).
      apply month_orders_positive. rewrite <- E1. apply in_map.
      apply list_elem_of_In. eapply list_elem_of_lookup_2; exact Hprev. }
    intros H0. apply (inject_Z_injective (orders prev) 0) in H0. lia.
  - intros Hne. rewrite Hrg. apply growth_of_finite. exact Hne.
  - intros Hz. rewrite Hrg. apply growth_of_zero. exact Hz.
Qed.

Lemma calculate_monthly_trends_growth_witness :
  exists trends prev row,
    (calculate_monthly_trends two_months (Some 2024) = Ok trends
     /\ values trends !! 0%nat = Some prev
     /\ values trends !! 1%nat = Some row)
    /\ revenue_growth row
       = Spec.growth_of (Np.Finite (revenue row)) (Np.Finite (revenue prev))
    /\ aov_growth row
       = Spec.growth_of (avg_order_value row) (avg_order_value prev)
    /\ (exists g,
          order_growth row = Np.Finite g
          /\ (g == (inject_Z (orders row) / inject_Z (orders prev) - 1) * 100)%Q)
    /\ (~ (revenue prev == 0)%Q ->
        exists g,
          revenue_growth row = Np.Finite g
          /\ (g == (revenue row / revenue prev - 1) * 100)%Q)
    /\ ((revenue prev == 0)%Q ->
        revenue_growth row
        = match (revenue row ?= 0)%Q with
          | Gt => Np.PosInf
          | Lt => Np.NegInf
          | Eq => Np.NaN
          end).
Proof.
  destruct (calculate_monthly_trends two_months (Some 2024)) as [trends|]
    eqn:Hrun; [|vm_compute in Hrun; discriminate].
  destruct (values trends !! 0%nat) as [prev|] eqn:Hprev;
    [|vm_compute in Hrun; inversion Hrun; subst; discriminate].
  destruct (values trends !! 1%nat) as [row|] eqn:Hrow;
    [|vm_compute in Hrun; inversion Hrun; subst; discriminate].
  exists trends, prev, row.
  split; [split; [reflexivity|split; [exact Hprev|exact Hrow]]|].
  apply (calculate_monthly_trends_growth two_months (Some 2024) trends
           0%nat prev row Hrun Hprev Hrow).
Defined.

End TrendOutcomes.

Section TrendsOfAYear.
Import Py Pandas EcommerceDataLoader EcommerceMetrics.

Lemma getitem_mask_true {R} (d : DataFrame R) : getitem_mask d (fun _ => true) = d.
Proof. unfold getitem_mask. rewrite filter_true. destruct d; reflexivity. Qed.

Lemma filtered_frame_one_year (d : DataFrame Sales.t) (year : option Z) :
  filtered_frame Sales.int_cell d "order_purchase_timestamp" year year None None
  = if truthy year && has_column d "order_purchase_timestamp_year"
    then getitem_mask d (fun r => bool_decide (Sales.year r = year))
    else d.
Proof.
  rewrite filtered_frame_mask.
  destruct (truthy year) eqn:Hy; cbn [andb].
  - destruct (has_column d "order_purchase_timestamp_year") eqn:Hcol.
    + destruct year as [y|]; [|discriminate].
      apply getitem_mask_ext. intros r _. apply one_year_mask; [|exact Hcol].
      intros ->. discriminate.
    + transitivity (getitem_mask d (fun _ => true));
        [|apply getitem_mask_true]. apply getitem_mask_ext.
      intros r _. unfold date_mask, active. unfold has_column in Hcol.
      change ("order_purchase_timestamp" ++ "_year")%string
        with "order_purchase_timestamp_year"%string.
      rewrite Hcol, !andb_false_r. reflexivity.
  - transitivity (getitem_mask d (fun _ => true));
      [|apply getitem_mask_true]. apply getitem_mask_ext.
    intros r _. unfold date_mask, active. rewrite Hy. reflexivity.
Qed.

(** X13.  The year passed to [calculate_monthly_trends] selects the rows
    of that year before anything is grouped, so on a table that
    [filter_by_date_range] has already cut to this year the result is the
    one for the whole table; and a year of 0 is falsy and selects nothing:
    the trends are those of all years together. *)
Theorem calculate_monthly_trends_of_filtered
    (h : store) (df : ref) (d : DataFrame Sales.t) (year : option Z) :
  h !! df = Some d ->
  (exists d',
     Spec.ends_on
       (filter_by_date_range Sales.int_cell df "order_purchase_timestamp"
          year year None None) h d'
     /\ calculate_monthly_trends d' year = calculate_monthly_trends d year)
  /\ calculate_monthly_trends d (Some 0) = calculate_monthly_trends d None.
Proof.
  intros Hdf. split; [|reflexivity].
  exists (filtered_frame Sales.int_cell d "order_purchase_timestamp"
            year year None None).
  split; [apply filter_by_date_range_ends_on; exact Hdf|].
  rewrite filtered_frame_one_year.
  destruct (truthy year) eqn:Hy; cbn [andb]; [|reflexivity].
  destruct (has_column d "order_purchase_timestamp_year") eqn:Hcol;
    [|reflexivity].
  unfold calculate_monthly_trends. rewrite Hy.
  change (has_column (getitem_mask d _) "order_purchase_timestamp_year")
    with (has_column d "order_purchase_timestamp_year").
  rewrite Hcol. rewrite getitem_mask_twice.
  replace (getitem_mask d
             (fun r => bool_decide (Sales.year r = year)
                       && bool_decide (Sales.year r = year)))
    with (getitem_mask d (fun r => bool_decide (Sales.year r = year)));
    [reflexivity|].
  apply getitem_mask_ext. intros r _. rewrite andb_diag. reflexivity.
Qed.

Lemma calculate_monthly_trends_of_filtered_witness :
  [two_months] !! 0%nat = Some two_months
  /\ exists d',
       Spec.ends_on
         (filter_by_date_range Sales.int_cell 0%nat "order_purchase_timestamp"
            (Some 2024) (Some 2024) None None) [two_months] d'
       /\ calculate_monthly_trends d' (Some 2024)
          = calculate_monthly_trends two_months (Some 2024).
Proof.
  split; [reflexivity|].
  apply (proj1 (calculate_monthly_trends_of_filtered [two_months] 0%nat
                  two_months (Some 2024) eq_refl)).
Defined.

End TrendsOfAYear.

Section ProductOutcomes.
Import Py Pandas EcommerceMetrics.

Lemma ones_sum {A} (l : list A) :
  (Np.sum (map (fun _ => 1%Q) l) == inject_Z (Z.of_nat (length l)))%Q.
Proof.
  induction l as [|x l IH]; [reflexivity|].
  cbn [map Np.sum fold_right length]. fold (Np.sum (map (fun _ : A => 1%Q) l)).
  rewrite IH, Nat2Z.inj_succ. unfold Z.succ.
  rewrite inject_Z_plus. ring.
Qed.

Lemma total_inject (l : list Z) :
  (inject_Z (Spec.total l) == Np.sum (map inject_Z l))%Q.
Proof.
  induction l as [|x l IH]; [reflexivity|].
  cbn [Spec.total map Np.sum fold_right].
  fold (Spec.total l). fold (Np.sum (map inject_Z l)).
  rewrite inject_Z_plus, IH. reflexivity.
Qed.

Lemma total_Permutation (l l' : list Z) :
  Permutation l l' -> Spec.total l = Spec.total l'.
Proof.
  induction 1; simpl; lia.
Qed.

(** The groups of [groupby] split the rows that have a key. *)
Lemma groupby_lengths {K R} `{EqDecision K} `{Ord K}
    (key : R -> option K) (l : list R) :
  Spec.total (map (fun kg => Z.of_nat (length (snd kg))) (groupby key l))
  = Z.of_nat (length (List.filter
                        (fun r => match key r with
                                  | Some _ => true
                                  | None => false
                                  end) l)).
Proof.
  apply inject_Z_injective. rewrite total_inject.
  unfold groupby. rewrite !map_map. cbn [snd].
  rewrite <- ones_sum.
  rewrite (sum_map_ext _
             (fun k => Np.sum (map (fun _ => 1%Q) (group_of key k l))))
    by (intros k _; symmetry; apply ones_sum).
  rewrite (sum_groups key (fun _ => 1%Q) (unique_sorted (map key l)) l)
    by apply unique_sorted_NoDup.
  replace (List.filter _ l)
    with (List.filter (fun r => match key r with
                                | Some _ => true
                                | None => false
                                end) l); [reflexivity|].
  apply List.filter_ext_in. intros r Hr.
  destruct (key r) as [k|] eqn:Hk; [|reflexivity].
  symmetry. apply bool_decide_eq_true_2. apply unique_sorted_elem.
  rewrite <- Hk. apply list_elem_of_In. apply in_map. exact Hr.
Qed.

Lemma head_all {A} (n : Z) (l : list A) :
  Z.of_nat (length l) <= n -> head n l = l.
Proof.
  intros Hn. unfold head. destruct (Z.leb_spec 0 n); [|lia].
  apply firstn_all2. lia.
Qed.

Lemma merge_left_length {L R' K O} `{EqDecision K}
    (kl : L -> K) (kr : R' -> K) (join : L -> option R' -> O) left right :
  (length left <= length (merge_left kl kr join left right))%nat
  /\ (NoDup (map kr right) ->
      length (merge_left kl kr join left right) = length left).
Proof.
  unfold merge_left. induction left as [|l left [IH1 IH2]];
    [split; [reflexivity|reflexivity]|].
  cbn [flat_map]. rewrite length_app. cbn [length].
  pose proof (matches_unique kl kr (fun x r => join x (Some r)) l right) as Hm.
  destruct (matches kl kr l right) as [|m ms].
  - cbn [length]. split; [lia|]. intros Hnd. rewrite (IH2 Hnd). reflexivity.
  - rewrite length_map. cbn [length] in *. split; [lia|].
    intros Hnd. rewrite (IH2 Hnd). specialize (Hm Hnd).
    destruct (bool_decide _); lia.
Qed.

(** X14.  When [top_n] is at least the number of products and of
    categories, so that [head] cuts nothing, every joined row is counted
    once in the product table (the items sold add up to the number of joined
    rows) and every joined row that has a category is counted once in the
    category table.  The join has at least one row for each sales row, and
    exactly one when no product id occurs twice in the product table. *)
Theorem analyze_product_performance_counts
    (S : Sorter) (LS : SorterLaws S)
    (sales_data : DataFrame Sales.t) (products_data : DataFrame Product.t)
    (top_n : Z) (res : product_analysis) :
  analyze_product_performance sales_data products_data top_n = Ok res ->
  let sp := merge_products (values sales_data) (values products_data) in
  Z.of_nat (size (Spec.product_ids sp)) <= top_n ->
  Z.of_nat (size (Spec.categories sp)) <= top_n ->
  Spec.total (map p_items_sold (values (product_performance res)))
  = Z.of_nat (length sp)
  /\ Spec.total (map items_sold (values (category_performance res)))
     = Z.of_nat (length (Spec.categorized sp))
  /\ len sales_data <= Z.of_nat (length sp)
  /\ (NoDup (map Product.product_id (values products_data)) ->
      Z.of_nat (length sp) = len sales_data).
Proof.
  intros Hrun sp Hp Hc.
  unfold analyze_product_performance, select in Hrun.
  destruct (forallb (has_column sales_data) _); [|discriminate].
  destruct (forallb (has_column products_data) _); [|discriminate].
  cbn [bind] in Hrun. inversion Hrun; subst res; clear Hrun.
  cbn [category_performance product_performance].
  change (values (mkDataFrame ["product_id"; "price"; "order_id"]%string
                    (rows sales_data))) with (values sales_data).
  change (values (mkDataFrame ["product_id"; "product_category_name"]%string
                    (rows products_data))) with (values products_data).
  fold sp. rewrite !values_range_index.
  rewrite !head_all.
  - split; [|split; [|split]].
    + rewrite (total_Permutation _ _
                 (Permutation_map p_items_sold
                    (sort_values_desc_Permutation p_total_revenue _))).
      rewrite map_map. cbn [product_row p_items_sold].
      unfold product_groups. rewrite groupby_lengths.
      rewrite filter_true. reflexivity.
    + rewrite (total_Permutation _ _
                 (Permutation_map items_sold
                    (sort_values_desc_Permutation total_revenue _))).
      rewrite map_map. cbn [category_row items_sold].
      unfold category_groups. rewrite map_map. cbn [snd].
      rewrite groupby_lengths. reflexivity.
    + unfold len. rewrite <- (length_map snd). fold (values sales_data).
      unfold sp, merge_products.
      pose proof (proj1 (merge_left_length Sales.product_id Product.product_id
                           sales_product (values sales_data)
                           (values products_data))). lia.
    + intros Hnd. unfold len. rewrite <- (length_map snd).
      fold (values sales_data). unfold sp, merge_products.
      rewrite (proj2 (merge_left_length Sales.product_id Product.product_id
                        sales_product (values sales_data)
                        (values products_data)) Hnd). reflexivity.
  - rewrite (Permutation_length (sort_values_desc_Permutation _ _)).
    rewrite length_map, category_groups_length. exact Hc.
  - rewrite (Permutation_length (sort_values_desc_Permutation _ _)).
    rewrite length_map, product_groups_length. exact Hp.
Qed.

Lemma analyze_product_performance_counts_witness :
  exists res,
    let sp := merge_products (values five_categories) (values five_products) in
    (analyze_product_performance (H := stable_sorter)
       five_categories five_products 10 = Ok res
     /\ Z.of_nat (size (Spec.product_ids sp)) <= 10
     /\ Z.of_nat (size (Spec.categories sp)) <= 10)
    /\ Spec.total (map p_items_sold (values (product_performance res)))
       = Z.of_nat (length sp)
    /\ Spec.total (map items_sold (values (category_performance res)))
       = Z.of_nat (length (Spec.categorized sp))
    /\ len five_categories <= Z.of_nat (length sp)
    /\ (NoDup (map Product.product_id (values five_products)) ->
        Z.of_nat (length sp) = len five_categories).
Proof.
  destruct (analyze_product_performance (H := stable_sorter)
              five_categories five_products 10) as [res|] eqn:Hrun;
    [|vm_compute in Hrun; discriminate].
  exists res. cbn zeta.
  assert (Hp : Z.of_nat (size (Spec.product_ids
                                 (merge_products (values five_categories)
                                    (values five_products)))) <= 10)
    by (vm_compute; discriminate).
  assert (Hc : Z.of_nat (size (Spec.categories
                                 (merge_products (values five_categories)
                                    (values five_products)))) <= 10)
    by (vm_compute; discriminate).
  split; [split; [reflexivity|split; [exact Hp|exact Hc]]|].
  apply (analyze_product_performance_counts stable_sorter stable_sorter_laws
           five_categories five_products 10 res Hrun Hp Hc).
Defined.

End ProductOutcomes.

(** ** Further results on dashboard.py *)

Section TrendIndicator.
Import Py EcommerceMetrics Dashboard.

(** X15.  [get_trend_indicator] does not raise on the numbers the metrics
    hold, floats and ints of the 64-bit range: a zero or missing previous
    value is answered before anything is divided, and between such numbers
    no division overflows. *)
Theorem get_trend_indicator_total (current previous : value) :
  Spec.machine_number current ->
  Spec.machine_number previous ->
  exists i, get_trend_indicator current previous = Ok i.
Proof.
  intros _ _. unfold get_trend_indicator.
  destruct (isna current || isna previous || is_zero previous) eqn:Hguard;
    [eexists; reflexivity|].
  apply orb_false_iff in Hguard as [_ Hz].
  assert (Hg : exists g, growth_rate current previous = Ok g).
  { unfold growth_rate, py_truediv.
    destruct current as [x|x], previous as [y|y]; simpl in *;
      try (eexists; reflexivity).
    rewrite Hz. eexists; reflexivity. }
  destruct Hg as [g Hg]. rewrite Hg. cbn [bind].
  destruct (positive g); [eexists; reflexivity|].
  destruct (negative g); eexists; reflexivity.
Qed.

Lemma get_trend_indicator_total_witness :
  (Spec.machine_number (PyInt 120) /\ Spec.machine_number (PyInt 100))
  /\ exists i, get_trend_indicator (PyInt 120) (PyInt 100) = Ok i.
Proof.
  assert (H1 : Spec.machine_number (PyInt 120)) by (simpl; lia).
  assert (H2 : Spec.machine_number (PyInt 100)) by (simpl; lia).
  split; [split; [exact H1|exact H2]|].
  apply (get_trend_indicator_total (PyInt 120) (PyInt 100) H1 H2).
Defined.

Lemma change_pct_sign (c p g : Q) :
  ~ (p == 0)%Q ->
  (g == Spec.change_pct c p)%Q ->
  ((0 < p)%Q -> (g ?= 0)%Q = (c ?= p)%Q)
  /\ ((p < 0)%Q -> (g ?= 0)%Q = (p ?= c)%Q).
Proof.
  intros Hp Hg. unfold Spec.change_pct, Qdiv in Hg.
  pose proof (Qmult_inv_r p Hp) as Hinv.
  set (ip := (/ p)%Q) in *. clearbody ip. split; intros Hsign.
  - assert (Hip : (0 < ip)%Q) by nra.
    destruct (Qcompare_spec c p), (Qcompare_spec g 0);
      try reflexivity; exfalso; nra.
  - assert (Hip : (ip < 0)%Q) by nra.
    destruct (Qcompare_spec p c), (Qcompare_spec g 0);
      try reflexivity; exfalso; nra.
Qed.

(** X16.  For two finite floats, the previous one not 0, the indicator
    shows the change in percent of the previous value: rising when it is
    above 0, falling when it is below, unchanged when it is 0.  With a
    positive previous value this is rising exactly when the current value is
    the larger one; with a negative previous value the direction is the
    other way round. *)
Theorem get_trend_indicator_direction (c p : Q) :
  ~ (p == 0)%Q ->
  exists g,
    (g == Spec.change_pct c p)%Q
    /\ get_trend_indicator (PyFloat (Np.Finite c)) (PyFloat (Np.Finite p))
       = Ok (match (g ?= 0)%Q with
             | Gt => Rising (PyFloat (Np.Finite g))
             | Lt => Falling (PyFloat (Np.Finite g))
             | Eq => Unchanged
             end)
    /\ ((0 < p)%Q -> (g ?= 0)%Q = (c ?= p)%Q)
    /\ ((p < 0)%Q -> (g ?= 0)%Q = (p ?= c)%Q).
Proof.
  intros Hp.
  destruct (growth_rate_finite c p Hp) as (g & Hrun & Hg).
  exists g. split; [exact Hg|]. split; [|apply change_pct_sign; assumption].
  unfold get_trend_indicator. cbn [isna Np.isnan orb is_zero].
  replace (Qeq_bool p 0) with false
    by (symmetry; apply not_true_is_false; intros Hz;
        apply Qeq_bool_iff in Hz; contradiction).
  rewrite Hrun. cbn [bind]. unfold positive, negative. cbn [to_float].
  destruct (Qcompare_spec g 0) as [Hz|Hlt|Hgt].
  - replace (Qle_bool g 0) with true
      by (symmetry; apply Qle_bool_iff; lra).
    replace (Qle_bool 0 g) with true
      by (symmetry; apply Qle_bool_iff; lra).
    reflexivity.
  - replace (Qle_bool g 0) with true
      by (symmetry; apply Qle_bool_iff; lra).
    replace (Qle_bool 0 g) with false
      by (symmetry; apply not_true_is_false; intros Hle;
          apply Qle_bool_iff in Hle; lra).
    reflexivity.
  - replace (Qle_bool g 0) with false
      by (symmetry; apply not_true_is_false; intros Hle;
          apply Qle_bool_iff in Hle; lra).
    reflexivity.
Qed.

Lemma get_trend_indicator_direction_witness :
  ~ (-40 == 0)%Q
  /\ exists g,
       (g == Spec.change_pct (-30) (-40))%Q
       /\ get_trend_indicator (PyFloat (Np.Finite (-30)))
            (PyFloat (Np.Finite (-40)))
          = Ok (match (g ?= 0)%Q with
                | Gt => Rising (PyFloat (Np.Finite g))
                | Lt => Falling (PyFloat (Np.Finite g))
                | Eq => Unchanged
                end)
       /\ ((0 < -40)%Q -> (g ?= 0)%Q = (-30 ?= -40)%Q)
       /\ ((-40 < 0)%Q -> (g ?= 0)%Q = (-40 ?= -30)%Q).
Proof.
  assert (Hp : ~ (-40 == 0)%Q) by (intros H0; discriminate H0).
  split; [exact Hp|].
  apply (get_trend_indicator_direction (-30) (-40) Hp).
Defined.

End TrendIndicator.

(** ** Results on business_metrics.py: operational metrics *)

Section Distinct.
Import Pandas.
Context {A K : Type} `{EqDecision K} (key : A -> K).

Lemma drop_duplicates_In x l : In x (drop_duplicates key l) -> In x l.
Proof.
  induction l as [|y l IH]; simpl; [tauto|].
  intros [->|Hin]; [left; reflexivity|].
  apply List.filter_In in Hin as [Hin _]. right. apply IH. exact Hin.
Qed.

Lemma NoDup_map_filter (p : A -> bool) l :
  NoDup (map key l) -> NoDup (map key (List.filter p l)).
Proof.
  induction l as [|x l IH]; cbn [map List.filter]; [auto|].
  intros Hnd. apply NoDup_cons in Hnd as [Hx Hnd].
  destruct (p x); [|apply IH; exact Hnd].
  cbn [map]. apply NoDup_cons. split; [|apply IH; exact Hnd].
  intros Hin. apply Hx. apply list_elem_of_In in Hin.
  apply in_map_iff in Hin as (z & Hk & Hz).
  apply List.filter_In in Hz as [Hz _].
  apply list_elem_of_In. apply in_map_iff. exists z. split; assumption.
Qed.

Lemma drop_duplicates_keys l :
  NoDup (map key (drop_duplicates key l)).
Proof.
  induction l as [|y l IH]; cbn [drop_duplicates map]; [constructor|].
  apply NoDup_cons. split; [|apply NoDup_map_filter; exact IH].
  intros Hin. apply list_elem_of_In in Hin.
  apply in_map_iff in Hin as (x & Hk & Hin).
  apply List.filter_In in Hin as [_ Hne].
  apply negb_true_iff, bool_decide_eq_false in Hne. contradiction.
Qed.

(** Every key of the list is the key of a row that is kept. *)
Lemma drop_duplicates_covers x l :
  In x l -> exists y, In y (drop_duplicates key l) /\ key y = key x.
Proof.
  induction l as [|z l IH]; simpl; [tauto|].
  intros [->|Hin]; [exists x; split; [left|]; reflexivity|].
  destruct (decide (key x = key z)) as [Heq|Hne].
  - exists z. split; [left; reflexivity|congruence].
  - destruct (IH Hin) as (y & Hy & Hk). exists y. split; [|exact Hk].
    right. apply List.filter_In. split; [exact Hy|].
    apply negb_true_iff, bool_decide_eq_false. congruence.
Qed.
End Distinct.

Section Counts.
Import Pandas.
Context {A : Type} `{EqDecision A}.

Lemma unique_NoDup (l : list A) : NoDup (unique l).
Proof.
  pose proof (drop_duplicates_keys (@id A) l) as Hnd.
  rewrite map_id in Hnd. exact Hnd.
Qed.

Lemma unique_In x (l : list A) : In x (unique l) <-> In x l.
Proof.
  split; [apply drop_duplicates_In|].
  intros Hin. destruct (drop_duplicates_covers (@id A) x l Hin)
    as (y & Hy & Heq). unfold id in Heq. subst y. exact Hy.
Qed.

Lemma count_of_positive x (l : list A) : In x l -> 1 <= count_of x l.
Proof.
  intros Hin. unfold count_of.
  assert (Hf : In x (List.filter (fun y => bool_decide (y = x)) l)).
  { apply List.filter_In. split; [exact Hin|].
    apply bool_decide_eq_true. reflexivity. }
  destruct (List.filter _ l); [destruct Hf|simpl; lia].
Qed.

Lemma count_of_length x (l : list A) : count_of x l <= Z.of_nat (length l).
Proof.
  unfold count_of. pose proof (List.filter_length_le
                                 (fun y => bool_decide (y = x)) l). lia.
Qed.

(** The counts of the distinct values add up to the length of the list. *)
Lemma counts_total (l : list A) :
  (Np.sum (map (fun x => inject_Z (count_of x l)) (unique l))
   == inject_Z (Z.of_nat (length l)))%Q.
Proof.
  rewrite (sum_map_ext _
             (fun k => Np.sum (map (fun _ => 1%Q) (group_of Some k l)))).
  - rewrite (sum_groups Some (fun _ => 1%Q) (unique l) l) by apply unique_NoDup.
    rewrite ones_sum.
    replace (List.filter _ l) with l; [reflexivity|].
    symmetry. rewrite <- (filter_true l) at 2.
    apply List.filter_ext_in. intros r Hr.
    apply bool_decide_eq_true_2. apply list_elem_of_In, unique_In. exact Hr.
  - intros k _. rewrite ones_sum. unfold count_of, group_of.
    replace (List.filter (fun r => bool_decide (Some r = Some k)) l)
      with (List.filter (fun y => bool_decide (y = k)) l); [reflexivity|].
    apply List.filter_ext. intros r.
    destruct (decide (r = k)) as [->|Hne].
    + rewrite !bool_decide_eq_true_2; reflexivity.
    + rewrite !bool_decide_eq_false_2; [reflexivity|congruence|exact Hne].
Qed.

Context {S : Sorter} {LS : SorterLaws S}.

Lemma value_counts_Permutation (l : list A) :
  Permutation (value_counts l) (map (fun x => (x, count_of x l)) (unique l)).
Proof. apply sort_values_desc_Permutation. Qed.

Lemma value_counts_keys (l : list A) : NoDup (map fst (value_counts l)).
Proof.
  rewrite (Permutation_map fst (value_counts_Permutation l)).
  rewrite map_map. cbn [fst]. rewrite map_id. apply unique_NoDup.
Qed.

Lemma value_counts_In x c (l : list A) :
  In (x, c) (value_counts l) <-> In x l /\ c = count_of x l.
Proof.
  split.
  - intros Hin. apply list_elem_of_In in Hin.
    rewrite (value_counts_Permutation l) in Hin.
    apply list_elem_of_In, in_map_iff in Hin as (y & Heq & Hy).
    inversion Heq; subst. split; [apply unique_In; exact Hy|reflexivity].
  - intros [Hx ->]. apply list_elem_of_In.
    rewrite (value_counts_Permutation l).
    apply list_elem_of_In, in_map_iff. exists x.
    split; [reflexivity|apply unique_In; exact Hx].
Qed.

Lemma value_counts_total (l : list A) :
  fold_right Z.add 0 (map snd (value_counts l)) = Z.of_nat (length l).
Proof.
  change (fold_right Z.add 0) with Spec.total.
  rewrite (total_Permutation _ _
             (Permutation_map snd (value_counts_Permutation l))).
  rewrite map_map. cbn [snd].
  apply inject_Z_injective. rewrite total_inject, map_map.
  apply counts_total.
Qed.

Lemma value_counts_normalize_shares (l : list A) :
  value_counts_normalize l
  = map (fun e => (fst e, Np.Finite (Spec.share (fst e) l))) (value_counts l).
Proof.
  unfold value_counts_normalize. cbn zeta. rewrite value_counts_total.
  apply map_ext_in. intros [x c] Hin. cbn [fst snd].
  apply value_counts_In in Hin as [Hx ->]. f_equal.
  unfold Np.div, Np.of_Z, Np.sgn, Spec.share.
  assert (Hlen : (0 < length l)%nat) by (destruct l; [destruct Hx|simpl; lia]).
  destruct (inject_Z (Z.of_nat (length l)) ?= 0)%Q eqn:Hc; [|reflexivity..].
  apply Qeq_alt in Hc. apply (proj1 (inject_Z_injective _ 0)) in Hc. lia.
Qed.
End Counts.

Section Keys.
Import Py Pandas EcommerceMetrics.

Lemma list_ascii_of_append (a b : string) :
  list_ascii_of_string (a ++ b)
  = (list_ascii_of_string a ++ list_ascii_of_string b)%list.
Proof.
  induction a as [|c a IH]; [reflexivity|].
  change (String c a ++ b)%string with (String c (a ++ b)).
  cbn [list_ascii_of_string]. rewrite IH. reflexivity.
Qed.

Lemma append_inj_r (a b s : string) : (a ++ s = b ++ s)%string -> a = b.
Proof.
  intros Heq. apply (f_equal list_ascii_of_string) in Heq.
  rewrite !list_ascii_of_append in Heq. apply app_inv_tail in Heq.
  rewrite <- (string_of_list_ascii_of_string a),
    <- (string_of_list_ascii_of_string b), Heq. reflexivity.
Qed.

(** A key of the form [f'{status}_pct'] ends in the letter t. *)
Lemma pct_key_last (s : string) :
  exists front,
    rev (list_ascii_of_string (s ++ "_pct")) = ("t"%char :: front)%list.
Proof.
  rewrite list_ascii_of_append, rev_app_distr. simpl. eexists; reflexivity.
Qed.

Lemma total_orders_no_pct_key s : "total_orders"%string <> (s ++ "_pct")%string.
Proof.
  intros Heq. destruct (pct_key_last s) as [front Hf].
  rewrite <- Heq in Hf. discriminate Hf.
Qed.

Lemma avg_delivery_days_no_pct_key s :
  "avg_delivery_days"%string <> (s ++ "_pct")%string.
Proof.
  intros Heq. destruct (pct_key_last s) as [front Hf].
  rewrite <- Heq in Hf. discriminate Hf.
Qed.

Lemma update_cons (m : gmap string value) k v es :
  update m ((k, v) :: es) = update (<[k := v]> m) es.
Proof. reflexivity. Qed.

Lemma update_lookup_notin (m : gmap string value) es k :
  ~ In k (map fst es) -> update m es !! k = m !! k.
Proof.
  revert m. induction es as [|[k' v'] es IH]; intros m Hk; [reflexivity|].
  rewrite update_cons.
  rewrite IH by (intros Hin; apply Hk; right; exact Hin).
  apply lookup_insert_ne. intros ->. apply Hk. left; reflexivity.
Qed.

Lemma update_lookup_NoDup (m : gmap string value) es k v :
  NoDup (map fst es) -> In (k, v) es -> update m es !! k = Some v.
Proof.
  revert m. induction es as [|[k' v'] es IH]; intros m Hnd Hin;
    [destruct Hin|].
  cbn [map fst] in Hnd. apply NoDup_cons in Hnd as [Hk' Hnd].
  rewrite update_cons. destruct Hin as [Heq|Hin].
  - inversion Heq; subst.
    rewrite (update_lookup_notin _ es k)
      by (intros Hin; apply Hk', list_elem_of_In; exact Hin).
    apply lookup_insert_eq.
  - apply IH; assumption.
Qed.
End Keys.

Section OperationalMetrics.
Import Py Pandas EcommerceMetrics.
Context {S : Sorter} {LS : SorterLaws S}.

Lemma status_distribution_shares (d : DataFrame Order.t) sd :
  status_distribution d = Ok sd ->
  let statuses := map Order.order_status (values d) in
  sd = map (fun e => (fst e, Np.Finite (Spec.share (fst e) statuses * 100)))
         (value_counts statuses).
Proof.
  unfold status_distribution, getitem.
  destruct (has_column d "order_status"); [|discriminate].
  cbn [bind]. intros Hsd. inversion Hsd; subst sd; clear Hsd. cbn zeta.
  rewrite value_counts_normalize_shares, map_map. reflexivity.
Qed.

Lemma status_keys (d : DataFrame Order.t) sd :
  status_distribution d = Ok sd ->
  let statuses := map Order.order_status (values d) in
  NoDup (map fst sd)
  /\ forall s v, In (s, v) sd <->
       In s statuses /\ v = Np.Finite (Spec.share s statuses * 100).
Proof.
  intros Hsd. cbn zeta. rewrite (status_distribution_shares d sd Hsd).
  split.
  - rewrite map_map. cbn [fst]. apply value_counts_keys.
  - intros s v. rewrite in_map_iff. split.
    + intros ([x c] & Heq & Hin). cbn [fst] in Heq. inversion Heq; subst.
      apply value_counts_In in Hin as [Hx _]. split; [exact Hx|reflexivity].
    + intros [Hs ->]. exists (s, count_of s (map Order.order_status (values d))).
      split; [reflexivity|]. apply value_counts_In. split; [exact Hs|reflexivity].
Qed.

Lemma series_get_status (d : DataFrame Order.t) sd s :
  status_distribution d = Ok sd ->
  let statuses := map Order.order_status (values d) in
  series_get sd s
  = if bool_decide (s ∈ statuses)
    then Some (Np.Finite (Spec.share s statuses * 100))
    else None.
Proof.
  intros Hsd. cbn zeta. destruct (status_keys d sd Hsd) as [_ Hin].
  unfold series_get.
  destruct (List.find _ sd) as [[k v]|] eqn:Hfind.
  - apply find_some in Hfind as [He Hk]. cbn [fst snd] in *.
    apply bool_decide_eq_true in Hk. subst k.
    apply Hin in He as [Hs ->].
    rewrite bool_decide_eq_true_2 by (apply list_elem_of_In; exact Hs).
    reflexivity.
  - rewrite bool_decide_eq_false_2; [reflexivity|]. intros Hs.
    apply list_elem_of_In in Hs.
    pose proof (find_none _ _ Hfind) as Hnone.
    specialize (Hnone (s, Np.Finite
                            (Spec.share s (map Order.order_status (values d))
                             * 100))).
    cbn [fst] in Hnone. rewrite bool_decide_eq_true_2 in Hnone by reflexivity.
    assert (true = false); [|discriminate].
    apply Hnone. apply Hin. split; [exact Hs|reflexivity].
Qed.

Lemma share_bounds {A} `{EqDecision A} (x : A) (l : list A) :
  In x l -> (0 < Spec.share x l * 100 /\ Spec.share x l * 100 <= 100)%Q.
Proof.
  intros Hin. unfold Spec.share.
  pose proof (count_of_positive x l Hin) as Hpos.
  pose proof (count_of_length x l) as Hle.
  set (c := count_of x l) in *. set (n := Z.of_nat (length l)) in *.
  assert (Hn : (0 < inject_Z n)%Q).
  { change (inject_Z 0 < inject_Z n)%Q. rewrite <- Zlt_Qlt. lia. }
  assert (Hc : (0 < inject_Z c)%Q).
  { change (inject_Z 0 < inject_Z c)%Q. rewrite <- Zlt_Qlt. lia. }
  assert (Hcn : (inject_Z c <= inject_Z n)%Q).
  { rewrite <- Zle_Qle. exact Hle. }
  pose proof (Qinv_lt_0_compat _ Hn) as Hinv.
  assert (Hone : (inject_Z n * / inject_Z n == 1)%Q).
  { apply Qmult_inv_r. intros H0. rewrite H0 in Hn. apply (Qlt_irrefl 0 Hn). }
  unfold Qdiv. set (i := (/ inject_Z n)%Q) in *. clearbody i.
  split; nra.
Qed.

(** What the call computed, when it returned. *)
Lemma calculate_operational_metrics_inv orders target_year m :
  calculate_operational_metrics orders target_year = Ok m ->
  exists selected sd avg,
    select_year orders target_year = Ok selected
    /\ status_distribution selected = Ok sd
    /\ avg_delivery_time selected = Ok avg
    /\ m = update
             (update ∅
                [ ("total_orders"%string, PyInt (len selected));
                  ("delivery_rate_pct"%string, rate sd "delivered");
                  ("cancellation_rate_pct"%string, rate sd "canceled");
                  ("return_rate_pct"%string, rate sd "returned");
                  ("avg_delivery_days"%string, avg) ])
             (map (fun e => ((fst e ++ "_pct")%string, PyFloat (snd e))) sd).
Proof.
  unfold calculate_operational_metrics. intros Hrun.
  destruct (select_year orders target_year) as [selected|] eqn:Hsel;
    [|discriminate].
  cbn [bind] in Hrun.
  destruct (status_distribution selected) as [sd|] eqn:Hsd; [|discriminate].
  cbn [bind] in Hrun.
  destruct (avg_delivery_time selected) as [avg|] eqn:Havg; [|discriminate].
  cbn [bind] in Hrun. injection Hrun as <-.
  exists selected, sd, avg. repeat split; assumption.
Qed.

Lemma pct_keys_NoDup (sd : list (string * Np.float64)) :
  NoDup (map fst sd) ->
  NoDup (map fst
           (map (fun e => ((fst e ++ "_pct")%string, PyFloat (snd e))) sd)).
Proof.
  rewrite map_map. cbn [fst]. intros Hnd.
  rewrite <- (map_map fst (fun s => (s ++ "_pct")%string)).
  assert (Hinj : Inj eq eq (fun s : string => (s ++ "_pct")%string))
    by (intros a b; apply append_inj_r).
  apply (NoDup_fmap_2 (fun s : string => (s ++ "_pct")%string)). exact Hnd.
Qed.

Lemma pct_keys_In (sd : list (string * Np.float64)) k :
  In k (map fst
          (map (fun e => ((fst e ++ "_pct")%string, PyFloat (snd e))) sd)) ->
  exists s, k = (s ++ "_pct")%string /\ In s (map fst sd).
Proof.
  rewrite map_map. cbn [fst]. rewrite in_map_iff.
  intros (e & <- & He). exists (fst e). split; [reflexivity|].
  apply in_map. exact He.
Qed.

(** X17.  In the dictionary [calculate_operational_metrics] returns,
    total_orders is the number of orders left after the year selection; for
    each status that occurs among them, '<status>_pct' is the part of the
    orders that have this status, times 100, a number above 0 and at most
    100; over the distinct statuses these entries add up to 100 (in exact
    arithmetic); and a status that does not occur has no '<status>_pct'
    entry at all. *)
Theorem calculate_operational_metrics_shares
    (orders : DataFrame Order.t) (target_year : option Z)
    (m : gmap string value) :
  calculate_operational_metrics orders target_year = Ok m ->
  exists selected,
    select_year orders target_year = Ok selected
    /\ let statuses := map Order.order_status (values selected) in
       m !! "total_orders"%string = Some (PyInt (len selected))
       /\ (forall s, In s statuses ->
             exists q,
               m !! (s ++ "_pct")%string = Some (PyFloat (Np.Finite q))
               /\ (q == Spec.share s statuses * 100)%Q
               /\ (0 < q)%Q /\ (q <= 100)%Q)
       /\ (statuses <> [] ->
           (Np.sum (map (fun s => Spec.float_of (m !! (s ++ "_pct")%string))
                      (unique statuses)) == 100)%Q)
       /\ (forall s, ~ In s statuses ->
             s <> "delivery_rate"%string ->
             s <> "cancellation_rate"%string ->
             s <> "return_rate"%string ->
             m !! (s ++ "_pct")%string = None).
Proof.
  intros Hrun.
  destruct (calculate_operational_metrics_inv orders target_year m Hrun)
    as (selected & sd & avg & Hsel & Hsd & Havg & ->).
  exists selected. split; [exact Hsel|]. cbn zeta.
  destruct (status_keys selected sd Hsd) as [Hnd Hin].
  set (statuses := map Order.order_status (values selected)) in *.
  assert (Hentry : forall s, In s statuses ->
            update
              (update ∅
                 [ ("total_orders"%string, PyInt (len selected));
                   ("delivery_rate_pct"%string, rate sd "delivered");
                   ("cancellation_rate_pct"%string, rate sd "canceled");
                   ("return_rate_pct"%string, rate sd "returned");
                   ("avg_delivery_days"%string, avg) ])
              (map (fun e => ((fst e ++ "_pct")%string, PyFloat (snd e))) sd)
            !! (s ++ "_pct")%string
            = Some (PyFloat (Np.Finite (Spec.share s statuses * 100)))).
  { intros s Hs. apply update_lookup_NoDup; [apply pct_keys_NoDup; exact Hnd|].
    apply in_map_iff.
    exists (s, Np.Finite (Spec.share s statuses * 100)).
    split; [reflexivity|]. apply Hin. split; [exact Hs|reflexivity]. }
  split; [|split; [|split]].
  - rewrite update_lookup_notin.
    + unfold update. cbn [fold_left fst snd].
      rewrite !lookup_insert_ne by discriminate. apply lookup_insert_eq.
    + intros Hk. apply pct_keys_In in Hk as (s & Hk & _).
      exact (total_orders_no_pct_key s Hk).
  - intros s Hs. exists (Spec.share s statuses * 100)%Q.
    split; [apply Hentry; exact Hs|]. split; [reflexivity|].
    apply share_bounds. exact Hs.
  - intros Hne.
    rewrite (sum_map_ext _ (fun s => Spec.share s statuses * 100)%Q).
    + unfold Spec.share.
      rewrite (sum_map_ext _
                 (fun s => inject_Z (count_of s statuses)
                           * (/ inject_Z (Z.of_nat (length statuses)) * 100))%Q)
        by (intros x _; unfold Qdiv; ring).
      assert (Hscale : forall (c : Q) (f : string -> Q) (l : list string),
                (Np.sum (map (fun s => f s * c) l)
                 == Np.sum (map f l) * c)%Q).
      { intros c f l. induction l as [|x l IH]; simpl; [ring|].
        rewrite IH. ring. }
      rewrite Hscale, counts_total.
      assert (Hn : ~ (inject_Z (Z.of_nat (length statuses)) == 0)%Q).
      { intros H0. apply (proj1 (inject_Z_injective _ 0)) in H0.
        destruct statuses; [congruence|simpl in H0; lia]. }
      rewrite Qmult_assoc, Qmult_inv_r by exact Hn. ring.
    + intros s Hs. apply (proj1 (unique_In s statuses)) in Hs.
      rewrite (Hentry s Hs). reflexivity.
  - intros s Hs H1 H2 H3. rewrite update_lookup_notin.
    + unfold update. cbn [fold_left fst snd].
      rewrite lookup_insert_ne
        by (intros Heq; exact (avg_delivery_days_no_pct_key s Heq)).
      rewrite lookup_insert_ne
        by (intros Heq; apply H3; symmetry;
            apply (append_inj_r _ _ "_pct"); exact Heq).
      rewrite lookup_insert_ne
        by (intros Heq; apply H2; symmetry;
            apply (append_inj_r _ _ "_pct"); exact Heq).
      rewrite lookup_insert_ne
        by (intros Heq; apply H1; symmetry;
            apply (append_inj_r _ _ "_pct"); exact Heq).
      rewrite lookup_insert_ne
        by (intros Heq; exact (total_orders_no_pct_key s Heq)).
      apply lookup_empty.
    + intros Hk. apply pct_keys_In in Hk as (s' & Hk & Hs').
      apply append_inj_r in Hk. subst s'. apply Hs.
      apply in_map_iff in Hs' as ([k v] & Hk & He). cbn [fst] in Hk. subst k.
      apply Hin in He as [He _]. exact He.
Qed.

Lemma operational_entry (selected : DataFrame Order.t) sd base s :
  status_distribution selected = Ok sd ->
  let statuses := map Order.order_status (values selected) in
  In s statuses ->
  update base (map (fun e => ((fst e ++ "_pct")%string, PyFloat (snd e))) sd)
  !! (s ++ "_pct")%string
  = Some (PyFloat (Np.Finite (Spec.share s statuses * 100))).
Proof.
  intros Hsd statuses Hs.
  destruct (status_keys selected sd Hsd) as [Hnd Hin].
  apply update_lookup_NoDup; [apply pct_keys_NoDup; exact Hnd|].
  apply in_map_iff.
  exists (s, Np.Finite (Spec.share s statuses * 100)).
  split; [reflexivity|]. apply Hin. split; [exact Hs|reflexivity].
Qed.

Lemma rate_entry (selected : DataFrame Order.t) sd base s :
  status_distribution selected = Ok sd ->
  let statuses := map Order.order_status (values selected) in
  Some (rate sd s)
  = if bool_decide (s ∈ statuses)
    then update base
           (map (fun e => ((fst e ++ "_pct")%string, PyFloat (snd e))) sd)
         !! (s ++ "_pct")%string
    else Some (PyInt 0).
Proof.
  intros Hsd statuses. unfold rate.
  rewrite (series_get_status selected sd s Hsd). fold statuses.
  case_bool_decide as Hs; [|reflexivity].
  rewrite (operational_entry selected sd base s Hsd)
    by (apply list_elem_of_In; exact Hs).
  reflexivity.
Qed.

Lemma delivery_days_spec (l : list Order.t) : forall ps ds days,
  traverse to_datetime (map Order.order_purchase_timestamp l) = Ok ps ->
  traverse to_datetime (map Order.order_delivered_customer_date l) = Ok ds ->
  traverse (fun dp => sub_days (fst dp) (snd dp)) (combine ds ps) = Ok days ->
  days = map Spec.order_days l.
Proof.
  induction l as [|r l IH]; intros ps ds days Hp Hd Hdays.
  - simpl in Hp, Hd. inversion Hp; inversion Hd; subst. simpl in Hdays.
    inversion Hdays. reflexivity.
  - cbn [map traverse] in Hp, Hd.
    destruct (to_datetime (Order.order_purchase_timestamp r)) as [p|] eqn:Hcp;
      [|discriminate].
    destruct (to_datetime (Order.order_delivered_customer_date r)) as [d|]
      eqn:Hcd; [|discriminate].
    cbn [bind] in Hp, Hd.
    destruct (traverse to_datetime (map Order.order_purchase_timestamp l))
      as [ps'|] eqn:Hps; [|discriminate].
    destruct (traverse to_datetime (map Order.order_delivered_customer_date l))
      as [ds'|] eqn:Hds; [|discriminate].
    cbn [bind] in Hp, Hd. inversion Hp; inversion Hd; subst ps ds.
    cbn [combine traverse fst snd] in Hdays.
    destruct (sub_days d p) as [v|] eqn:Hv; [|discriminate].
    cbn [bind] in Hdays.
    destruct (traverse _ (combine ds' ps')) as [days'|] eqn:Hdays';
      [|discriminate].
    cbn [bind] in Hdays. inversion Hdays; subst days.
    cbn [map]. f_equal; [|apply (IH ps' ds' days' eq_refl eq_refl Hdays')].
    unfold Spec.order_days. rewrite Hcp, Hcd.
    pose proof (to_datetime_result _ _ Hcp) as Hp'.
    pose proof (to_datetime_result _ _ Hcd) as Hd'.
    destruct p as [|p|], d as [|d|]; simpl in *; try contradiction;
      inversion Hv; reflexivity.
Qed.

Lemma avg_delivery_time_spec (selected : DataFrame Order.t) avg :
  avg_delivery_time selected = Ok avg ->
  avg = match Spec.delivered_orders (values selected) with
        | [] => PyInt 0
        | _ :: _ =>
            PyFloat (Np.mean
                       (map inject_Z
                          (omap Spec.order_days
                             (Spec.delivered_orders (values selected)))))
        end.
Proof.
  unfold avg_delivery_time, Spec.delivered_orders.
  rewrite <- (values_getitem_mask selected).
  set (delivered := getitem_mask selected _).
  unfold values at 1.
  destruct (rows delivered) as [|lr rs] eqn:Hrows;
    [intros H; inversion H; reflexivity|].
  cbn [map]. unfold getitem.
  destruct (has_column delivered "order_purchase_timestamp"); [|discriminate].
  cbn [bind].
  destruct (traverse to_datetime
              (map Order.order_purchase_timestamp (values delivered)))
    as [ps|] eqn:Hps; [|discriminate].
  cbn [bind].
  destruct (has_column delivered "order_delivered_customer_date");
    [|discriminate].
  cbn [bind].
  destruct (traverse to_datetime
              (map Order.order_delivered_customer_date (values delivered)))
    as [ds|] eqn:Hds; [|discriminate].
  cbn [bind].
  destruct (traverse _ (combine ds ps)) as [days|] eqn:Hdays; [|discriminate].
  cbn [bind]. intros H. inversion H; subst avg.
  rewrite (delivery_days_spec (values delivered) ps ds days Hps Hds Hdays).
  assert (Homap : forall l : list Order.t,
            omap id (map Spec.order_days l) = omap Spec.order_days l).
  { intros l. induction l as [|r l IH]; [reflexivity|].
    cbn [map omap list_omap]. fold (omap id (map Spec.order_days l)).
    fold (omap Spec.order_days l). rewrite IH. reflexivity. }
  rewrite Homap. reflexivity.
Qed.

(** X18.  The delivery entries of the dictionary.  avg_delivery_days is
    the mean, over the delivered orders that have both dates, of the whole
    days from purchase to delivery; it is NaN when no delivered order has
    both dates, and the int 0 when no order is delivered at all.
    delivery_rate_pct, cancellation_rate_pct and return_rate_pct repeat the
    entries 'delivered_pct', 'canceled_pct' and 'returned_pct' when these
    statuses occur, and are the int 0 when they do not (unless a status
    itself is named 'delivery_rate', 'cancellation_rate' or 'return_rate',
    whose own entry then takes the place). *)
Theorem calculate_operational_metrics_delivery
    (orders : DataFrame Order.t) (target_year : option Z)
    (m : gmap string value) (selected : DataFrame Order.t) :
  calculate_operational_metrics orders target_year = Ok m ->
  select_year orders target_year = Ok selected ->
  let l := values selected in
  let statuses := map Order.order_status l in
  m !! "avg_delivery_days"%string
  = Some (match Spec.delivered_orders l with
          | [] => PyInt 0
          | _ :: _ =>
              PyFloat (Np.mean
                         (map inject_Z
                            (omap Spec.order_days (Spec.delivered_orders l))))
          end)
  /\ (~ In "delivery_rate"%string statuses ->
      m !! "delivery_rate_pct"%string
      = if bool_decide ("delivered"%string ∈ statuses)
        then m !! "delivered_pct"%string
        else Some (PyInt 0))
  /\ (~ In "cancellation_rate"%string statuses ->
      m !! "cancellation_rate_pct"%string
      = if bool_decide ("canceled"%string ∈ statuses)
        then m !! "canceled_pct"%string
        else Some (PyInt 0))
  /\ (~ In "return_rate"%string statuses ->
      m !! "return_rate_pct"%string
      = if bool_decide ("returned"%string ∈ statuses)
        then m !! "returned_pct"%string
        else Some (PyInt 0)).
Proof.
  intros Hrun Hsel.
  destruct (calculate_operational_metrics_inv orders target_year m Hrun)
    as (selected' & sd & avg & Hsel' & Hsd & Havg & ->).
  assert (selected' = selected) by congruence. subst selected'. cbn zeta.
  destruct (status_keys selected sd Hsd) as [Hnd Hin].
  set (statuses := map Order.order_status (values selected)) in *.
  assert (Hfixed : forall key s,
            key = (s ++ "_pct")%string ->
            ~ In s statuses ->
            ~ In key
                (map fst
                   (map (fun e => ((fst e ++ "_pct")%string, PyFloat (snd e)))
                      sd))).
  { intros key s -> Hs Hk. apply pct_keys_In in Hk as (s' & Hk & Hs').
    apply append_inj_r in Hk. subst s'. apply Hs.
    apply in_map_iff in Hs' as ([k v] & Hk & He). cbn [fst] in Hk. subst k.
    apply Hin in He as [He _]. exact He. }
  split; [|split; [|split]].
  - rewrite update_lookup_notin.
    + unfold update. cbn [fold_left fst snd]. rewrite lookup_insert_eq.
      f_equal. apply avg_delivery_time_spec. exact Havg.
    + intros Hk. apply pct_keys_In in Hk as (s & Hk & _).
      exact (avg_delivery_days_no_pct_key s Hk).
  - intros Hs.
    rewrite update_lookup_notin by (apply (Hfixed _ "delivery_rate"%string);
                                    [reflexivity|exact Hs]).
    unfold update at 1. cbn [fold_left fst snd].
    rewrite !lookup_insert_ne by discriminate. rewrite lookup_insert_eq.
    apply (rate_entry selected sd _ "delivered" Hsd).
  - intros Hs.
    rewrite update_lookup_notin
      by (apply (Hfixed _ "cancellation_rate"%string); [reflexivity|exact Hs]).
    unfold update at 1. cbn [fold_left fst snd].
    rewrite !lookup_insert_ne by discriminate. rewrite lookup_insert_eq.
    apply (rate_entry selected sd _ "canceled" Hsd).
  - intros Hs.
    rewrite update_lookup_notin
      by (apply (Hfixed _ "return_rate"%string); [reflexivity|exact Hs]).
    unfold update at 1. cbn [fold_left fst snd].
    rewrite !lookup_insert_ne by discriminate. rewrite lookup_insert_eq.
    apply (rate_entry selected sd _ "returned" Hsd).
Qed.

Lemma purchase_year_is_spec ty r b :
  purchase_year_is ty r = Ok b -> b = bool_decide (Spec.order_year r = ty).
Proof.
  unfold purchase_year_is, Spec.order_year.
  destruct (to_datetime (Order.order_purchase_timestamp r)) as [c|] eqn:Hc;
    [|discriminate].
  pose proof (to_datetime_result _ _ Hc) as Hconv. cbn [bind].
  destruct c as [|ts|txt]; simpl in *; try contradiction;
    intros Hb; inversion Hb; reflexivity.
Qed.

Lemma select_year_values orders ty selected :
  select_year orders ty = Ok selected ->
  columns selected = columns orders
  /\ values selected
     = if truthy ty
       then List.filter (fun r => bool_decide (Spec.order_year r = ty))
              (values orders)
       else values orders.
Proof.
  unfold select_year. destruct (truthy ty);
    [|intros H; inversion H; split; reflexivity].
  destruct (has_column orders "order_purchase_timestamp"); [|discriminate].
  destruct (traverse _ (rows orders)) as [mask|] eqn:Hmask; [|discriminate].
  cbn [bind]. intros H. inversion H; subst selected; clear H.
  split; [reflexivity|]. unfold values. cbn [rows].
  apply traverse_Forall2 in Hmask.
  induction Hmask as [|lr b l mask Hb _ IH]; [reflexivity|].
  apply purchase_year_is_spec in Hb. cbn [combine List.filter snd map].
  rewrite <- Hb. destruct b; cbn [map fst]; rewrite IH; reflexivity.
Qed.

(** Without a year, the average delivery time is computed from the
    columns of the table and the delivered orders alone. *)
Lemma avg_delivery_time_delivered (d d' : DataFrame Order.t) :
  columns d' = columns d ->
  Spec.delivered_orders (values d') = Spec.delivered_orders (values d) ->
  avg_delivery_time d' = avg_delivery_time d.
Proof.
  intros Hc Hv. unfold avg_delivery_time.
  unfold Spec.delivered_orders in Hv.
  rewrite <- !values_getitem_mask in Hv.
  assert (Hcols : columns (getitem_mask d'
                    (fun r => bool_decide
                                (Order.order_status r = "delivered"%string)))
                  = columns (getitem_mask d
                      (fun r => bool_decide
                                  (Order.order_status r = "delivered"%string))))
    by exact Hc.
  revert Hv Hcols.
  generalize (getitem_mask d'
                (fun r => bool_decide
                            (Order.order_status r = "delivered"%string))).
  generalize (getitem_mask d
                (fun r => bool_decide
                            (Order.order_status r = "delivered"%string))).
  intros [c r] [c' r']. unfold getitem, has_column, values. cbn [columns rows].
  intros Hv ->.
  destruct r as [|x r], r' as [|x' r']; try discriminate Hv; [reflexivity|].
  rewrite Hv. reflexivity.
Qed.

(** X19.  What [calculate_operational_metrics] reads of its table.  A
    year of 0 is falsy: the call is the one without a year.  A year that is
    given selects the orders whose purchase timestamp lies in it; without
    the purchase column the call raises KeyError.  Without a year, the call
    raises KeyError when the status column is missing; it returns without
    reading any date when no order is delivered, avg_delivery_days being the
    int 0; and its result is that of any table with the same columns, the
    same status column and the same delivered orders, so the dates of an
    order that is not delivered are never looked at. *)
Theorem calculate_operational_metrics_outcome
    (orders : DataFrame Order.t) (target_year : option Z) :
  calculate_operational_metrics orders (Some 0)
  = calculate_operational_metrics orders None
  /\ (forall selected,
        select_year orders target_year = Ok selected ->
        columns selected = columns orders
        /\ values selected
           = if truthy target_year
             then List.filter
                    (fun r => bool_decide (Spec.order_year r = target_year))
                    (values orders)
             else values orders)
  /\ (truthy target_year = true ->
      has_column orders "order_purchase_timestamp" = false ->
      calculate_operational_metrics orders target_year = Raise KeyError)
  /\ (truthy target_year = false ->
      has_column orders "order_status" = false ->
      calculate_operational_metrics orders target_year = Raise KeyError)
  /\ (truthy target_year = false ->
      has_column orders "order_status" = true ->
      Spec.delivered_orders (values orders) = [] ->
      exists m,
        calculate_operational_metrics orders target_year = Ok m
        /\ m !! "avg_delivery_days"%string = Some (PyInt 0))
  /\ (forall orders',
        truthy target_year = false ->
        columns orders' = columns orders ->
        map Order.order_status (values orders')
        = map Order.order_status (values orders) ->
        Spec.delivered_orders (values orders')
        = Spec.delivered_orders (values orders) ->
        calculate_operational_metrics orders' target_year
        = calculate_operational_metrics orders target_year).
Proof.
  split; [reflexivity|]. split; [apply select_year_values|].
  split; [|split; [|split]].
  - intros Hy Hp. unfold calculate_operational_metrics, select_year.
    rewrite Hy, Hp. reflexivity.
  - intros Hy Hs. unfold calculate_operational_metrics, select_year.
    rewrite Hy. cbn [bind]. unfold status_distribution, getitem.
    rewrite Hs. reflexivity.
  - intros Hy Hs Hnone. unfold calculate_operational_metrics, select_year.
    rewrite Hy. cbn [bind]. unfold status_distribution, getitem.
    rewrite Hs. cbn [bind].
    assert (Havg : avg_delivery_time orders = Ok (PyInt 0)).
    { unfold avg_delivery_time. unfold Spec.delivered_orders in Hnone.
      rewrite <- values_getitem_mask in Hnone. unfold values in Hnone.
      destruct (rows (getitem_mask orders _)); [reflexivity|discriminate]. }
    rewrite Havg. cbn [bind]. eexists. split; [reflexivity|].
    rewrite update_lookup_notin.
    + unfold update. cbn [fold_left fst snd]. apply lookup_insert_eq.
    + intros Hk. apply pct_keys_In in Hk as (s & Hk & _).
      exact (avg_delivery_days_no_pct_key s Hk).
  - intros orders' Hy Hc Hst Hdel.
    unfold calculate_operational_metrics, select_year.
    rewrite Hy. cbn [bind].
    rewrite (avg_delivery_time_delivered orders orders' Hc Hdel).
    assert (Hlen : len orders' = len orders).
    { unfold len. f_equal.
      rewrite <- (length_map snd (rows orders')),
        <- (length_map snd (rows orders)).
      fold (values orders'). fold (values orders).
      rewrite <- (length_map Order.order_status (values orders')), Hst.
      apply length_map. }
    rewrite Hlen.
    unfold status_distribution, getitem, has_column. rewrite Hc, Hst.
    reflexivity.
Qed.

End OperationalMetrics.

Lemma calculate_operational_metrics_shares_witness :
  exists m,
    EcommerceMetrics.calculate_operational_metrics (H := Pandas.stable_sorter)
      four_orders (Some 2023) = Py.Ok m
    /\ exists selected,
         EcommerceMetrics.select_year four_orders (Some 2023) = Py.Ok selected
         /\ let statuses := map Order.order_status (Pandas.values selected) in
            m !! "total_orders"%string
            = Some (EcommerceMetrics.PyInt (Pandas.len selected))
            /\ (forall s, In s statuses ->
                  exists q,
                    m !! (s ++ "_pct")%string
                    = Some (EcommerceMetrics.PyFloat (Np.Finite q))
                    /\ (q == Spec.share s statuses * 100)%Q
                    /\ (0 < q)%Q /\ (q <= 100)%Q)
            /\ (statuses <> [] ->
                (Np.sum (map (fun s =>
                                Spec.float_of (m !! (s ++ "_pct")%string))
                           (Pandas.unique statuses)) == 100)%Q)
            /\ (forall s, ~ In s statuses ->
                  s <> "delivery_rate"%string ->
                  s <> "cancellation_rate"%string ->
                  s <> "return_rate"%string ->
                  m !! (s ++ "_pct")%string = None).
Proof.
  destruct (EcommerceMetrics.calculate_operational_metrics
              (H := Pandas.stable_sorter) four_orders (Some 2023))
    as [m|] eqn:Hrun; [|vm_compute in Hrun; discriminate].
  exists m. split; [reflexivity|].
  apply (calculate_operational_metrics_shares (S := Pandas.stable_sorter)
           four_orders (Some 2023) m Hrun).
Defined.

Lemma calculate_operational_metrics_delivery_witness :
  exists m selected,
    (EcommerceMetrics.calculate_operational_metrics (H := Pandas.stable_sorter)
       four_orders (Some 2023) = Py.Ok m
     /\ EcommerceMetrics.select_year four_orders (Some 2023) = Py.Ok selected)
    /\ let l := Pandas.values selected in
       let statuses := map Order.order_status l in
       m !! "avg_delivery_days"%string
       = Some (match Spec.delivered_orders l with
               | [] => EcommerceMetrics.PyInt 0
               | _ :: _ =>
                   EcommerceMetrics.PyFloat
                     (Np.mean
                        (map inject_Z
                           (omap Spec.order_days (Spec.delivered_orders l))))
               end)
       /\ (~ In "delivery_rate"%string statuses ->
           m !! "delivery_rate_pct"%string
           = if bool_decide ("delivered"%string ∈ statuses)
             then m !! "delivered_pct"%string
             else Some (EcommerceMetrics.PyInt 0))
       /\ (~ In "cancellation_rate"%string statuses ->
           m !! "cancellation_rate_pct"%string
           = if bool_decide ("canceled"%string ∈ statuses)
             then m !! "canceled_pct"%string
             else Some (EcommerceMetrics.PyInt 0))
       /\ (~ In "return_rate"%string statuses ->
           m !! "return_rate_pct"%string
           = if bool_decide ("returned"%string ∈ statuses)
             then m !! "returned_pct"%string
             else Some (EcommerceMetrics.PyInt 0)).
Proof.
  destruct (EcommerceMetrics.calculate_operational_metrics
              (H := Pandas.stable_sorter) four_orders (Some 2023))
    as [m|] eqn:Hrun; [|vm_compute in Hrun; discriminate].
  destruct (EcommerceMetrics.select_year four_orders (Some 2023))
    as [selected|] eqn:Hsel; [|vm_compute in Hsel; discriminate].
  exists m, selected. split; [split; reflexivity|].
  apply (calculate_operational_metrics_delivery (S := Pandas.stable_sorter)
           four_orders (Some 2023) m selected Hrun Hsel).
Defined.

Lemma calculate_operational_metrics_outcome_witness :
  exists selected,
    EcommerceMetrics.select_year four_orders (Some 2023) = Py.Ok selected
    /\ Pandas.columns selected = Pandas.columns four_orders
    /\ Pandas.values selected
       = List.filter
           (fun r => bool_decide (Spec.order_year r = Some 2023))
           (Pandas.values four_orders).
Proof.
  destruct (EcommerceMetrics.select_year four_orders (Some 2023))
    as [selected|] eqn:Hsel; [|vm_compute in Hsel; discriminate].
  exists selected. split; [reflexivity|].
  apply (proj1 (proj2 (calculate_operational_metrics_outcome
                         (S := Pandas.stable_sorter)
                         four_orders (Some 2023))) selected Hsel).
Defined.

(** A canceled order whose dates cannot be read: without a year the call
    returns, and counts the order. *)
Example operational_metrics_of_a_canceled_order :
  match EcommerceMetrics.calculate_operational_metrics
          (H := Pandas.stable_sorter) Spec.one_canceled_order None with
  | Py.Ok m =>
      (m !! "total_orders"%string, m !! "avg_delivery_days"%string)
  | Py.Raise _ => (None, None)
  end
  = (Some (EcommerceMetrics.PyInt 1), Some (EcommerceMetrics.PyInt 0)).
Proof. vm_compute. reflexivity. Qed.

(** ** Results on business_metrics.py: customer satisfaction *)

Section FirstRows.
Import Pandas.
Context {A K : Type} `{EqDecision K} (key : A -> K).

(** A row that is kept is the first row of its key. *)
Lemma drop_duplicates_first x l :
  In x (drop_duplicates key l) ->
  List.find (fun y => bool_decide (key y = key x)) l = Some x.
Proof.
  induction l as [|z l IH]; cbn [drop_duplicates List.find]; [intros []|].
  intros [->|Hin].
  - rewrite bool_decide_eq_true_2 by reflexivity. reflexivity.
  - apply List.filter_In in Hin as [Hin Hne].
    apply negb_true_iff, bool_decide_eq_false in Hne.
    rewrite bool_decide_eq_false_2 by congruence. apply IH. exact Hin.
Qed.

Lemma drop_duplicates_find x l :
  In x (drop_duplicates key l) <->
  List.find (fun y => bool_decide (key y = key x)) l = Some x.
Proof.
  split; [apply drop_duplicates_first|]. intros Hfind.
  pose proof (find_some _ _ Hfind) as [Hin _].
  destruct (drop_duplicates_covers key x l Hin) as (y & Hy & Hk).
  pose proof (drop_duplicates_first y l Hy) as Hfy.
  rewrite Hk in Hfy. rewrite Hfind in Hfy. inversion Hfy; subst. exact Hy.
Qed.

Lemma map_filter_comm {B} (f : B -> A) (p : A -> bool) (l : list B) :
  map f (List.filter (fun b => p (f b)) l) = List.filter p (map f l).
Proof.
  induction l as [|b l IH]; [reflexivity|].
  cbn [List.filter map]. destruct (p (f b)); cbn [map]; rewrite IH; reflexivity.
Qed.

Lemma drop_duplicates_map {B} (f : B -> A) (l : list B) :
  map f (drop_duplicates (fun b => key (f b)) l) = drop_duplicates key (map f l).
Proof.
  induction l as [|b l IH]; [reflexivity|].
  cbn [drop_duplicates map]. f_equal. rewrite <- IH.
  apply (map_filter_comm f
           (fun y : A => negb (@bool_decide (key y = key (f b))
                                 (decide_rel eq (key y) (key (f b)))))).
Qed.

Lemma find_app (p : A -> bool) l1 l2 :
  List.find p (l1 ++ l2)
  = match List.find p l1 with
    | Some x => Some x
    | None => List.find p l2
    end.
Proof.
  induction l1 as [|x l1 IH]; [reflexivity|].
  cbn [app List.find]. destruct (p x); [reflexivity|exact IH].
Qed.
End FirstRows.

Section Satisfaction.
Import Py Pandas EcommerceMetrics.

Lemma merge_reviews_values sales reviews :
  map snd (merge_reviews sales reviews)
  = drop_duplicates sr_order_id
      (merge_inner Sales.order_id Review.order_id sales_review sales reviews).
Proof.
  unfold merge_reviews.
  rewrite (drop_duplicates_map sr_order_id snd). rewrite map_snd_range_index.
  reflexivity.
Qed.

Lemma matches_reviews s reviews :
  matches Sales.order_id Review.order_id s reviews
  = List.filter (fun r => bool_decide (Review.order_id r = Sales.order_id s))
      reviews.
Proof.
  unfold matches. apply List.filter_ext. intros r.
  destruct (decide (Sales.order_id s = Review.order_id r)) as [Heq|Hne].
  - rewrite !bool_decide_eq_true_2; congruence.
  - rewrite !bool_decide_eq_false_2; congruence.
Qed.

Lemma find_block o s (rs : list Review.t) :
  List.find (fun y => bool_decide (sr_order_id y = o))
    (map (sales_review s) rs)
  = if bool_decide (Sales.order_id s = o)
    then match rs with
         | r :: _ => Some (sales_review s r)
         | [] => None
         end
    else None.
Proof.
  case_bool_decide as Hs.
  - destruct rs as [|r rs]; [reflexivity|]. cbn [map List.find].
    rewrite bool_decide_eq_true_2 by exact Hs. reflexivity.
  - induction rs as [|r rs IH]; [reflexivity|]. cbn [map List.find].
    rewrite bool_decide_eq_false_2 by exact Hs. exact IH.
Qed.

(** The first joined row of an order pairs its first sales row with its
    first review. *)
Lemma find_first_review o sales reviews :
  List.find (fun y => bool_decide (sr_order_id y = o))
    (merge_inner Sales.order_id Review.order_id sales_review sales reviews)
  = Spec.first_review o sales reviews.
Proof.
  unfold merge_inner, Spec.first_review.
  induction sales as [|s sales IH]; [reflexivity|].
  cbn [flat_map List.filter]. rewrite find_app, find_block, IH.
  rewrite matches_reviews.
  case_bool_decide as Hs; [|reflexivity]. subst o.
  destruct (List.filter _ reviews) as [|r rs]; [|reflexivity].
  destruct (List.filter _ sales); reflexivity.
Qed.

Lemma first_review_order o sales reviews r :
  Spec.first_review o sales reviews = Some r -> sr_order_id r = o.
Proof.
  unfold Spec.first_review.
  destruct (List.filter _ sales) as [|s ss] eqn:Hs; [discriminate|].
  destruct (List.filter _ reviews) as [|rv rs]; [discriminate|].
  intros Hr. inversion Hr; subst. cbn [sales_review sr_order_id].
  assert (Hin : In s (List.filter
                        (fun s => bool_decide (Sales.order_id s = o)) sales))
    by (rewrite Hs; left; reflexivity).
  apply List.filter_In in Hin as [_ Hin]. apply bool_decide_eq_true in Hin.
  exact Hin.
Qed.

Lemma first_review_exists o sales reviews :
  (exists r, Spec.first_review o sales reviews = Some r) <->
  In o (map Sales.order_id sales) /\ In o (map Review.order_id reviews).
Proof.
  unfold Spec.first_review. rewrite !in_map_iff. split.
  - intros [r Hr].
    destruct (List.filter _ sales) as [|s ss] eqn:Hs; [discriminate|].
    destruct (List.filter _ reviews) as [|rv rs] eqn:Hrv; [discriminate|].
    assert (Hin : In s (s :: ss)) by (left; reflexivity).
    assert (Hin' : In rv (rv :: rs)) by (left; reflexivity).
    rewrite <- Hs in Hin. rewrite <- Hrv in Hin'.
    apply List.filter_In in Hin as [Hin Hk]. apply bool_decide_eq_true in Hk.
    apply List.filter_In in Hin' as [Hin' Hk'].
    apply bool_decide_eq_true in Hk'. split; eauto.
  - intros [(s & Hk & Hin) (rv & Hk' & Hin')].
    assert (Hs : In s (List.filter
                         (fun s => bool_decide (Sales.order_id s = o)) sales))
      by (apply List.filter_In; split;
          [exact Hin|apply bool_decide_eq_true; exact Hk]).
    assert (Hrv : In rv (List.filter
                           (fun r => bool_decide (Review.order_id r = o))
                           reviews))
      by (apply List.filter_In; split;
          [exact Hin'|apply bool_decide_eq_true; exact Hk']).
    destruct (List.filter _ sales); [destruct Hs|].
    destruct (List.filter _ reviews); [destruct Hrv|].
    eexists; reflexivity.
Qed.

Lemma merge_reviews_rows sales reviews r :
  In r (map snd (merge_reviews sales reviews)) <->
  exists o, Spec.first_review o sales reviews = Some r.
Proof.
  rewrite merge_reviews_values, drop_duplicates_find, find_first_review.
  split; [eauto|]. intros [o Hr].
  rewrite (first_review_order o sales reviews r Hr). exact Hr.
Qed.

Lemma merge_reviews_ids sales reviews o :
  In o (map sr_order_id (map snd (merge_reviews sales reviews))) <->
  In o (map Sales.order_id sales) /\ In o (map Review.order_id reviews).
Proof.
  rewrite <- first_review_exists, in_map_iff. split.
  - intros (r & Hk & Hr). apply merge_reviews_rows in Hr as [o' Hr].
    rewrite (first_review_order _ _ _ _ Hr) in Hk. subst o'. eauto.
  - intros [r Hr]. exists r.
    split; [eapply first_review_order; exact Hr|].
    apply merge_reviews_rows. eauto.
Qed.

Lemma merge_reviews_length sales reviews :
  length (merge_reviews sales reviews)
  = length (Spec.reviewed_orders sales reviews).
Proof.
  rewrite <- (length_map snd), <- (length_map sr_order_id).
  apply Permutation_length. apply NoDup_Permutation.
  - rewrite merge_reviews_values. apply drop_duplicates_keys.
  - unfold Spec.reviewed_orders. apply NoDup_ListNoDup, List.NoDup_filter.
    apply NoDup_ListNoDup, unique_NoDup.
  - intros o. rewrite !list_elem_of_In, merge_reviews_ids.
    unfold Spec.reviewed_orders. rewrite List.filter_In, unique_In.
    rewrite bool_decide_eq_true, list_elem_of_In. reflexivity.
Qed.

(** X20.  The table the satisfaction analysis works on has one row for
    each order that has both a sale and a review, and no other row: the row
    of an order carries the delivery columns of the order's first sales row
    and the score of the order's first review, so further items and further
    reviews of an order count for nothing.  The number of its rows is the
    number of distinct orders that occur in both tables. *)
Theorem merge_reviews_one_row_per_order
    (sales : list Sales.t) (reviews : list Review.t) :
  let rows := map snd (merge_reviews sales reviews) in
  NoDup (map sr_order_id rows)
  /\ (forall r, In r rows <->
        exists o, Spec.first_review o sales reviews = Some r)
  /\ (forall o, In o (map sr_order_id rows) <->
        In o (map Sales.order_id sales) /\ In o (map Review.order_id reviews))
  /\ length rows = length (Spec.reviewed_orders sales reviews).
Proof.
  cbn zeta. split.
  { rewrite merge_reviews_values. apply drop_duplicates_keys. }
  split; [apply merge_reviews_rows|].
  split; [apply merge_reviews_ids|].
  rewrite length_map. apply merge_reviews_length.
Qed.

Lemma sorted_distinct_lt {V} (l : list (Z * V)) :
  StronglySorted (fun x y => (inject_Z (fst x) <= inject_Z (fst y))%Q) l ->
  NoDup (map fst l) ->
  StronglySorted Z.lt (map fst l).
Proof.
  induction 1 as [|x l Hs IH Hx]; cbn [map]; intros Hnd; [constructor|].
  apply NoDup_cons in Hnd as [Hnin Hnd]. constructor; [apply IH; exact Hnd|].
  apply Forall_forall. intros k Hk. apply list_elem_of_In in Hk.
  apply in_map_iff in Hk as (y & <- & Hy).
  rewrite Forall_forall in Hx.
  specialize (Hx y (proj2 (list_elem_of_In _ _) Hy)).
  rewrite <- Zle_Qle in Hx.
  assert (fst x <> fst y); [|lia].
  intros Heq. apply Hnin. rewrite Heq. apply list_elem_of_In, in_map. exact Hy.
Qed.

Lemma group_nonempty {K R} `{EqDecision K} `{Ord K}
    (key : R -> option K) (l : list R) k :
  In k (unique_sorted (map key l)) -> (1 <= length (group_of key k l))%nat.
Proof.
  intros Hk. apply list_elem_of_In, unique_sorted_elem, list_elem_of_In in Hk.
  apply in_map_iff in Hk as (r & Hkr & Hr).
  assert (Hin : In r (group_of key k l)).
  { apply List.filter_In. split; [exact Hr|].
    apply bool_decide_eq_true. exact Hkr. }
  destruct (group_of key k l); [destruct Hin|simpl; lia].
Qed.

Context {S : Sorter} {LS : SorterLaws S}.

(** X21.  The three tables of [analyze_customer_satisfaction], in terms
    of the one-row-per-order table.  'Total Reviews' is the number of
    distinct orders with a sale and a review, not the number of reviews.
    The delivery table has one row for each delivery category that occurs
    (rows without a category are in none), with the number of orders of the
    category and their mean score rounded to two decimals; the counts add up
    to the number of rows that have a category.  The score table lists the
    scores that occur in strictly ascending order, each with its share of
    the rows in percent, rounded to one decimal. *)
Theorem analyze_customer_satisfaction_tables
    (sales_data : DataFrame Sales.t) (reviews_data : DataFrame Review.t)
    (res : satisfaction) :
  analyze_customer_satisfaction sales_data reviews_data = Ok res ->
  let rows :=
    map snd (merge_reviews (values sales_data) (values reviews_data)) in
  let scores := map sr_review_score rows in
  values (overall_metrics res)
  = [ ("Average Review Score"%string, Np.mean (map inject_Z scores));
      ("Total Reviews"%string,
       Np.of_Z (Z.of_nat
                  (length (Spec.reviewed_orders (values sales_data)
                             (values reviews_data)))));
      ("Average Delivery Days"%string,
       Np.mean (map inject_Z (omap sr_delivery_speed_days rows))) ]
  /\ (let t := values (delivery_satisfaction res) in
      NoDup (map delivery_category t)
      /\ (forall c, In c (map delivery_category t) <->
            exists r, In r rows /\ sr_delivery_category r = Some c)
      /\ Forall
           (fun row =>
              let g := Spec.delivery_rows (delivery_category row) rows in
              review_count row = Z.of_nat (length g)
              /\ 1 <= review_count row
              /\ avg_review_score row
                 = round2_float
                     (Np.mean (map (fun r => inject_Z (sr_review_score r)) g)))
           t
      /\ Spec.total (map review_count t)
         = Z.of_nat
             (length (List.filter
                        (fun r => match sr_delivery_category r with
                                  | Some _ => true
                                  | None => false
                                  end) rows)))
  /\ (let d := values (score_distribution res) in
      StronglySorted Z.lt (map review_score d)
      /\ (forall k, In k (map review_score d) <-> In k scores)
      /\ Forall
           (fun row =>
              percentage row
              = Np.Finite
                  (Np.round1 (Spec.share (review_score row) scores * 100)))
           d).
Proof.
  intros Hrun. unfold analyze_customer_satisfaction, select in Hrun.
  destruct (forallb (has_column sales_data) _); [|discriminate].
  destruct (forallb (has_column reviews_data) _); [|discriminate].
  cbn [bind] in Hrun. injection Hrun as <-.
  cbn [overall_metrics delivery_satisfaction score_distribution].
  change (values (mkDataFrame
                    ["order_id"; "delivery_speed_days"; "delivery_category"]%string
                    (rows sales_data))) with (values sales_data).
  change (values (mkDataFrame ["order_id"; "review_score"]%string
                    (rows reviews_data))) with (values reviews_data).
  cbn zeta. rewrite !values_range_index.
  set (rows := map snd (merge_reviews (values sales_data) (values reviews_data))).
  set (scores := map sr_review_score rows).
  split; [|split].
  - rewrite merge_reviews_length. unfold scores. rewrite map_map. reflexivity.
  - assert (Hcat : map delivery_category
                     (map satisfaction_row (groupby sr_delivery_category rows))
                   = unique_sorted (map sr_delivery_category rows)).
    { rewrite map_map. cbn [satisfaction_row delivery_category].
      apply groupby_keys. }
    split; [rewrite Hcat; apply unique_sorted_NoDup|].
    split; [|split].
    + intros c. rewrite Hcat, <- list_elem_of_In, unique_sorted_elem,
        list_elem_of_In, in_map_iff.
      split; intros (r & H1 & H2); exists r; split; assumption.
    + apply Forall_forall. intros row Hrow.
      apply list_elem_of_In, in_map_iff in Hrow as ([k g] & <- & Hkg).
      unfold groupby in Hkg. apply in_map_iff in Hkg as (k' & Heq & Hk').
      inversion Heq; subst k' g; clear Heq.
      cbn [satisfaction_row delivery_category review_count avg_review_score
           fst snd]. rewrite length_map.
      split; [reflexivity|]. split; [|reflexivity].
      pose proof (group_nonempty sr_delivery_category rows k Hk'). lia.
    + rewrite map_map. cbn [satisfaction_row review_count snd].
      rewrite <- (groupby_lengths sr_delivery_category rows).
      f_equal. apply map_ext. intros kg. rewrite length_map. reflexivity.
  - rewrite map_map. cbn [review_score percentage].
    set (sorted := sort_index (value_counts_normalize scores)).
    assert (Hperm : Permutation sorted (value_counts_normalize scores))
      by apply sort_asc_Permutation.
    rewrite value_counts_normalize_shares in Hperm.
    assert (Hkeys : Permutation (map fst sorted) (map fst (value_counts scores))).
    { rewrite (Permutation_map fst Hperm), map_map. reflexivity. }
    split; [|split].
    + apply sorted_distinct_lt; [apply sort_asc_sorted|].
      rewrite Hkeys. apply value_counts_keys.
    + intros k. rewrite <- list_elem_of_In, Hkeys, list_elem_of_In.
      rewrite (Permutation_map fst (value_counts_Permutation scores)) at 1.
      rewrite map_map. cbn [fst]. rewrite map_id. apply unique_In.
    + apply Forall_fmap, Forall_forall. intros e He.
      rewrite Hperm in He. apply list_elem_of_In, in_map_iff in He
        as (e' & <- & _).
      reflexivity.
Qed.

End Satisfaction.

Lemma analyze_customer_satisfaction_tables_witness :
  exists res,
    EcommerceMetrics.analyze_customer_satisfaction (H := Pandas.stable_sorter)
      three_sales two_reviews = Py.Ok res
    /\ Pandas.values (EcommerceMetrics.overall_metrics res)
       = [ ("Average Review Score"%string,
            Np.mean (map inject_Z
                       (map EcommerceMetrics.sr_review_score
                          (map snd (EcommerceMetrics.merge_reviews
                                      (Pandas.values three_sales)
                                      (Pandas.values two_reviews))))));
           ("Total Reviews"%string,
            Np.of_Z (Z.of_nat
                       (length (Spec.reviewed_orders
                                  (Pandas.values three_sales)
                                  (Pandas.values two_reviews)))));
           ("Average Delivery Days"%string,
            Np.mean (map inject_Z
                       (omap EcommerceMetrics.sr_delivery_speed_days
                          (map snd (EcommerceMetrics.merge_reviews
                                      (Pandas.values three_sales)
                                      (Pandas.values two_reviews)))))) ].
Proof.
  destruct (EcommerceMetrics.analyze_customer_satisfaction
              (H := Pandas.stable_sorter) three_sales two_reviews)
    as [res|] eqn:Hrun; [|vm_compute in Hrun; discriminate].
  exists res. split; [reflexivity|].
  apply (proj1 (analyze_customer_satisfaction_tables
                  (S := Pandas.stable_sorter) three_sales two_reviews
                  res Hrun)).
Defined.

(** One order with two items and two reviews, one sale without a review
    and one review without a sale: the analysis sees one row, the first
    review of the order. *)
Example satisfaction_of_one_reviewed_order :
  match EcommerceMetrics.analyze_customer_satisfaction
          (H := Pandas.stable_sorter) three_sales two_reviews with
  | Py.Ok res =>
      (map (fun e => Spec.same_float (snd e) (Np.Finite 1))
         (Pandas.values (EcommerceMetrics.overall_metrics res)),
       map (fun row => (EcommerceMetrics.delivery_category row,
                        EcommerceMetrics.review_count row))
         (Pandas.values (EcommerceMetrics.delivery_satisfaction res)),
       map (fun row => (EcommerceMetrics.review_score row,
                        Spec.same_float (EcommerceMetrics.percentage row)
                          (Np.Finite 100)))
         (Pandas.values (EcommerceMetrics.score_distribution res)))
  | Py.Raise _ => ([], [], [])
  end
  = ([false; true; false], [("1-3 days"%string, 1)], [(5, true)]).
Proof. vm_compute. reflexivity. Qed.

(** ** Results on business_metrics.py: geographic performance *)

Section Geography.
Import Py Pandas EcommerceMetrics.





Context {S : Sorter} {LS : SorterLaws S}.


End Geography.


(** Two items of one order from SP and one item from RJ: SP has two
    "orders" and one customer; the sale of the unknown order is in no
    state. *)
Example geography_of_three_sales :
  match EcommerceMetrics.analyze_geographic_performance
          (H := Pandas.stable_sorter) geo_sales geo_orders geo_customers with
  | Py.Ok table =>
      map (fun row => (EcommerceMetrics.customer_state row,
                       EcommerceMetrics.st_total_revenue row,
                       EcommerceMetrics.st_total_orders row,
                       EcommerceMetrics.st_unique_customers row))
        (Pandas.values table)
  | Py.Raise _ => []
  end
  = [("RJ"%string, 30%Q, 1, 1); ("SP"%string, 15%Q, 2, 1)].
Proof. vm_compute. reflexivity. Qed.
